(** * SpeedTest-MultiProtocol: statistics, throughput and protocol selection

    A shallow embedding of the measurement code of
    [assets/js/webrtc-speed-test.js] (classes [WebRTCSpeedTest] and
    [UDPSpeedTest]), [assets/js/webrtc-integration.js]
    ([WebRTCSpeedTestIntegration]) and the multi-protocol driver
    ([MultiProtocolSpeedTest]).

    JavaScript numbers are IEEE-754 binary64 values.  The embedding is
    written once over an interface [Number] of the arithmetic the code
    uses ([+], [-], [*], [/], [Math.abs], literals), and is run at two
    instances: Rocq's primitive [float] (binary64 with round-to-nearest,
    what the program computes, including [Infinity] and [NaN]) and [Q]
    (exact rationals, in which the algebraic laws of the formulas are
    stated, under hypotheses that keep every divisor non-zero).  What
    binary64 itself does to the speed computation (division by zero,
    overflow, finiteness within bounds) is proved on [float] from the
    IEEE-754 specification of its operations ([SpecFloat]). *)

From Stdlib Require Import String Ascii List NArith ZArith QArith Qabs Lia Bool.
From Stdlib Require Import Floats.
From Stdlib Require Uint63.
Import ListNotations.

Set Warnings "-inexact-float".

(** ** JavaScript numbers *)

Declare Scope num_scope.
Delimit Scope num_scope with num.

Class Number (num : Type) : Type := {
  num_of_Z : Z -> num;
  num_add : num -> num -> num;
  num_sub : num -> num -> num;
  num_mul : num -> num -> num;
  num_div : num -> num -> num;
  num_abs : num -> num
}.

Infix "+" := num_add : num_scope.
Infix "-" := num_sub : num_scope.
Infix "*" := num_mul : num_scope.
Infix "/" := num_div : num_scope.

(** [lit z] is the numeric literal [z]; [num_of_nat] the value of a
    [.length]. *)
Definition lit {num} `{Number num} (z : Z) : num := num_of_Z z.
Definition num_of_nat {num} `{Number num} (n : nat) : num := num_of_Z (Z.of_nat n).

(** Binary64: an integer literal is converted exactly (below 2^53). *)
Definition float_of_Z (z : Z) : float :=
  match z with
  | Z0 => PrimFloat.zero
  | Zpos _ => PrimFloat.of_uint63 (Uint63.of_Z z)
  | Zneg p => PrimFloat.opp (PrimFloat.of_uint63 (Uint63.of_Z (Zpos p)))
  end.

#[export] Instance float_Number : Number float := {
  num_of_Z := float_of_Z;
  num_add := PrimFloat.add;
  num_sub := PrimFloat.sub;
  num_mul := PrimFloat.mul;
  num_div := PrimFloat.div;
  num_abs := PrimFloat.abs
}.

#[export] Instance Q_Number : Number Q := {
  num_of_Z := inject_Z;
  num_add := Qplus;
  num_sub := Qminus;
  num_mul := Qmult;
  num_div := Qdiv;
  num_abs := Qabs
}.

(** ** JavaScript values and promises *)

(** A value a function may hand back where the caller expects a number. *)
Inductive jsval (num : Type) : Type :=
| JNum (x : num)
| JUndefined
| JNull.
Arguments JNum {num} x.
Arguments JUndefined {num}.
Arguments JNull {num}.

(** The settlement of an awaited promise (or of a call that may throw):
    [Rejected msg] stands for [throw new Error(msg)] / [reject(...)]. *)
Inductive outcome (A : Type) : Type :=
| Resolved (a : A)
| Rejected (message : string).
Arguments Resolved {A} a.
Arguments Rejected {A} message.

(** ** class UDPSpeedTest *)

Module UDPSpeedTest.
Section WithNumber.
Context {num : Type} `{Number num}.
Local Open Scope num_scope.

(** The object's fields that the test phases read.  [sendUDPPing i] is
    the value the i-th call of [sendUDPPing] resolves with: a latency, or
    [None] for [null] (no pong, fetch error or 5 s timeout; the promise
    never rejects).  The download and upload phases run against an
    [EventSource] and [fetch]; their settlements are given. *)
Record t : Type := {
  serverInfo : bool;             (* this.serverInfo is non-null *)
  pingCount : nat;               (* this.config.pingCount *)
  sendUDPPing : nat -> option num;
  downloadSettles : outcome (jsval num);   (* [speedMbps] of the result *)
  uploadSettles : outcome (jsval num)
}.

Record pingResults : Type := {
  average : num;
  jitter : jsval num;
  samples : list num;
  protocol : string
}.

(** [samples[i]]; the loop below never leaves the array, so the value
    for an index out of range is immaterial (see [jitter_loop_default]). *)
Definition get (d : num) (samples : list num) (i : nat) : num := nth i samples d.

(** [for (let i = 1; i < samples.length; i++)
      jitterSum += Math.abs(samples[i] - samples[i - 1]);]
    with [steps] iterations left to run from index [i]. *)
Fixpoint jitter_loop (d : num) (samples : list num) (i steps : nat) (jitterSum : num) : num :=
  match steps with
  | O => jitterSum
  | S steps' =>
      jitter_loop d samples (S i) steps'
        (jitterSum + num_abs (get d samples i - get d samples (i - 1)))
  end.

Definition calculateJitter (samples : list num) : jsval num :=
  if (length samples <? 2)%nat then JNum (lit 0)
  else
    let jitterSum := jitter_loop (lit 0) samples 1 (length samples - 1) (lit 0) in
    JNum (jitterSum / (num_of_nat (length samples) - lit 1)).

(** The ping loop: [pingCount] pings, replies pushed in order. *)
Fixpoint ping_loop (send : nat -> option num) (i steps : nat) (results : list num) : list num :=
  match steps with
  | O => results
  | S steps' =>
      ping_loop send (S i) steps'
        (match send i with
         | Some latency => results ++ [latency]
         | None => results
         end)
  end.

(** [pingResults.reduce((a, b) => a + b, 0)] *)
Definition reduce_add (l : list num) : num := fold_left num_add l (lit 0).

Definition startPingTest (this : t) : outcome pingResults :=
  if negb (serverInfo this) then Rejected "Server not available"
  else
    let results := ping_loop (sendUDPPing this) 0 (pingCount this) [] in
    if (0 <? length results)%nat then
      let avgPing := reduce_add results / num_of_nat (length results) in
      let jitter := calculateJitter results in
      Resolved {| average := avgPing; jitter := jitter;
                  samples := results; protocol := "UDP" |}
    else Rejected "No successful ping responses received".

Definition startDownloadTest (this : t) : outcome (jsval num) :=
  if negb (serverInfo this) then Rejected "Server not available"
  else downloadSettles this.

Definition startUploadTest (this : t) : outcome (jsval num) :=
  if negb (serverInfo this) then Rejected "Server not available"
  else uploadSettles this.

(** [disconnect()]: the socket is closed and [serverInfo] reset to
    [null]. *)
Definition disconnect (this : t) : t :=
  {| serverInfo := false;
     pingCount := pingCount this;
     sendUDPPing := sendUDPPing this;
     downloadSettles := downloadSettles this;
     uploadSettles := uploadSettles this |}.

(** *** The download phase, event by event *)

(** What the [EventSource] of [startDownloadTest] delivers before the
    timeout fires: a message of type ['data'] ([size] is the value of
    [data.size || this.config.packetSize]), the message of type
    ['complete'] (with the clock at its arrival), a message that is
    neither or whose [JSON.parse] throws, or an error event. *)
Inductive downloadEvent : Type :=
| DataMessage (size : num)
| CompleteMessage (now : num)
| IgnoredMessage
| ErrorEvent.

Record downloadResults : Type := {
  duration : num;
  bytesReceived : num;
  packetsReceived : num;
  speedMbps : num;
  downloadProtocol : string
}.

(** The handlers of the phase over the events in their order; the
    promise settles at the first ['complete'] message or error event
    (either closes the source), and is rejected by the timer when neither
    came.  The rejection value of an error event is the event itself,
    named here by its type. *)
Fixpoint download_loop (startTime : num) (events : list downloadEvent)
    (bytesReceived packetsReceived : num) : outcome downloadResults :=
  match events with
  | [] => Rejected "Download test timeout"
  | DataMessage size :: rest =>
      download_loop startTime rest (bytesReceived + size) (packetsReceived + lit 1)
  | CompleteMessage now :: _ =>
      let duration := now - startTime in
      Resolved {| duration := duration;
                  bytesReceived := bytesReceived;
                  packetsReceived := packetsReceived;
                  speedMbps := (bytesReceived * lit 8) / (duration / lit 1000) / lit 1000000;
                  downloadProtocol := "UDP" |}
  | IgnoredMessage :: rest => download_loop startTime rest bytesReceived packetsReceived
  | ErrorEvent :: _ => Rejected "error"
  end.

(** [startDownloadTest] with the clock at its start and the events it
    then receives. *)
Definition startDownloadTest_events (startTime : num) (events : list downloadEvent)
    (this : t) : outcome downloadResults :=
  if negb (serverInfo this) then Rejected "Server not available"
  else download_loop startTime events (lit 0) (lit 0).

(** *** The upload phase, fetch by fetch *)

Record uploadResults : Type := {
  uploadDuration : num;
  bytesSent : num;
  packetsSent : num;
  uploadSpeedMbps : num;
  uploadProtocol : string
}.

(** The [fetch] calls of the upload interval that settle before the
    phase's timer fires, in the order they settle: [true] for a fetch
    that resolved, [false] for one that threw (logged, nothing counted,
    the interval goes on). *)
Fixpoint upload_loop (packetSize : num) (fetches : list bool) (bytesSent packetsSent : num)
    : num * num :=
  match fetches with
  | [] => (bytesSent, packetsSent)
  | true :: rest => upload_loop packetSize rest (bytesSent + packetSize) (packetsSent + lit 1)
  | false :: rest => upload_loop packetSize rest bytesSent packetsSent
  end.

(** [startUploadTest]: [packetSize] is [this.config.packetSize], the
    byte length of the buffer sent; [startTime] and [stopTime] are the
    clock at the start and when the timer fires. *)
Definition startUploadTest_fetches (packetSize startTime stopTime : num)
    (fetches : list bool) (this : t) : outcome uploadResults :=
  if negb (serverInfo this) then Rejected "Server not available"
  else
    let (bytesSent, packetsSent) := upload_loop packetSize fetches (lit 0) (lit 0) in
    let duration := stopTime - startTime in
    Resolved {| uploadDuration := duration;
                bytesSent := bytesSent;
                packetsSent := packetsSent;
                uploadSpeedMbps := (bytesSent * lit 8) / (duration / lit 1000) / lit 1000000;
                uploadProtocol := "UDP" |}.

End WithNumber.
Arguments t num : clear implicits.
Arguments pingResults num : clear implicits.
Arguments downloadEvent num : clear implicits.
Arguments downloadResults num : clear implicits.
Arguments uploadResults num : clear implicits.
End UDPSpeedTest.

(** ** class WebRTCSpeedTestIntegration (statistics) *)

Module WebRTCSpeedTestIntegration.
Section WithNumber.
Context {num : Type} `{Number num}.
Local Open Scope num_scope.

Fixpoint jitter_loop (d : num) (pingSamples : list num) (i steps : nat) (jitterSum : num) : num :=
  match steps with
  | O => jitterSum
  | S steps' =>
      jitter_loop d pingSamples (S i) steps'
        (jitterSum + num_abs (nth i pingSamples d - nth (i - 1) pingSamples d))
  end.

Definition calculateJitter (pingSamples : list num) : jsval num :=
  if (length pingSamples <? 2)%nat then JNum (lit 0)
  else
    let jitterSum := jitter_loop (lit 0) pingSamples 1 (length pingSamples - 1) (lit 0) in
    JNum (jitterSum / (num_of_nat (length pingSamples) - lit 1)).

(** The ping loop of [startPingTest]: ten calls of
    [await this.speedTest.measureLatency()], the i-th settling as
    [measure i] ([Resolved None] for [null]; [Rejected] when the promise
    rejects, as it does when [dataChannel.send] throws inside it, and the
    loop is then left for the [catch]). *)
Fixpoint ping_loop (measure : nat -> outcome (option num)) (i steps : nat)
    (pingSamples : list num) : outcome (list num) :=
  match steps with
  | O => Resolved pingSamples
  | S steps' =>
      match measure i with
      | Resolved (Some latency) => ping_loop measure (S i) steps' (pingSamples ++ [latency])
      | Resolved None => ping_loop measure (S i) steps' pingSamples
      | Rejected message => Rejected message
      end
  end.

(** [startPingTest]: the average and the jitter handed to
    [Show.pingResults(avgPing, "Final")] and
    [Show.jitterResult(jitter, "Final")], or [None] when nothing final is
    shown.  The [try] block begins with [Status = "Testing Latency"] and
    [Show.statusMessage("Testing Latency")]: [hostUI] tells whether the
    page that loads the script defines the globals [Status] and [Show]
    (no file of the repository does).  Without them the first statement
    throws a [ReferenceError] (class bodies are strict code) before any
    ping is sent, the [catch] logs it and nothing is shown.  The method
    itself never throws. *)
Definition startPingTest (speedTest hostUI : bool) (measure : nat -> outcome (option num))
    : option (num * jsval num) :=
  if negb speedTest then None
  else if negb hostUI then None
  else
    match ping_loop measure 0 10 [] with
    | Rejected _ => None
    | Resolved pingSamples =>
        if (0 <? length pingSamples)%nat then
          let avgPing :=
            fold_left num_add pingSamples (lit 0) / num_of_nat (length pingSamples) in
          Some (avgPing, calculateJitter pingSamples)
        else None
    end.

End WithNumber.
End WebRTCSpeedTestIntegration.

(** ** class WebRTCSpeedTest *)

Module WebRTCSpeedTest.
Section WithNumber.
Context {num : Type} `{Number num}.
Local Open Scope num_scope.

Record downloadStats_t : Type := {
  startTime : num;
  bytesReceived : num;
  packetsReceived : num
}.

(** [uploadStats]; its [startTime] field is [startTimeUp] here. *)
Record uploadStats_t : Type := {
  startTimeUp : num;
  bytesSent : num;
  packetsSent : num
}.

Record t : Type := {
  dataChannelOpen : bool;   (* this.dataChannel && readyState === 'open' *)
  isTestRunning : bool;
  downloadStats : downloadStats_t;
  uploadStats : uploadStats_t
}.

Definition constructor : t :=
  {| dataChannelOpen := false;
     isTestRunning := false;
     downloadStats := {| startTime := lit 0; bytesReceived := lit 0; packetsReceived := lit 0 |};
     uploadStats := {| startTimeUp := lit 0; bytesSent := lit 0; packetsSent := lit 0 |} |}.

(** [(bytes * 8) / (duration / 1000) / 1000000], as every speed
    computation of the class writes it; [duration] is in milliseconds. *)
Definition speedMbps_of (bytes duration : num) : num :=
  (bytes * lit 8) / (duration / lit 1000) / lit 1000000.

(** [now] is the value [performance.now()] returns during the call.  The
    result is the method's return value; on [true] the request has been
    sent and the completion timer armed. *)
Definition startDownloadTest (now : num) (this : t) : t * bool :=
  if negb (dataChannelOpen this) then (this, false)
  else
    ({| dataChannelOpen := dataChannelOpen this;
        isTestRunning := true;
        downloadStats := {| startTime := now; bytesReceived := lit 0; packetsReceived := lit 0 |};
        uploadStats := uploadStats this |}, true).

Definition startUploadTest (now : num) (this : t) : t * bool :=
  if negb (dataChannelOpen this) then (this, false)
  else
    ({| dataChannelOpen := dataChannelOpen this;
        isTestRunning := true;
        downloadStats := downloadStats this;
        uploadStats := {| startTimeUp := now; bytesSent := lit 0; packetsSent := lit 0 |} |}, true).

(** [updateDownloadSpeed]/[updateUploadSpeed]: the value handed to the
    progress callback, if any; the object is not modified. *)
Definition updateDownloadSpeed (now : num) (this : t) : option num :=
  if negb (isTestRunning this) then None
  else Some (speedMbps_of (bytesReceived (downloadStats this))
                          (now - startTime (downloadStats this))).

Definition updateUploadSpeed (now : num) (this : t) : option num :=
  if negb (isTestRunning this) then None
  else Some (speedMbps_of (bytesSent (uploadStats this))
                          (now - startTimeUp (uploadStats this))).

(** [size] is the value of [data.byteLength || data.length].  The
    closing call of [updateDownloadSpeed] only notifies the progress
    callback. *)
Definition handleIncomingData (size : num) (this : t) : t :=
  if negb (isTestRunning this) then this
  else
    {| dataChannelOpen := dataChannelOpen this;
       isTestRunning := isTestRunning this;
       downloadStats :=
         {| startTime := startTime (downloadStats this);
            bytesReceived := bytesReceived (downloadStats this) + size;
            packetsReceived := packetsReceived (downloadStats this) + lit 1 |};
       uploadStats := uploadStats this |}.

(** One firing of the upload interval; [sent = false] when
    [dataChannel.send] throws.  The result tells whether the interval
    stays armed. *)
Definition uploadTick (sent : bool) (this : t) : t * bool :=
  if negb (isTestRunning this) then (this, false)
  else if sent then
    ({| dataChannelOpen := dataChannelOpen this;
        isTestRunning := isTestRunning this;
        downloadStats := downloadStats this;
        uploadStats :=
          {| startTimeUp := startTimeUp (uploadStats this);
             bytesSent := bytesSent (uploadStats this) + lit (1024 * 16);
             packetsSent := packetsSent (uploadStats this) + lit 1 |} |}, true)
  else (this, false).

(** The second component is [speedMbps], logged and passed to
    [onDownloadComplete] / [onUploadComplete]. *)
Definition stopDownloadTest (now : num) (this : t) : t * jsval num :=
  let this' := {| dataChannelOpen := dataChannelOpen this;
                  isTestRunning := false;
                  downloadStats := downloadStats this;
                  uploadStats := uploadStats this |} in
  let duration := now - startTime (downloadStats this') in
  (this', JNum (speedMbps_of (bytesReceived (downloadStats this')) duration)).

Definition stopUploadTest (now : num) (this : t) : t * jsval num :=
  let this' := {| dataChannelOpen := dataChannelOpen this;
                  isTestRunning := false;
                  downloadStats := downloadStats this;
                  uploadStats := uploadStats this |} in
  let duration := now - startTimeUp (uploadStats this') in
  (this', JNum (speedMbps_of (bytesSent (uploadStats this')) duration)).

(** [pong] is the latency computed from the echoed message, [None] when
    the 5 s timer resolves first. *)
Definition measureLatency (pong : option num) (this : t) : option num :=
  if negb (dataChannelOpen this) then None else pong.

Definition close (this : t) : t :=
  {| dataChannelOpen := false;
     isTestRunning := false;
     downloadStats := downloadStats this;
     uploadStats := uploadStats this |}.

(** *** A whole phase, as the callers drive it *)

(** Messages delivered by [channel.onmessage], in arrival order. *)
Definition receive (sizes : list num) (this : t) : t :=
  fold_left (fun o size => handleIncomingData size o) sizes this.

(** Firings of the upload interval until it is cleared. *)
Fixpoint uploadTicks (sends : list bool) (this : t) : t :=
  match sends with
  | [] => this
  | sent :: rest =>
      let (this', armed) := uploadTick sent this in
      if armed then uploadTicks rest this' else this'
  end.

(** A download phase: the request at [t0], payloads arriving at the
    given times, the completion timer firing at [t1].  When the channel
    is not open nothing is armed and no completion is ever signalled. *)
Definition downloadPhase (t0 : num) (arrivals : list (num * num)) (t1 : num)
    (this : t) : t * option (jsval num) :=
  let (this1, started) := startDownloadTest t0 this in
  if started then
    let (this2, speed) := stopDownloadTest t1 (receive (map snd arrivals) this1) in
    (this2, Some speed)
  else (this1, None).

Definition uploadPhase (t0 : num) (sends : list bool) (t1 : num)
    (this : t) : t * option (jsval num) :=
  let (this1, started) := startUploadTest t0 this in
  if started then
    let (this2, speed) := stopUploadTest t1 (uploadTicks sends this1) in
    (this2, Some speed)
  else (this1, None).

(** *** When [dataChannel.send] throws *)

(** [measureLatency] and [startDownloadTest] call [dataChannel.send]
    once, outside any [try]; the definitions above are the methods when
    that call returns.  Below, [send] is what the call does: it returns
    ([Resolved tt]) or throws ([Rejected message]).  Thrown inside the
    promise executor of [measureLatency], the exception rejects the
    promise; thrown in [startDownloadTest], it leaves the method after
    the flag and the statistics have been set and before the completion
    timer is armed. *)
Definition measureLatency_send (send : outcome unit) (pong : option num) (this : t)
    : outcome (option num) :=
  if negb (dataChannelOpen this) then Resolved None
  else
    match send with
    | Resolved _ => Resolved (measureLatency pong this)
    | Rejected message => Rejected message
    end.

Definition startDownloadTest_send (send : outcome unit) (now : num) (this : t)
    : t * outcome bool :=
  let (this', started) := startDownloadTest now this in
  if started then
    match send with
    | Resolved _ => (this', Resolved true)
    | Rejected message => (this', Rejected message)
    end
  else (this', Resolved false).

(** A download phase as a caller sees it who waits for
    [onDownloadComplete]: a speed, or nothing when the test was not
    started or the request could not be sent. *)
Definition downloadPhase_send (send : outcome unit) (t0 : num) (arrivals : list (num * num))
    (t1 : num) (this : t) : t * option (jsval num) :=
  match startDownloadTest_send send t0 this with
  | (this1, Resolved true) =>
      let (this2, speed) := stopDownloadTest t1 (receive (map snd arrivals) this1) in
      (this2, Some speed)
  | (this1, _) => (this1, None)
  end.

(** *** The object as a reactive system *)

(** What can happen to the object: a message on the channel, the
    completion timers, a firing of the upload interval, [close()], and
    the two requests to start a test. *)
Inductive event : Type :=
| Message (size : num)
| DownloadTimer (now : num)
| UploadTimer (now : num)
| UploadInterval (sent : bool)
| Close
| StartDownload (now : num)
| StartUpload (now : num).

Definition handle (this : t) (e : event) : t :=
  match e with
  | Message size => handleIncomingData size this
  | DownloadTimer now => fst (stopDownloadTest now this)
  | UploadTimer now => fst (stopUploadTest now this)
  | UploadInterval sent => fst (uploadTick sent this)
  | Close => close this
  | StartDownload now => fst (startDownloadTest now this)
  | StartUpload now => fst (startUploadTest now this)
  end.

Definition is_start (e : event) : bool :=
  match e with
  | StartDownload _ | StartUpload _ => true
  | _ => false
  end.

Definition handle_all (events : list event) (this : t) : t :=
  fold_left handle events this.

End WithNumber.
Arguments t num : clear implicits.
Arguments event num : clear implicits.
End WebRTCSpeedTest.

(** ** class MultiProtocolSpeedTest *)

Module MultiProtocolSpeedTest.
Section WithNumber.
Context {num : Type} `{Number num}.
Local Open Scope string_scope.

Record config_t : Type := {
  preferredProtocol : string;
  enableComparison : bool;
  testDuration : num;
  autoFallback : bool
}.

(** [null] is [None] in the two object fields. *)
Record t : Type := {
  webrtcTest : option (WebRTCSpeedTest.t num);
  udpTest : option (UDPSpeedTest.t num);
  availableProtocols : list string;
  currentProtocol : string;
  comparisonMode : bool;
  config : config_t
}.

Definition constructor : t :=
  {| webrtcTest := None;
     udpTest := None;
     availableProtocols := [];
     currentProtocol := "auto";
     comparisonMode := false;
     config := {| preferredProtocol := "udp";
                  enableComparison := true;
                  testDuration := lit 10000;
                  autoFallback := true |} |}.

(** What [initialize] finds in the page. *)
Record window_t : Type := {
  hasWebRTC : bool;                (* window.WebRTCSpeedTest && window.RTCPeerConnection *)
  initializePeerConnection : bool; (* what the call resolves with *)
  hasUDP : bool;                   (* window.UDPSpeedTest *)
  udpObject : UDPSpeedTest.t num;  (* the object after its initialize() *)
  udpInitialize : bool             (* what that call resolves with *)
}.

(** What happens on the data channel while a WebRTC test runs: the
    latency of the echoed ping, the clock at the start and at the end of
    each phase, the payloads that arrive (time, size) and the fate of
    each send ([pingSend] in [measureLatency], [requestSend] in
    [startDownloadTest], [sends] in the upload interval). *)
Record network_t : Type := {
  pingSend : outcome unit;
  pong : option num;
  requestSend : outcome unit;
  downloadAt : num;
  arrivals : list (num * num);
  downloadStopAt : num;
  uploadAt : num;
  sends : list bool;
  uploadStopAt : num
}.

(** [ping] objects: the one [UDPSpeedTest.startPingTest] builds, or
    [{ average, protocol }] with [average] possibly [null]. *)
Inductive pingObject : Type :=
| UDPPing (r : UDPSpeedTest.pingResults num)
| AveragePing (average : option num) (protocol : string).

(** [download]/[upload] objects, reduced to [{ speedMbps, protocol }]. *)
Record speedObject : Type := {
  speedMbps : jsval num;
  speedProtocol : string
}.

Record testResults : Type := {
  ping : option pingObject;
  download : option speedObject;
  upload : option speedObject;
  protocol : string
}.

(** [results[protocol]] in comparison mode. *)
Inductive comparisonEntry : Type :=
| Tested (r : testResults)
| Failed (error : string) (protocol : string).

(** [array.includes(x)] on strings *)
Definition includes (l : list string) (x : string) : bool :=
  existsb (String.eqb x) l.

Definition setupProtocolSelector (this : t) : t :=
  let current :=
    if includes (availableProtocols this) (preferredProtocol (config this))
    then preferredProtocol (config this)
    else currentProtocol this in
  {| webrtcTest := webrtcTest this;
     udpTest := udpTest this;
     availableProtocols := availableProtocols this;
     currentProtocol := current;
     comparisonMode := enableComparison (config this);
     config := config this |}.

Definition push (protocol : string) (this : t) : t :=
  {| webrtcTest := webrtcTest this;
     udpTest := udpTest this;
     availableProtocols := availableProtocols this ++ [protocol];
     currentProtocol := currentProtocol this;
     comparisonMode := comparisonMode this;
     config := config this |}.

Definition set_webrtcTest (w : option (WebRTCSpeedTest.t num)) (this : t) : t :=
  {| webrtcTest := w;
     udpTest := udpTest this;
     availableProtocols := availableProtocols this;
     currentProtocol := currentProtocol this;
     comparisonMode := comparisonMode this;
     config := config this |}.

Definition set_udpTest (u : option (UDPSpeedTest.t num)) (this : t) : t :=
  {| webrtcTest := webrtcTest this;
     udpTest := u;
     availableProtocols := availableProtocols this;
     currentProtocol := currentProtocol this;
     comparisonMode := comparisonMode this;
     config := config this |}.

Definition initialize (window : window_t) (this : t) : t * bool :=
  let this1 :=
    if hasWebRTC window then
      let this' := set_webrtcTest (Some WebRTCSpeedTest.constructor) this in
      if initializePeerConnection window then push "webrtc" this' else this'
    else this in
  let this2 :=
    if hasUDP window then
      let this' := set_udpTest (Some (udpObject window)) this1 in
      if udpInitialize window then push "udp" this' else this'
    else this1 in
  let this3 := push "http" this2 in
  (setupProtocolSelector this3, true).

Definition getSelectedProtocol (this : t) : string :=
  if currentProtocol this =? "auto" then
    if includes (availableProtocols this) "udp" then "udp"
    else if includes (availableProtocols this) "webrtc" then "webrtc"
    else "http"
  else currentProtocol this.

(** [try { x = await p } catch (error) { console.error(...) }] on a field
    initialised to [null]. *)
Definition or_null {A : Type} (settled : outcome A) : option A :=
  match settled with
  | Resolved a => Some a
  | Rejected _ => None
  end.

Definition speed_of (protocol : string) (speed : jsval num) : speedObject :=
  {| speedMbps := speed; speedProtocol := protocol |}.

Definition runUDPTest (this : t) : outcome testResults :=
  match udpTest this with
  | None => Rejected "UDP testing not available"
  | Some u =>
      Resolved
        {| ping := option_map UDPPing (or_null (UDPSpeedTest.startPingTest u));
           download := option_map (speed_of "UDP") (or_null (UDPSpeedTest.startDownloadTest u));
           upload := option_map (speed_of "UDP") (or_null (UDPSpeedTest.startUploadTest u));
           protocol := "udp" |}
  end.

(** The two promises of [runWebRTCTest] resolve through
    [onDownloadComplete]/[onUploadComplete] and are otherwise rejected,
    by their timers or by a [send] that throws ([None] below); every
    rejection, that of [measureLatency] included, is caught and the
    field stays [null]. *)
Definition runWebRTCTest (net : network_t) (this : t) : t * outcome testResults :=
  match webrtcTest this with
  | None => (this, Rejected "WebRTC testing not available")
  | Some w =>
      let latency := WebRTCSpeedTest.measureLatency_send (pingSend net) (pong net) w in
      let (w1, down) :=
        WebRTCSpeedTest.downloadPhase_send (requestSend net) (downloadAt net) (arrivals net)
          (downloadStopAt net) w in
      let (w2, up) :=
        WebRTCSpeedTest.uploadPhase (uploadAt net) (sends net) (uploadStopAt net) w1 in
      (set_webrtcTest (Some w2) this,
       Resolved
         {| ping := option_map (fun average => AveragePing average "webrtc") (or_null latency);
            download := option_map (speed_of "webrtc") down;
            upload := option_map (speed_of "webrtc") up;
            protocol := "webrtc" |})
  end.

Definition runHTTPTest (this : t) : outcome testResults :=
  Resolved
    {| ping := Some (AveragePing (Some (lit 50)) "http");
       download := Some (speed_of "http" (JNum (lit 100)));
       upload := Some (speed_of "http" (JNum (lit 50)));
       protocol := "http" |}.

Definition runProtocolTest (net : network_t) (this : t) (protocol : string)
    : t * outcome testResults :=
  if protocol =? "udp" then (this, runUDPTest this)
  else if protocol =? "webrtc" then runWebRTCTest net this
  else if protocol =? "http" then (this, runHTTPTest this)
  else (this, Rejected ("Unknown protocol: " ++ protocol)).

Definition set_protocol (protocol : string) (r : testResults) : testResults :=
  {| ping := ping r; download := download r; upload := upload r; protocol := protocol |}.

(** The result of a run: the object afterwards, the protocols handed to
    [runProtocolTest] in order, and what the caller receives. *)
Record run (A : Type) : Type := {
  after : t;
  attempted : list string;
  settled : outcome A
}.
Arguments after {A} r.
Arguments attempted {A} r.
Arguments settled {A} r.

Definition runSingleProtocolTest (net : network_t) (this : t) : run testResults :=
  let protocol := getSelectedProtocol this in
  match runProtocolTest net this protocol with
  | (this1, Resolved results) =>
      {| after := this1; attempted := [protocol];
         settled := Resolved (set_protocol protocol results) |}
  | (this1, Rejected error) =>
      if autoFallback (config this1) && negb (protocol =? "http") then
        let (this2, fallback) := runProtocolTest net this1 "http" in
        {| after := this2; attempted := [protocol; "http"]; settled := fallback |}
      else
        {| after := this1; attempted := [protocol]; settled := Rejected error |}
  end.

(** *** The own properties of an object, in the order they are listed *)

(** An object is the list of its own properties in the order
    [Object.entries] gives them: first the array indices, ascending, then
    the other strings in the order they were created.  An array index is
    the canonical decimal string of an integer from 0 to 2^32 - 2. *)
Definition digit_of (c : ascii) : option N :=
  let n := N_of_ascii c in
  if ((48 <=? n) && (n <=? 57))%N then Some (n - 48)%N else None.

Fixpoint digits_value (s : string) (acc : N) : option N :=
  match s with
  | EmptyString => Some acc
  | String c rest =>
      match digit_of c with
      | Some d => digits_value rest (10 * acc + d)%N
      | None => None
      end
  end.

Definition array_index (key : string) : option N :=
  match key with
  | EmptyString => None
  | String c rest =>
      if (c =? "0")%char && negb (rest =? "") then None
      else
        match digits_value key 0 with
        | Some n => if (n <=? 4294967294)%N then Some n else None
        | None => None
        end
  end.

(** A key that is neither an array index nor ["__proto__"]. *)
Definition ordinary_key (key : string) : bool :=
  negb (key =? "__proto__")
  && match array_index key with Some _ => false | None => true end.

(** A property whose name is not an array index: a new key is appended,
    an existing key keeps its place. *)
Fixpoint assign_named {A : Type} (key : string) (value : A) (results : list (string * A))
    : list (string * A) :=
  match results with
  | [] => [(key, value)]
  | (k, v) :: rest =>
      if k =? key then (k, value) :: rest else (k, v) :: assign_named key value rest
  end.

(** A property whose name is the array index [n]: it goes before the
    larger indices and before every other name. *)
Fixpoint assign_index {A : Type} (n : N) (key : string) (value : A)
    (results : list (string * A)) : list (string * A) :=
  match results with
  | [] => [(key, value)]
  | (k, v) :: rest =>
      if k =? key then (k, value) :: rest
      else
        match array_index k with
        | Some n' =>
            if (n' <? n)%N then (k, v) :: assign_index n key value rest
            else (key, value) :: (k, v) :: rest
        | None => (key, value) :: (k, v) :: rest
        end
  end.

(** [results[key] = value] where [value] is an object, on an object
    created by [{}]: the key ["__proto__"] sets the prototype and creates
    no property. *)
Definition assign {A : Type} (key : string) (value : A) (results : list (string * A))
    : list (string * A) :=
  if key =? "__proto__" then results
  else
    match array_index key with
    | Some n => assign_index n key value results
    | None => assign_named key value results
    end.

Fixpoint comparison_loop (net : network_t) (protocols : list string) (this : t)
    (attempts : list string) (results : list (string * comparisonEntry))
    : t * list string * list (string * comparisonEntry) :=
  match protocols with
  | [] => (this, attempts, results)
  | protocol :: rest =>
      let (this1, testResult) := runProtocolTest net this protocol in
      let entry :=
        match testResult with
        | Resolved r => Tested (set_protocol protocol r)
        | Rejected error => Failed error protocol
        end in
      comparison_loop net rest this1 (attempts ++ [protocol]) (assign protocol entry results)
  end.

Definition runComparisonTest (net : network_t) (this : t)
    : run (list (string * comparisonEntry)) :=
  match comparison_loop net (availableProtocols this) this [] [] with
  | (this1, attempts, results) =>
      {| after := this1; attempted := attempts; settled := Resolved results |}
  end.

(** [disconnect()]: both test objects are shut down in place; the
    fields and [availableProtocols] stay as they are. *)
Definition disconnect (this : t) : t :=
  {| webrtcTest := option_map WebRTCSpeedTest.close (webrtcTest this);
     udpTest := option_map UDPSpeedTest.disconnect (udpTest this);
     availableProtocols := availableProtocols this;
     currentProtocol := currentProtocol this;
     comparisonMode := comparisonMode this;
     config := config this |}.

(** The [value]s of the [<option>]s [setupProtocolSelector] writes into
    the protocol [<select>]. *)
Definition select_options (this : t) : list string :=
  ["auto"]
  ++ (if includes (availableProtocols this) "udp" then ["udp"] else [])
  ++ (if includes (availableProtocols this) "webrtc" then ["webrtc"] else [])
  ++ ["http"].

(** The [change] listeners of the [<select>] and of the check box
    (their [updateStatus()] only rewrites the status line). *)
Definition onProtocolChange (value : string) (this : t) : t :=
  {| webrtcTest := webrtcTest this;
     udpTest := udpTest this;
     availableProtocols := availableProtocols this;
     currentProtocol := value;
     comparisonMode := comparisonMode this;
     config := config this |}.

Definition onComparisonChange (checked : bool) (this : t) : t :=
  {| webrtcTest := webrtcTest this;
     udpTest := udpTest this;
     availableProtocols := availableProtocols this;
     currentProtocol := currentProtocol this;
     comparisonMode := checked;
     config := config this |}.

(** [runSpeedTest] resolves with a single result or with the comparison
    object, according to [comparisonMode]. *)
Definition runSpeedTest (net : network_t) (this : t)
    : run testResults + run (list (string * comparisonEntry)) :=
  if comparisonMode this then inr (runComparisonTest net this)
  else inl (runSingleProtocolTest net this).

End WithNumber.
Arguments t num : clear implicits.
Arguments window_t num : clear implicits.
Arguments network_t num : clear implicits.
Arguments testResults num : clear implicits.
Arguments comparisonEntry num : clear implicits.
Arguments after {num A} r.
Arguments attempted {num A} r.
Arguments settled {num A} r.
End MultiProtocolSpeedTest.

(** ** The statistics in the specification's words *)

Section Statistics.
Context {num : Type} `{Number num}.
Local Open Scope num_scope.

(** [|s[i] - s[i-1]|] for [i = 1 .. n-1], in order. *)
Fixpoint consecutive_abs_diffs (s : list num) : list num :=
  match s with
  | a :: (b :: _) as rest => num_abs (b - a) :: consecutive_abs_diffs rest
  | _ => []
  end.

(** A sum taken from left to right, starting at 0. *)
Definition sum (l : list num) : num := fold_left num_add l (lit 0).

Definition mean (s : list num) : num := sum s / num_of_nat (length s).

Definition mean_abs_diff (s : list num) : num :=
  sum (consecutive_abs_diffs s) / (num_of_nat (length s) - lit 1).

(** The latency samples of a ping phase: the replies that arrived, in
    the order of their requests. *)
Definition latency_samples (this : UDPSpeedTest.t num) : list num :=
  flat_map (fun i => match UDPSpeedTest.sendUDPPing this i with
                     | Some latency => [latency]
                     | None => []
                     end)
           (seq 0 (UDPSpeedTest.pingCount this)).

(** The specification's throughput: [(B * 8) / (T * 1_000_000)] with
    [T] in seconds. *)
Definition throughputMbps (B T : num) : num := (B * lit 8) / (T * lit 1000000).

Definition elapsedSeconds (from to : num) : num := (to - from) / lit 1000.

End Statistics.

(** The fixed global priority of the specification, restricted to the
    available kinds. *)
Definition priority_order (available : list string) : list string :=
  filter (MultiProtocolSpeedTest.includes available) ["udp"; "webrtc"; "http"]%string.

(** The packets an upload phase sends: the interval fires until a send
    throws, which clears it. *)
Fixpoint packets_sent (sends : list bool) : nat :=
  match sends with
  | true :: rest => S (packets_sent rest)
  | _ => O
  end.

(** When the first payload of a download phase arrived. *)
Definition firstByteAt {num : Type} (arrivals : list (num * num)) : option num :=
  option_map fst (hd_error arrivals).

(** The kinds in the order [initialize] probes them: WebRTC, then UDP,
    then HTTP, which is always there. *)
Definition probe_order {num : Type} (window : MultiProtocolSpeedTest.window_t num)
    : list string :=
  (if MultiProtocolSpeedTest.hasWebRTC window
      && MultiProtocolSpeedTest.initializePeerConnection window
   then ["webrtc"%string] else [])
  ++ (if MultiProtocolSpeedTest.hasUDP window && MultiProtocolSpeedTest.udpInitialize window
      then ["udp"%string] else [])
  ++ ["http"%string].

(** The sizes of the ['data'] messages among the events of a UDP
    download. *)
Definition data_sizes {num : Type} (events : list (UDPSpeedTest.downloadEvent num))
    : list num :=
  flat_map (fun e => match e with
                     | UDPSpeedTest.DataMessage size => [size]
                     | _ => []
                     end) events.

(** The events before which a UDP download is still pending. *)
Definition pending {num : Type} (e : UDPSpeedTest.downloadEvent num) : bool :=
  match e with
  | UDPSpeedTest.DataMessage _ | UDPSpeedTest.IgnoredMessage => true
  | _ => false
  end.

(** A counter incremented once per element, from 0. *)
Definition counted {num : Type} `{Number num} {A : Type} (l : list A) : num :=
  fold_left (fun n _ => (n + lit 1)%num) l (lit 0).

(** The fetches that resolved. *)
Definition resolved_fetches (fetches : list bool) : list bool :=
  filter (fun sent => sent) fetches.

(** The [protocol] field of an entry of the comparison object. *)
Definition entry_protocol {num : Type} (e : MultiProtocolSpeedTest.comparisonEntry num)
    : string :=
  match e with
  | MultiProtocolSpeedTest.Tested r => MultiProtocolSpeedTest.protocol r
  | MultiProtocolSpeedTest.Failed _ protocol => protocol
  end.

(** The upload counters of a [WebRTCSpeedTest] agree: 16384 bytes per
    packet. *)
Definition upload_counters_agree (this : WebRTCSpeedTest.t Q) : Prop :=
  (WebRTCSpeedTest.bytesSent (WebRTCSpeedTest.uploadStats this)
   == (16384 # 1) * WebRTCSpeedTest.packetsSent (WebRTCSpeedTest.uploadStats this)
   /\ 0 <= WebRTCSpeedTest.packetsSent (WebRTCSpeedTest.uploadStats this))%Q.

(** The result of a test in which no download and no upload was
    measured. *)
Definition nothing_measured {num : Type}
    (ping : option (@MultiProtocolSpeedTest.pingObject num)) (protocol : string)
    : MultiProtocolSpeedTest.testResults num :=
  {| MultiProtocolSpeedTest.ping := ping;
     MultiProtocolSpeedTest.download := None;
     MultiProtocolSpeedTest.upload := None;
     MultiProtocolSpeedTest.protocol := protocol |}.

(** Every entry of a comparison object is filed under its own
    protocol. *)
Definition labelled {num : Type}
    (results : list (string * MultiProtocolSpeedTest.comparisonEntry num)) : Prop :=
  forall key entry, In (key, entry) results -> entry_protocol entry = key.

(** *** A finished phase *)

(** The two phases [stopDownloadTest] and [stopUploadTest] finish: what
    is reported, the byte count it is computed from and the clock value
    the phase was requested at. *)
Inductive phase : Type := Download | Upload.

Definition reported {num : Type} `{Number num} (p : phase) (now : num)
    (this : WebRTCSpeedTest.t num) : jsval num :=
  match p with
  | Download => snd (WebRTCSpeedTest.stopDownloadTest now this)
  | Upload => snd (WebRTCSpeedTest.stopUploadTest now this)
  end.

Definition totalBytes {num : Type} (p : phase) (this : WebRTCSpeedTest.t num) : num :=
  match p with
  | Download => WebRTCSpeedTest.bytesReceived (WebRTCSpeedTest.downloadStats this)
  | Upload => WebRTCSpeedTest.bytesSent (WebRTCSpeedTest.uploadStats this)
  end.

Definition phaseStart {num : Type} (p : phase) (this : WebRTCSpeedTest.t num) : num :=
  match p with
  | Download => WebRTCSpeedTest.startTime (WebRTCSpeedTest.downloadStats this)
  | Upload => WebRTCSpeedTest.startTimeUp (WebRTCSpeedTest.uploadStats this)
  end.

(** *** Binades of binary64 numbers *)

(** [m'] at exponent [e'] is [m] at exponent [e] shifted right by [n]
    binary places, if [n] is positive, and [m] at [e] otherwise. *)
Definition shifted (m e n m' e' : Z) : Prop :=
  ((n <= 0)%Z /\ m' = m /\ e' = e)
  \/ ((0 < n)%Z /\ m' = (m / 2 ^ n)%Z /\ e' = (e + n)%Z).

(** A zero, or a positive finite number below [2^M]. *)
Definition nonneg_below (M : Z) (x : spec_float) : Prop :=
  match x with
  | S754_zero _ => True
  | S754_finite false m e => (Zpos (digits2_pos m) + e <= M)%Z
  | _ => False
  end.

(** A positive number, finite or not, that is at least [2^(L-1)]. *)
Definition pos_above (L : Z) (x : spec_float) : Prop :=
  match x with
  | S754_finite false m e => (L <= Zpos (digits2_pos m) + e)%Z
  | S754_infinity false => True
  | _ => False
  end.

(** *** The driver objects a page can arrive at *)

(** What the code of the repository does with a [MultiProtocolSpeedTest]:
    it is created by [new], [initialize] is called on it, the two
    [change] listeners of the selector fire (the [<select>] can only
    take the [value] of one of its [<option>]s), tests are run and
    [disconnect] is called.  Nothing else writes its fields. *)
Inductive reachable {num : Type} `{Number num} : MultiProtocolSpeedTest.t num -> Prop :=
| reachable_constructor : reachable MultiProtocolSpeedTest.constructor
| reachable_initialize (window : MultiProtocolSpeedTest.window_t num) this :
    reachable this -> reachable (fst (MultiProtocolSpeedTest.initialize window this))
| reachable_onProtocolChange (value : string) this :
    reachable this -> In value (MultiProtocolSpeedTest.select_options this) ->
    reachable (MultiProtocolSpeedTest.onProtocolChange value this)
| reachable_onComparisonChange (checked : bool) this :
    reachable this -> reachable (MultiProtocolSpeedTest.onComparisonChange checked this)
| reachable_runProtocolTest (net : MultiProtocolSpeedTest.network_t num)
    (protocol : string) this :
    reachable this ->
    reachable (fst (MultiProtocolSpeedTest.runProtocolTest net this protocol))
| reachable_runSingleProtocolTest (net : MultiProtocolSpeedTest.network_t num) this :
    reachable this ->
    reachable (MultiProtocolSpeedTest.after
                 (MultiProtocolSpeedTest.runSingleProtocolTest net this))
| reachable_runComparisonTest (net : MultiProtocolSpeedTest.network_t num) this :
    reachable this ->
    reachable (MultiProtocolSpeedTest.after
                 (MultiProtocolSpeedTest.runComparisonTest net this))
| reachable_disconnect this :
    reachable this -> reachable (MultiProtocolSpeedTest.disconnect this).

(** What these steps maintain: a listed transport has its test object,
    the current protocol is one the selector offers, and the preference
    is the constructor's. *)
Definition consistent {num : Type} `{Number num} (this : MultiProtocolSpeedTest.t num)
    : Prop :=
  (MultiProtocolSpeedTest.includes
     (MultiProtocolSpeedTest.availableProtocols this) "udp" = true ->
   MultiProtocolSpeedTest.udpTest this <> None)
  /\ (MultiProtocolSpeedTest.includes
        (MultiProtocolSpeedTest.availableProtocols this) "webrtc" = true ->
      MultiProtocolSpeedTest.webrtcTest this <> None)
  /\ In (MultiProtocolSpeedTest.currentProtocol this)
        (MultiProtocolSpeedTest.select_options this)
  /\ MultiProtocolSpeedTest.preferredProtocol (MultiProtocolSpeedTest.config this)
     = "udp"%string.

(** ** Concrete objects used in the examples *)

Module Examples.
Local Open Scope float_scope.

(** Ten pings of which four are answered, with 20, 22, 19 and 30 ms. *)
Definition four_replies (i : nat) : option float :=
  match i with
  | 0%nat => Some 20
  | 2%nat => Some 22
  | 3%nat => Some 19
  | 7%nat => Some 30
  | _ => None
  end.

Definition udp (send : nat -> option float) : UDPSpeedTest.t float :=
  {| UDPSpeedTest.serverInfo := true;
     UDPSpeedTest.pingCount := 10;
     UDPSpeedTest.sendUDPPing := send;
     UDPSpeedTest.downloadSettles := Resolved (JNum 94.5);
     UDPSpeedTest.uploadSettles := Resolved (JNum 41.25) |}.

Definition no_reply (i : nat) : option float := None.

Definition one_reply (i : nat) : option float :=
  match i with 4%nat => Some 20 | _ => None end.

(** A [WebRTCSpeedTest] whose data channel is open. *)
Definition open_channel {num} `{Number num} : WebRTCSpeedTest.t num :=
  {| WebRTCSpeedTest.dataChannelOpen := true;
     WebRTCSpeedTest.isTestRunning := false;
     WebRTCSpeedTest.downloadStats := WebRTCSpeedTest.downloadStats WebRTCSpeedTest.constructor;
     WebRTCSpeedTest.uploadStats := WebRTCSpeedTest.uploadStats WebRTCSpeedTest.constructor |}.

Definition quiet_network : MultiProtocolSpeedTest.network_t float :=
  {| MultiProtocolSpeedTest.pingSend := Resolved tt;
     MultiProtocolSpeedTest.pong := Some 12;
     MultiProtocolSpeedTest.requestSend := Resolved tt;
     MultiProtocolSpeedTest.downloadAt := 1000;
     MultiProtocolSpeedTest.arrivals := [(1100, 16384); (5000, 16384); (10500, 16384)];
     MultiProtocolSpeedTest.downloadStopAt := 11000;
     MultiProtocolSpeedTest.uploadAt := 12000;
     MultiProtocolSpeedTest.sends := [true; true; true];
     MultiProtocolSpeedTest.uploadStopAt := 22000 |}.

(** A page in which both optional transports initialise. *)
Definition full_window : MultiProtocolSpeedTest.window_t float :=
  {| MultiProtocolSpeedTest.hasWebRTC := true;
     MultiProtocolSpeedTest.initializePeerConnection := true;
     MultiProtocolSpeedTest.hasUDP := true;
     MultiProtocolSpeedTest.udpObject := udp four_replies;
     MultiProtocolSpeedTest.udpInitialize := true |}.


(** Only WebRTC and HTTP available, preference left at [auto]. *)
Definition webrtc_window : MultiProtocolSpeedTest.window_t float :=
  {| MultiProtocolSpeedTest.hasWebRTC := true;
     MultiProtocolSpeedTest.initializePeerConnection := true;
     MultiProtocolSpeedTest.hasUDP := true;
     MultiProtocolSpeedTest.udpObject := udp no_reply;
     MultiProtocolSpeedTest.udpInitialize := false |}.

(** A UDP bridge that initialised and then went away: no ping is
    answered, the download times out and no upload packet gets through. *)
Definition dead_udp : UDPSpeedTest.t float :=
  {| UDPSpeedTest.serverInfo := true;
     UDPSpeedTest.pingCount := 10;
     UDPSpeedTest.sendUDPPing := no_reply;
     UDPSpeedTest.downloadSettles := Rejected "Download test timeout";
     UDPSpeedTest.uploadSettles := Resolved (JNum 0) |}.

(** A page in which both optional transports initialise, with that
    bridge. *)
Definition dead_udp_window : MultiProtocolSpeedTest.window_t float :=
  {| MultiProtocolSpeedTest.hasWebRTC := true;
     MultiProtocolSpeedTest.initializePeerConnection := true;
     MultiProtocolSpeedTest.hasUDP := true;
     MultiProtocolSpeedTest.udpObject := dead_udp;
     MultiProtocolSpeedTest.udpInitialize := true |}.

(** All three kinds listed as available and preference [auto], but no
    UDP object behind the name: [runUDPTest] throws. *)
Definition udp_failing : MultiProtocolSpeedTest.t float :=
  {| MultiProtocolSpeedTest.webrtcTest := Some open_channel;
     MultiProtocolSpeedTest.udpTest := None;
     MultiProtocolSpeedTest.availableProtocols := ["udp"; "webrtc"; "http"]%string;
     MultiProtocolSpeedTest.currentProtocol := "auto";
     MultiProtocolSpeedTest.comparisonMode := false;
     MultiProtocolSpeedTest.config :=
       MultiProtocolSpeedTest.config MultiProtocolSpeedTest.constructor |}.

(** The four replies and the object again, in exact arithmetic. *)
Definition four_replies_exact (i : nat) : option Q :=
  match i with
  | 0%nat => Some (20 # 1)%Q
  | 2%nat => Some (22 # 1)%Q
  | 3%nat => Some (19 # 1)%Q
  | 7%nat => Some (30 # 1)%Q
  | _ => None
  end.

Definition udp_exact (send : nat -> option Q) : UDPSpeedTest.t Q :=
  {| UDPSpeedTest.serverInfo := true;
     UDPSpeedTest.pingCount := 10;
     UDPSpeedTest.sendUDPPing := send;
     UDPSpeedTest.downloadSettles := Resolved (JNum (189 # 2)%Q);
     UDPSpeedTest.uploadSettles := Resolved (JNum (165 # 4)%Q) |}.

End Examples.

(** ** Jitter and average *)

Section JitterFacts.
Context {num : Type} `{Number num}.
Local Open Scope num_scope.

(** Loop invariant of [calculateJitter]: having consumed the prefix
    [done] and standing on [a], the remaining iterations add the
    consecutive differences of [a :: rest] to the accumulator. *)
Lemma jitter_loop_suffix (d : num) (rest done : list num) (a acc : num) :
  UDPSpeedTest.jitter_loop d (done ++ a :: rest) (S (length done)) (length rest) acc
  = fold_left num_add (consecutive_abs_diffs (a :: rest)) acc.
Proof.
  revert done a acc.
  induction rest as [|b rest IH]; intros done a acc.
  - reflexivity.
  - cbn [length UDPSpeedTest.jitter_loop consecutive_abs_diffs fold_left].
    unfold UDPSpeedTest.get.
    replace (S (length done) - 1)%nat with (length done) by lia.
    rewrite (app_nth2 done (a :: b :: rest) d) by lia.
    replace (S (length done) - length done)%nat with 1%nat by lia.
    rewrite (app_nth2 done (a :: b :: rest) d) by lia.
    rewrite Nat.sub_diag.
    cbn [nth].
    specialize (IH (done ++ [a]) b (acc + num_abs (b - a))).
    rewrite <- app_assoc in IH.
    rewrite length_app in IH.
    cbn [length app] in IH.
    replace (length done + 1)%nat with (S (length done)) in IH by lia.
    exact IH.
Qed.

(** The value read for an index out of range plays no part. *)
Lemma jitter_loop_default (d d' : num) (s : list num) :
  UDPSpeedTest.jitter_loop d s 1 (length s - 1) (lit 0)
  = UDPSpeedTest.jitter_loop d' s 1 (length s - 1) (lit 0).
Proof.
  destruct s as [|a rest]; [reflexivity|].
  cbn [length].
  replace (S (length rest) - 1)%nat with (length rest) by lia.
  rewrite (jitter_loop_suffix d rest [] a), (jitter_loop_suffix d' rest [] a).
  reflexivity.
Qed.

Lemma calculateJitter_mean_abs_diff (s : list num) :
  (2 <= length s)%nat ->
  UDPSpeedTest.calculateJitter s = JNum (mean_abs_diff s).
Proof.
  intros Hlen.
  unfold UDPSpeedTest.calculateJitter, mean_abs_diff, sum.
  destruct (Nat.ltb_spec (length s) 2) as [Hlt|_]; [lia|].
  destruct s as [|a rest]; [cbn in Hlen; lia|].
  cbn [length].
  replace (S (length rest) - 1)%nat with (length rest) by lia.
  rewrite (jitter_loop_suffix (lit 0) rest [] a).
  reflexivity.
Qed.

Lemma calculateJitter_short (s : list num) :
  (length s < 2)%nat ->
  UDPSpeedTest.calculateJitter s = JNum (lit 0).
Proof.
  intros Hlen. unfold UDPSpeedTest.calculateJitter.
  destruct (Nat.ltb_spec (length s) 2) as [_|Hge]; [reflexivity | lia].
Qed.

(** The two copies of [calculateJitter] are the same function. *)
Lemma integration_jitter_loop_same (d : num) (s : list num) (i steps : nat) (acc : num) :
  WebRTCSpeedTestIntegration.jitter_loop d s i steps acc
  = UDPSpeedTest.jitter_loop d s i steps acc.
Proof.
  revert i acc. induction steps as [|steps IH]; intros i acc; [reflexivity|].
  cbn. apply IH.
Qed.

Lemma integration_calculateJitter_same (s : list num) :
  WebRTCSpeedTestIntegration.calculateJitter s = UDPSpeedTest.calculateJitter s.
Proof.
  unfold WebRTCSpeedTestIntegration.calculateJitter, UDPSpeedTest.calculateJitter.
  rewrite integration_jitter_loop_same. reflexivity.
Qed.

(** The ping loop pushes exactly the replies that arrived. *)
Lemma ping_loop_collects (send : nat -> option num) (steps i : nat) (results : list num) :
  UDPSpeedTest.ping_loop send i steps results
  = results ++ flat_map (fun i => match send i with
                                  | Some latency => [latency]
                                  | None => []
                                  end) (seq i steps).
Proof.
  revert i results.
  induction steps as [|steps IH]; intros i results.
  - cbn. now rewrite app_nil_r.
  - cbn [UDPSpeedTest.ping_loop seq flat_map]. rewrite IH.
    destruct (send i) as [latency|].
    + now rewrite <- app_assoc.
    + reflexivity.
Qed.

Lemma ping_loop_latency_samples (this : UDPSpeedTest.t num) :
  UDPSpeedTest.ping_loop (UDPSpeedTest.sendUDPPing this) 0 (UDPSpeedTest.pingCount this) []
  = latency_samples this.
Proof. apply ping_loop_collects. Qed.

End JitterFacts.

(** C1, as stated, fails: for the empty sequence and for a single sample
    both copies of [calculateJitter] return the number 0, so "jitter is
    reported as undefined for every sequence of length 0 or 1" is false. *)
Lemma calculateJitter_short_not_undefined :
  UDPSpeedTest.calculateJitter (@nil float) = JNum 0%float /\
  UDPSpeedTest.calculateJitter [20%float] = JNum 0%float /\
  WebRTCSpeedTestIntegration.calculateJitter [20%float] = JNum 0%float /\
  ~ (forall s : list float,
       (length s < 2)%nat -> UDPSpeedTest.calculateJitter s = JUndefined).
Proof.
  repeat split; try reflexivity.
  intros claim.
  specialize (claim [] ltac:(cbn; lia)).
  discriminate claim.
Qed.

(** C1 (amended): for every latency sample sequence of length 0 or 1,
    [calculateJitter] (in [UDPSpeedTest] and in
    [WebRTCSpeedTestIntegration]) returns the number 0. *)
Theorem calculateJitter_short_is_zero {num : Type} `{Number num} (s : list num) :
  (length s < 2)%nat ->
  UDPSpeedTest.calculateJitter s = JNum (lit 0) /\
  WebRTCSpeedTestIntegration.calculateJitter s = JNum (lit 0).
Proof.
  intros Hlen.
  split.
  - apply calculateJitter_short; exact Hlen.
  - etransitivity.
    + apply integration_calculateJitter_same.
    + apply calculateJitter_short; exact Hlen.
Qed.

Lemma calculateJitter_short_is_zero_witness :
  (length [20%float] < 2)%nat /\
  UDPSpeedTest.calculateJitter [20%float] = JNum 0%float /\
  WebRTCSpeedTestIntegration.calculateJitter [20%float] = JNum 0%float.
Proof.
  split.
  - cbn. lia.
  - refine (calculateJitter_short_is_zero (num := float) [20%float] _). cbn. lia.
Defined.

(** C8: when a ping phase collects the latency samples [s], with at
    least two of them, the reported average is [(Σ s[i]) / n] and the
    reported jitter is [(Σ |s[i] - s[i-1]|) / (n - 1)]; for the samples
    20, 22, 19, 30 ms, in binary64, the average is 22.75 ms and the jitter
    is the mean of 2, 3 and 11, that is 16/3 ms, between 5.33 and 5.34. *)
Theorem ping_average_and_jitter :
  (forall (num : Type) (N : Number num) (this : UDPSpeedTest.t num) (s : list num),
      UDPSpeedTest.serverInfo this = true ->
      latency_samples this = s ->
      (2 <= length s)%nat ->
      UDPSpeedTest.startPingTest this
      = Resolved {| UDPSpeedTest.average := mean s;
                    UDPSpeedTest.jitter := JNum (mean_abs_diff s);
                    UDPSpeedTest.samples := s;
                    UDPSpeedTest.protocol := "UDP" |})
  /\ (latency_samples (Examples.udp Examples.four_replies) = [20; 22; 19; 30]
      /\ consecutive_abs_diffs [20; 22; 19; 30] = [2; 3; 11]
      /\ UDPSpeedTest.startPingTest (Examples.udp Examples.four_replies)
         = Resolved {| UDPSpeedTest.average := 22.75;
                       UDPSpeedTest.jitter := JNum (16 / 3);
                       UDPSpeedTest.samples := [20; 22; 19; 30];
                       UDPSpeedTest.protocol := "UDP" |}
      /\ PrimFloat.leb 5.33 (16 / 3) = true
      /\ PrimFloat.ltb (16 / 3) 5.34 = true)%float.
Proof.
  split.
  - intros num N this s Hinfo Hs Hlen.
    unfold UDPSpeedTest.startPingTest.
    rewrite Hinfo, ping_loop_latency_samples, Hs. cbn [negb].
    destruct (Nat.ltb_spec 0 (length s)) as [_|Hzero]; [|lia].
    rewrite (calculateJitter_mean_abs_diff s Hlen).
    reflexivity.
  - repeat split; vm_compute; reflexivity.
Qed.

Lemma ping_average_and_jitter_witness :
  UDPSpeedTest.serverInfo (Examples.udp Examples.four_replies) = true /\
  (2 <= length [20; 22; 19; 30]%float)%nat /\
  UDPSpeedTest.startPingTest (Examples.udp Examples.four_replies)
  = Resolved {| UDPSpeedTest.average := mean [20; 22; 19; 30]%float;
                UDPSpeedTest.jitter := JNum (mean_abs_diff [20; 22; 19; 30]%float);
                UDPSpeedTest.samples := [20; 22; 19; 30]%float;
                UDPSpeedTest.protocol := "UDP" |}.
Proof.
  split; [reflexivity|].
  split; [cbn; lia|].
  apply (proj1 ping_average_and_jitter float float_Number
               (Examples.udp Examples.four_replies) [20; 22; 19; 30]%float).
  - reflexivity.
  - reflexivity.
  - cbn. lia.
Defined.

(** ** Throughput *)

Section ThroughputFacts.
Context {num : Type} `{Number num}.
Local Open Scope num_scope.
Import WebRTCSpeedTest.

Lemma handleIncomingData_stopped (size : num) (this : t num) :
  isTestRunning this = false -> handleIncomingData size this = this.
Proof. intros Hrun. unfold handleIncomingData. now rewrite Hrun. Qed.

Lemma receive_stopped (sizes : list num) (this : t num) :
  isTestRunning this = false -> receive sizes this = this.
Proof.
  intros Hrun. unfold receive.
  induction sizes as [|size sizes IH]; [reflexivity|].
  cbn [fold_left]. now rewrite handleIncomingData_stopped.
Qed.

(** With no test running and none started, nothing that happens to the
    object changes its download statistics. *)
Lemma handle_all_stopped (events : list (event num)) (this : t num) :
  isTestRunning this = false ->
  forallb (fun e => negb (is_start e)) events = true ->
  isTestRunning (handle_all events this) = false
  /\ downloadStats (handle_all events this) = downloadStats this.
Proof.
  unfold handle_all. revert this.
  induction events as [|e events IH]; intros this Hrun Hquiet.
  - split; [exact Hrun | reflexivity].
  - cbn [forallb] in Hquiet. apply andb_true_iff in Hquiet as [He Hquiet].
    cbn [fold_left].
    assert (Hstep : isTestRunning (handle this e) = false
                    /\ downloadStats (handle this e) = downloadStats this).
    { destruct e; cbn [is_start negb] in He; try discriminate He;
        cbn [handle]; unfold handleIncomingData, uploadTick;
        rewrite ?Hrun; cbn; split; (reflexivity || exact Hrun). }
    destruct Hstep as [Hrun' Hstats'].
    destruct (IH (handle this e) Hrun' Hquiet) as [Hrun'' Hstats''].
    split; [exact Hrun'' | now rewrite Hstats''].
Qed.

(** While a test runs every payload is counted. *)
Lemma receive_running (sizes : list num) (this : t num) :
  isTestRunning this = true ->
  receive sizes this
  = {| dataChannelOpen := dataChannelOpen this;
       isTestRunning := true;
       downloadStats :=
         {| startTime := startTime (downloadStats this);
            bytesReceived := fold_left num_add sizes (bytesReceived (downloadStats this));
            packetsReceived :=
              fold_left (fun n _ => n + lit 1) sizes (packetsReceived (downloadStats this)) |};
       uploadStats := uploadStats this |}.
Proof.
  unfold receive. revert this.
  induction sizes as [|size sizes IH]; intros this Hrun.
  - destruct this as [open running [start bytes packets] up]. cbn in *. now subst.
  - cbn [fold_left]. unfold handleIncomingData at 2. rewrite Hrun. cbn [negb].
    rewrite IH by reflexivity. reflexivity.
Qed.

Lemma uploadTicks_running (sends : list bool) (this : t num) :
  isTestRunning this = true ->
  uploadTicks sends this
  = {| dataChannelOpen := dataChannelOpen this;
       isTestRunning := true;
       downloadStats := downloadStats this;
       uploadStats :=
         {| startTimeUp := startTimeUp (uploadStats this);
            bytesSent := fold_left num_add (repeat (lit (1024 * 16)) (packets_sent sends))
                                   (bytesSent (uploadStats this));
            packetsSent := fold_left (fun n _ => n + lit 1)
                                     (repeat (lit (1024 * 16)) (packets_sent sends))
                                     (packetsSent (uploadStats this)) |} |}.
Proof.
  revert this.
  induction sends as [|sent sends IH]; intros this Hrun.
  - destruct this as [open running down [start bytes packets]]. cbn in *. now subst.
  - cbn [uploadTicks]. unfold uploadTick. rewrite Hrun. cbn [negb].
    destruct sent.
    + rewrite IH by reflexivity. reflexivity.
    + destruct this as [open running down [start bytes packets]]. cbn in *. now subst.
Qed.

(** A started download phase reports the quotient of the bytes received
    and of the time since the request. *)
Lemma downloadPhase_reports (t0 t1 : num) (arrivals : list (num * num)) (this : t num) :
  dataChannelOpen this = true ->
  snd (downloadPhase t0 arrivals t1 this)
  = Some (JNum (speedMbps_of (sum (map snd arrivals)) (t1 - t0))).
Proof.
  intros Hopen. unfold downloadPhase, startDownloadTest. rewrite Hopen. cbn [negb].
  rewrite receive_running by reflexivity. reflexivity.
Qed.

Lemma uploadPhase_reports (t0 t1 : num) (sends : list bool) (this : t num) :
  dataChannelOpen this = true ->
  snd (uploadPhase t0 sends t1 this)
  = Some (JNum (speedMbps_of (sum (repeat (lit (1024 * 16)) (packets_sent sends))) (t1 - t0))).
Proof.
  intros Hopen. unfold uploadPhase, startUploadTest. rewrite Hopen. cbn [negb].
  rewrite uploadTicks_running by reflexivity. reflexivity.
Qed.

(** Without an open channel nothing is started and nothing is reported. *)
Lemma downloadPhase_closed (t0 t1 : num) (arrivals : list (num * num)) (this : t num) :
  dataChannelOpen this = false -> downloadPhase t0 arrivals t1 this = (this, None).
Proof. intros Hopen. unfold downloadPhase, startDownloadTest. now rewrite Hopen. Qed.

(** When the request is sent the phase is the one above; without an
    open channel no send is attempted. *)
Lemma downloadPhase_send_returns (t0 t1 : num) (arrivals : list (num * num)) (this : t num) :
  downloadPhase_send (Resolved tt) t0 arrivals t1 this = downloadPhase t0 arrivals t1 this.
Proof.
  unfold downloadPhase_send, startDownloadTest_send, downloadPhase.
  destruct (startDownloadTest t0 this) as [this1 [|]]; reflexivity.
Qed.


End ThroughputFacts.

(** In exact arithmetic the code's grouping of the quotient is the
    specification's formula, and the quotient of a non-negative byte
    count by a positive duration is non-negative. *)
Lemma speedMbps_of_throughputMbps (B from to : Q) :
  from < to ->
  WebRTCSpeedTest.speedMbps_of B (to - from)%num
  == throughputMbps B (elapsedSeconds from to).
Proof.
  intros Hlt.
  assert (Hne : ~ to - from == 0).
  { intros Heq. apply (Qlt_irrefl to).
    setoid_replace to with (to - from + from) at 1 by ring.
    rewrite Heq. now rewrite Qplus_0_l. }
  unfold WebRTCSpeedTest.speedMbps_of, throughputMbps, elapsedSeconds, lit.
  cbn [num_of_Z num_add num_sub num_mul num_div Q_Number].
  field. exact Hne.
Qed.

Lemma speedMbps_of_nonneg (B D : Q) :
  0 <= B -> 0 < D -> 0 <= WebRTCSpeedTest.speedMbps_of B D.
Proof.
  intros HB HD.
  unfold WebRTCSpeedTest.speedMbps_of, lit.
  cbn [num_of_Z num_add num_sub num_mul num_div Q_Number].
  unfold Qdiv.
  repeat apply Qmult_le_0_compat; try apply Qinv_le_0_compat;
    try apply Qmult_le_0_compat; try apply Qinv_le_0_compat;
    try (apply Qlt_le_weak; exact HD); try exact HB; discriminate.
Qed.

(** In binary64 the code's grouping [(B*8)/(T/1000)/1000000] and the
    formula [(B*8)/(T_seconds*1000000)] may round differently. *)
Example binary64_grouping_differs_in_last_bit :
  (WebRTCSpeedTest.speedMbps_of 16384 (10000 - 0) = 0.013107200000000001
   /\ throughputMbps 16384 (elapsedSeconds 0 10000) = 0.013107199999999999)%float.
Proof. split; vm_compute; reflexivity. Qed.

(** C3, as stated, fails: a download requested at 0 ms whose first (and
    only) payload of 16384 bytes arrives at 5000 ms and which is stopped
    at 10000 ms reports the bytes over the 10 s since the request
    (about 0.0131 Mbps), not over the 5 s since the first byte (about
    0.0262 Mbps); in binary64 and in exact arithmetic alike. *)
Lemma throughput_not_from_first_byte :
  (firstByteAt [(5000, 16384)] = Some 5000
   /\ exists r : float,
       snd (WebRTCSpeedTest.downloadPhase 0 [(5000, 16384)] 10000 Examples.open_channel)
       = Some (JNum r)
       /\ r = WebRTCSpeedTest.speedMbps_of 16384 (10000 - 0)
       /\ PrimFloat.ltb r 0.014 = true
       /\ PrimFloat.ltb 0.026 (throughputMbps 16384 (elapsedSeconds 5000 10000)) = true)%float
  /\ (exists v : Q,
       snd (WebRTCSpeedTest.downloadPhase 0 [(5000 # 1, 16384 # 1)] (10000 # 1)
                                          Examples.open_channel)
       = Some (JNum v)
       /\ ~ v == throughputMbps (16384 # 1) (elapsedSeconds (5000 # 1) (10000 # 1)))%Q.
Proof.
  split.
  - split; [reflexivity|].
    eexists. split; [vm_compute; reflexivity|].
    repeat split; vm_compute; reflexivity.
  - eexists. split; [reflexivity|].
    vm_compute. discriminate.
Qed.

(** C3 (amended): for every finished download or upload phase with total
    bytes B, the reported throughput equals (B*8)/(T*1_000_000) Mbps in
    exact arithmetic, where T is the number of seconds elapsed since the
    phase was requested ([startTime] is taken by [startDownloadTest] /
    [startUploadTest]); B is the sum of the payload sizes received, resp.
    16384 bytes per packet sent. *)
Theorem throughput_from_request_time
    (this : WebRTCSpeedTest.t Q) (t0 t1 : Q)
    (arrivals : list (Q * Q)) (sends : list bool) :
  WebRTCSpeedTest.dataChannelOpen this = true ->
  t0 < t1 ->
  (exists v : Q,
      snd (WebRTCSpeedTest.downloadPhase t0 arrivals t1 this) = Some (JNum v)
      /\ v == throughputMbps (sum (map snd arrivals)) (elapsedSeconds t0 t1))
  /\ (exists v : Q,
      snd (WebRTCSpeedTest.uploadPhase t0 sends t1 this) = Some (JNum v)
      /\ v == throughputMbps (sum (repeat (16384 # 1) (packets_sent sends)))
                             (elapsedSeconds t0 t1)).
Proof.
  intros Hopen Hlt. split.
  - eexists. split.
    + apply downloadPhase_reports. exact Hopen.
    + apply speedMbps_of_throughputMbps. exact Hlt.
  - eexists. split.
    + apply uploadPhase_reports. exact Hopen.
    + apply speedMbps_of_throughputMbps. exact Hlt.
Qed.

Lemma throughput_from_request_time_witness :
  WebRTCSpeedTest.dataChannelOpen (Examples.open_channel (num := Q)) = true
  /\ 0 < 10000 # 1
  /\ (exists v : Q,
      snd (WebRTCSpeedTest.downloadPhase 0 [(5000 # 1, 16384 # 1)] (10000 # 1)
                                         Examples.open_channel) = Some (JNum v)
      /\ v == throughputMbps (sum (map snd [(5000 # 1, 16384 # 1)]))
                             (elapsedSeconds 0 (10000 # 1)))
  /\ (exists v : Q,
      snd (WebRTCSpeedTest.uploadPhase 0 [true; true; false] (10000 # 1)
                                       Examples.open_channel) = Some (JNum v)
      /\ v == throughputMbps (sum (repeat (16384 # 1) (packets_sent [true; true; false])))
                             (elapsedSeconds 0 (10000 # 1))).
Proof.
  split; [reflexivity|].
  split; [reflexivity|].
  apply (throughput_from_request_time Examples.open_channel 0 (10000 # 1)
           [(5000 # 1, 16384 # 1)] [true; true; false]); reflexivity.
Defined.

(** *** The speed computation in binary64 *)

Section Binary64Facts.
Local Open Scope Z_scope.

Lemma digits2_pos_bounds (p : positive) :
  2 ^ (Zpos (digits2_pos p) - 1) <= Zpos p < 2 ^ Zpos (digits2_pos p).
Proof.
  induction p as [p IH|p IH|]; cbn [digits2_pos]; [| |cbn; lia].
  - rewrite Pos2Z.inj_succ.
    replace (Z.succ (Zpos (digits2_pos p)) - 1) with (Z.succ (Zpos (digits2_pos p) - 1)) by lia.
    rewrite !Z.pow_succ_r by lia. lia.
  - rewrite Pos2Z.inj_succ.
    replace (Z.succ (Zpos (digits2_pos p)) - 1) with (Z.succ (Zpos (digits2_pos p) - 1)) by lia.
    rewrite !Z.pow_succ_r by lia. lia.
Qed.

Lemma Zdigits2_nonneg (m : Z) : 0 <= Zdigits2 m.
Proof. destruct m; cbn; lia. Qed.

Lemma Zdigits2_bounds (m : Z) :
  0 < m -> 2 ^ (Zdigits2 m - 1) <= m < 2 ^ Zdigits2 m.
Proof. destruct m as [|p|p]; try lia. intros _. apply digits2_pos_bounds. Qed.

Lemma Zdigits2_upper (m k : Z) : 0 <= k -> 0 <= m < 2 ^ k -> Zdigits2 m <= k.
Proof.
  intros Hk [Hm Hlt].
  destruct (Z.eq_dec m 0) as [->|Hne]; [cbn; lia|].
  destruct (Zdigits2_bounds m ltac:(lia)) as [Hlo _].
  destruct (Z_le_gt_dec (Zdigits2 m) k) as [|Hgt]; [assumption|exfalso].
  assert (2 ^ k <= 2 ^ (Zdigits2 m - 1)) by (apply Z.pow_le_mono_r; lia).
  lia.
Qed.

Lemma Zdigits2_lower (m k : Z) : 0 <= k -> 2 ^ k <= m -> k + 1 <= Zdigits2 m.
Proof.
  intros Hk Hle.
  assert (0 < 2 ^ k) by (apply Z.pow_pos_nonneg; lia).
  destruct (Zdigits2_bounds m ltac:(lia)) as [_ Hhi].
  destruct (Z_le_gt_dec (k + 1) (Zdigits2 m)) as [|Hgt]; [assumption|exfalso].
  assert (2 ^ Zdigits2 m <= 2 ^ k)
    by (apply Z.pow_le_mono_r; [lia | pose proof (Zdigits2_nonneg m); lia]).
  lia.
Qed.

Lemma Zdigits2_pos_iff (m : Z) : 0 <= m -> (0 < m <-> 1 <= Zdigits2 m).
Proof. destruct m; cbn; lia. Qed.

(** Digits of a quotient by a power of two. *)
Lemma Zdigits2_shift_upper (m n : Z) :
  0 <= m -> 0 < n -> Zdigits2 (m / 2 ^ n) <= Z.max (Zdigits2 m - n) 0.
Proof.
  intros Hm Hn.
  assert (Hpow : 0 < 2 ^ n) by (apply Z.pow_pos_nonneg; lia).
  destruct (Z.eq_dec m 0) as [->|Hne]; [rewrite Z.div_0_l by lia; cbn; lia|].
  destruct (Zdigits2_bounds m ltac:(lia)) as [_ Hhi].
  pose proof (Zdigits2_nonneg m) as Hd.
  destruct (Z_le_gt_dec n (Zdigits2 m)) as [Hle|Hgt].
  - rewrite Z.max_l by lia. apply Zdigits2_upper; [lia|].
    split; [apply Z.div_pos; lia|].
    apply Z.div_lt_upper_bound; [lia|].
    rewrite <- Z.pow_add_r by lia. replace (n + (Zdigits2 m - n)) with (Zdigits2 m) by lia.
    exact Hhi.
  - assert (2 ^ Zdigits2 m <= 2 ^ n) by (apply Z.pow_le_mono_r; lia).
    rewrite Z.div_small by lia. cbn. lia.
Qed.

Lemma Zdigits2_shift_lower (m n : Z) :
  0 <= m -> 0 < n -> 1 <= Zdigits2 m - n -> Zdigits2 m - n <= Zdigits2 (m / 2 ^ n).
Proof.
  intros Hm Hn Hd.
  assert (Hpow : 0 < 2 ^ n) by (apply Z.pow_pos_nonneg; lia).
  assert (Hpos : 0 < m) by (apply Zdigits2_pos_iff; lia).
  destruct (Zdigits2_bounds m Hpos) as [Hlo _].
  enough (Zdigits2 m - n - 1 + 1 <= Zdigits2 (m / 2 ^ n)) by lia.
  apply Zdigits2_lower; [lia|].
  apply Z.div_le_lower_bound; [lia|].
  rewrite <- Z.pow_add_r by lia.
  replace (n + (Zdigits2 m - n - 1)) with (Zdigits2 m - 1) by lia. exact Hlo.
Qed.

Lemma Zdigits2_mono (m m' : Z) : 0 <= m <= m' -> Zdigits2 m <= Zdigits2 m'.
Proof.
  intros [Hm Hle].
  destruct (Z.eq_dec m 0) as [->|Hne]; [apply Zdigits2_nonneg|].
  destruct (Zdigits2_bounds m ltac:(lia)) as [Hlo _].
  pose proof (Zdigits2_pos_iff m Hm).
  enough (Zdigits2 m - 1 + 1 <= Zdigits2 m') by lia.
  apply Zdigits2_lower; lia.
Qed.

Lemma Zdigits2_succ (m : Z) : 0 <= m -> Zdigits2 (m + 1) <= Zdigits2 m + 1.
Proof.
  intros Hm.
  destruct (Z.eq_dec m 0) as [->|Hne]; [cbn; lia|].
  destruct (Zdigits2_bounds m ltac:(lia)) as [_ Hhi].
  pose proof (Zdigits2_nonneg m).
  apply Zdigits2_upper; [lia|].
  rewrite Z.pow_add_r, Z.pow_1_r by lia. lia.
Qed.

(** One step of the right shift halves the mantissa. *)
Lemma shr_1_m (r : shr_record) : 0 <= shr_m r -> shr_m (shr_1 r) = shr_m r / 2.
Proof.
  destruct r as [m r s]. cbn [shr_m]. intros Hm.
  destruct m as [|[p|p|]|p]; cbn [shr_1 shr_m]; try reflexivity; try lia.
  - change (Zpos p~1) with (2 * Zpos p + 1). apply Z.div_unique with 1; lia.
  - change (Zpos p~0) with (2 * Zpos p). apply Z.div_unique with 0; lia.
Qed.

Lemma iter_shr_1_m (p : positive) :
  forall r : shr_record, 0 <= shr_m r -> shr_m (iter_pos shr_1 p r) = shr_m r / 2 ^ Zpos p.
Proof.
  assert (Hdiv : forall a b c, 0 < b -> 0 < c -> a / b / c = a / (b * c))
    by (intros; apply Z.div_div; lia).
  assert (Hnonneg : forall a k, 0 <= a -> 0 <= k -> 0 <= a / 2 ^ k)
    by (intros; apply Z.div_pos; [lia | apply Z.pow_pos_nonneg; lia]).
  induction p as [p IH|p IH|]; intros r Hr; cbn [iter_pos].
  - assert (H1 : 0 <= shr_m (shr_1 r)) by (rewrite shr_1_m by lia; apply Z.div_pos; lia).
    assert (Hpow : 0 < 2 ^ Zpos p) by (apply Z.pow_pos_nonneg; lia).
    assert (Hp : 2 ^ Zpos p~1 = 2 * 2 ^ Zpos p * 2 ^ Zpos p).
    { rewrite <- Z.mul_assoc, <- Z.pow_add_r, <- Z.pow_succ_r by lia. f_equal. lia. }
    rewrite IH by (rewrite IH by lia; apply Hnonneg; lia).
    rewrite IH by lia. rewrite shr_1_m by lia.
    rewrite !Hdiv by lia. rewrite Hp. f_equal. lia.
  - assert (Hpow : 0 < 2 ^ Zpos p) by (apply Z.pow_pos_nonneg; lia).
    assert (Hp : 2 ^ Zpos p~0 = 2 ^ Zpos p * 2 ^ Zpos p).
    { rewrite <- Z.pow_add_r by lia. f_equal. lia. }
    rewrite IH by (rewrite IH by lia; apply Hnonneg; lia).
    rewrite IH by lia.
    rewrite Hdiv by lia. rewrite Hp. reflexivity.
  - rewrite shr_1_m by lia. reflexivity.
Qed.

Lemma shr_record_of_loc_m (m : Z) (l : location) : shr_m (shr_record_of_loc m l) = m.
Proof. destruct l as [|[| |]]; reflexivity. Qed.

Lemma shr_fexp_shifted (m e : Z) (l : location) :
  0 <= m ->
  shifted m e (fexp prec emax (Zdigits2 m + e) - e)
    (shr_m (fst (shr_fexp prec emax m e l))) (snd (shr_fexp prec emax m e l)).
Proof.
  intros Hm. unfold shr_fexp, shr, shifted.
  destruct (fexp prec emax (Zdigits2 m + e) - e) as [|p|p] eqn:Hn; cbn [fst snd].
  - left. rewrite shr_record_of_loc_m. lia.
  - right. rewrite iter_shr_1_m by (rewrite shr_record_of_loc_m; lia).
    rewrite shr_record_of_loc_m. lia.
  - left. rewrite shr_record_of_loc_m. lia.
Qed.

Lemma round_nearest_even_bounds (m : Z) (l : location) :
  m <= round_nearest_even m l <= m + 1.
Proof.
  destruct l as [|[| |]]; cbn [round_nearest_even]; try lia.
  destruct (Z.even m); lia.
Qed.

(** The two shifts of [binary_round_aux], opened. *)
Lemma binary_round_aux_cases (sx : bool) (mx ex : Z) (lx : location) :
  0 <= mx ->
  exists m1 e1 m2 m3 e3,
    shifted mx ex (fexp prec emax (Zdigits2 mx + ex) - ex) m1 e1
    /\ m1 <= m2 <= m1 + 1
    /\ shifted m2 e1 (fexp prec emax (Zdigits2 m2 + e1) - e1) m3 e3
    /\ binary_round_aux prec emax sx mx ex lx
       = match m3 with
         | Z0 => S754_zero sx
         | Zpos m => if e3 <=? emax - prec then S754_finite sx m e3 else S754_infinity sx
         | Zneg _ => S754_nan
         end.
Proof.
  intros Hmx. unfold binary_round_aux.
  pose proof (shr_fexp_shifted mx ex lx Hmx) as H1.
  destruct (shr_fexp prec emax mx ex lx) as [mrs' e'] eqn:Hfirst. cbn [fst snd] in H1.
  set (m2 := round_nearest_even (shr_m mrs') (loc_of_shr_record mrs')).
  pose proof (round_nearest_even_bounds (shr_m mrs') (loc_of_shr_record mrs')) as H2.
  fold m2 in H2.
  assert (Hm1 : 0 <= shr_m mrs').
  { destruct H1 as [(_ & -> & _)|(Hn & -> & _)]; [lia|].
    apply Z.div_pos; [lia | apply Z.pow_pos_nonneg; lia]. }
  pose proof (shr_fexp_shifted m2 e' loc_Exact ltac:(lia)) as H3.
  destruct (shr_fexp prec emax m2 e' loc_Exact) as [mrs'' e''] eqn:Hsecond.
  cbn [fst snd] in H3.
  exists (shr_m mrs'), e', m2, (shr_m mrs''), e''. repeat split; try assumption; lia.
Qed.

Lemma fexp_unfold (e : Z) : fexp prec emax e = Z.max (e - 53) (-1074).
Proof. reflexivity. Qed.

(** Rounding a non-negative, aligned mantissa: no overflow below the
    binade [M], and the result is not above the next binade. *)
Lemma binary_round_aux_upper (M mx ex : Z) (lx : location) :
  0 <= mx ->
  ex <= fexp prec emax (Zdigits2 mx + ex) ->
  Zdigits2 mx + ex <= M -> -1074 <= M -> M <= 1023 ->
  nonneg_below (M + 1) (binary_round_aux prec emax false mx ex lx).
Proof.
  intros Hmx Haligned HD Hlow Hhigh.
  destruct (binary_round_aux_cases false mx ex lx Hmx)
    as (m1 & e1 & m2 & m3 & e3 & H1 & H2 & H3 & ->).
  rewrite fexp_unfold in *.
  assert (Hm1 : 0 <= m1 /\ Zdigits2 m1 + e1 <= Z.max (Zdigits2 mx + ex) e1
                /\ e1 = Z.max (Zdigits2 mx + ex - 53) (-1074)).
  { destruct H1 as [(Hn & -> & ->)|(Hn & -> & ->)].
    - split; [lia|]. split; lia.
    - split; [apply Z.div_pos; [lia | apply Z.pow_pos_nonneg; lia]|].
      pose proof (Zdigits2_shift_upper mx _ Hmx Hn). split; lia. }
  destruct Hm1 as (Hm1 & HD1 & He1).
  assert (HD2 : Zdigits2 m2 <= Zdigits2 m1 + 1).
  { destruct (Z.eq_dec m2 m1) as [->|Hne]; [lia|].
    replace m2 with (m1 + 1) by lia. apply Zdigits2_succ. exact Hm1. }
  assert (Hm3 : 0 <= m3 /\ Zdigits2 m3 + e3 <= Z.max (Zdigits2 m2 + e1) e3
                /\ e3 <= Z.max e1 (Z.max (Zdigits2 m2 + e1 - 53) (-1074))).
  { destruct H3 as [(Hn & -> & ->)|(Hn & -> & ->)].
    - split; [lia|]. split; lia.
    - split; [apply Z.div_pos; [lia | apply Z.pow_pos_nonneg; lia]|].
      pose proof (Zdigits2_shift_upper m2 _ ltac:(lia) Hn). split; lia. }
  destruct Hm3 as (Hm3 & HD3 & He3).
  destruct m3 as [|m|m]; [exact I| |lia].
  unfold emax, prec.
  destruct (Z.leb_spec e3 (1024 - 53)) as [Hle|Hgt].
  - cbn [nonneg_below]. change (Zpos (digits2_pos m)) with (Zdigits2 (Zpos m)). lia.
  - exfalso. lia.
Qed.

(** Rounding a positive mantissa whose binade is not below the smallest
    subnormal: the result is not zero and not below that binade. *)
Lemma binary_round_aux_lower (L mx ex : Z) (lx : location) :
  0 < mx ->
  ex <= fexp prec emax (Zdigits2 mx + ex) ->
  L <= Zdigits2 mx + ex -> -1073 <= L ->
  pos_above L (binary_round_aux prec emax false mx ex lx).
Proof.
  intros Hmx Haligned HD Hlow.
  destruct (binary_round_aux_cases false mx ex lx ltac:(lia))
    as (m1 & e1 & m2 & m3 & e3 & H1 & H2 & H3 & ->).
  rewrite fexp_unfold in *.
  assert (Hm1 : 0 < m1 /\ Zdigits2 mx + ex <= Zdigits2 m1 + e1
                /\ e1 = Z.max (Zdigits2 mx + ex - 53) (-1074)).
  { destruct H1 as [(Hn & -> & ->)|(Hn & -> & ->)].
    - split; [lia|]. split; lia.
    - pose proof (Zdigits2_shift_lower mx _ ltac:(lia) Hn ltac:(lia)) as Hd.
      split; [|split; lia].
      apply Zdigits2_pos_iff; [|lia].
      apply Z.div_pos; [lia | apply Z.pow_pos_nonneg; lia]. }
  destruct Hm1 as (Hm1 & HD1 & He1).
  assert (HD2 : Zdigits2 m1 <= Zdigits2 m2) by (apply Zdigits2_mono; lia).
  assert (Hm3 : 0 < m3 /\ Zdigits2 m2 + e1 <= Zdigits2 m3 + e3).
  { destruct H3 as [(Hn & -> & ->)|(Hn & -> & ->)].
    - split; lia.
    - pose proof (Zdigits2_shift_lower m2 _ ltac:(lia) Hn ltac:(lia)) as Hd.
      split; [|lia].
      apply Zdigits2_pos_iff; [|lia].
      apply Z.div_pos; [lia | apply Z.pow_pos_nonneg; lia]. }
  destruct Hm3 as (Hm3 & HD3).
  destruct m3 as [|m|m]; [lia| |lia].
  destruct (e3 <=? emax - prec); [|exact I].
  cbn [pos_above]. change (Zpos (digits2_pos m)) with (Zdigits2 (Zpos m)). lia.
Qed.

Lemma bounded_canonical (m : positive) (e : Z) :
  bounded prec emax m e = true ->
  Z.max (Zdigits2 (Zpos m) + e - 53) (-1074) = e /\ e <= 971.
Proof.
  unfold bounded, canonical_mantissa. rewrite andb_true_iff, Z.eqb_eq, Z.leb_le.
  rewrite fexp_unfold. cbn [Zdigits2]. unfold emax, prec. lia.
Qed.

Lemma Zdigits2_mul (a b : positive) :
  Zdigits2 (Zpos a) + Zdigits2 (Zpos b) - 1 <= Zdigits2 (Zpos (a * b))
  <= Zdigits2 (Zpos a) + Zdigits2 (Zpos b).
Proof.
  rewrite Pos2Z.inj_mul.
  destruct (Zdigits2_bounds (Zpos a) ltac:(lia)) as [Ha Ha'].
  destruct (Zdigits2_bounds (Zpos b) ltac:(lia)) as [Hb Hb'].
  pose proof (proj1 (Zdigits2_pos_iff (Zpos a) ltac:(lia)) ltac:(lia)) as Hda.
  pose proof (proj1 (Zdigits2_pos_iff (Zpos b) ltac:(lia)) ltac:(lia)) as Hdb.
  set (da := Zdigits2 (Zpos a)) in *. set (db := Zdigits2 (Zpos b)) in *.
  assert (0 < 2 ^ (da - 1)) by (apply Z.pow_pos_nonneg; lia).
  assert (0 < 2 ^ (db - 1)) by (apply Z.pow_pos_nonneg; lia).
  split.
  - enough (da + db - 2 + 1 <= Zdigits2 (Zpos a * Zpos b)) by lia.
    apply Zdigits2_lower; [lia|].
    replace (da + db - 2) with ((da - 1) + (db - 1)) by lia.
    rewrite Z.pow_add_r by lia. apply Z.mul_le_mono_nonneg; lia.
  - apply Zdigits2_upper; [lia|]. split; [lia|].
    rewrite Z.pow_add_r by lia. apply Z.mul_lt_mono_nonneg; lia.
Qed.

(** The product of two valid positive numbers. *)
Lemma SFmul_finite (mx my : positive) (ex ey : Z) :
  bounded prec emax mx ex = true -> bounded prec emax my ey = true ->
  let magnitude := Zdigits2 (Zpos mx) + ex + (Zdigits2 (Zpos my) + ey) in
  (forall M, magnitude <= M -> -1074 <= M -> M <= 1023 ->
             nonneg_below (M + 1)
               (SFmul prec emax (S754_finite false mx ex) (S754_finite false my ey)))
  /\ (forall L, L <= magnitude - 1 -> -1073 <= L ->
                pos_above L
                  (SFmul prec emax (S754_finite false mx ex) (S754_finite false my ey))).
Proof.
  intros Hx Hy magnitude.
  apply bounded_canonical in Hx as [Hx _]. apply bounded_canonical in Hy as [Hy _].
  pose proof (Zdigits2_mul mx my) as Hd.
  pose proof (proj1 (Zdigits2_pos_iff (Zpos mx) ltac:(lia)) ltac:(lia)) as Hdx.
  pose proof (proj1 (Zdigits2_pos_iff (Zpos my) ltac:(lia)) ltac:(lia)) as Hdy.
  cbn [SFmul xorb].
  assert (Haligned : ex + ey <= fexp prec emax (Zdigits2 (Zpos (mx * my)) + (ex + ey)))
    by (rewrite fexp_unfold; lia).
  split.
  - intros M HM Hlow Hhigh.
    apply binary_round_aux_upper; try assumption; unfold magnitude in *; lia.
  - intros L HL Hlow.
    apply binary_round_aux_lower; try assumption; unfold magnitude in *; lia.
Qed.

(** The quotient and exponent [SFdiv] hands to the rounding. *)
Lemma SFdiv_core_binary_bounds (m1 m2 : positive) (e1 e2 : Z) :
  let M := Zdigits2 (Zpos m1) + e1 - (Zdigits2 (Zpos m2) + e2) in
  exists q e' l,
    SFdiv_core_binary prec emax (Zpos m1) e1 (Zpos m2) e2 = (q, e', l)
    /\ 0 <= q
    /\ e' <= fexp prec emax (Zdigits2 q + e')
    /\ Zdigits2 q + e' <= Z.max (M + 1) (-1074)
    /\ (-1073 <= M -> 0 < q /\ M <= Zdigits2 q + e').
Proof.
  intros M. unfold SFdiv_core_binary.
  set (d1 := Zdigits2 (Zpos m1)) in *. set (d2 := Zdigits2 (Zpos m2)) in *.
  fold M.
  set (e' := Z.min (fexp prec emax M) (e1 - e2)).
  set (s := e1 - e2 - e').
  assert (Hs : 0 <= s) by (unfold s, e'; lia).
  set (m' := match s with Zpos _ => Z.shiftl (Zpos m1) s | Z0 => Zpos m1 | Zneg _ => 0 end).
  assert (Hm' : m' = Zpos m1 * 2 ^ s).
  { unfold m'. destruct s as [|p|p] eqn:Hp; [cbn; lia| |lia].
    apply Z.shiftl_mul_pow2. lia. }
  assert (Hq : fst (Z.div_eucl m' (Zpos m2)) = m' / Zpos m2) by reflexivity.
  destruct (Z.div_eucl m' (Zpos m2)) as [q r]. cbn [fst] in Hq.
  exists q, e', (new_location (Zpos m2) r). split; [reflexivity|].
  destruct (Zdigits2_bounds (Zpos m1) ltac:(lia)) as [H1lo H1hi].
  destruct (Zdigits2_bounds (Zpos m2) ltac:(lia)) as [H2lo H2hi].
  fold d1 in H1lo, H1hi. fold d2 in H2lo, H2hi.
  pose proof (proj1 (Zdigits2_pos_iff (Zpos m1) ltac:(lia)) ltac:(lia)) as Hd1.
  pose proof (proj1 (Zdigits2_pos_iff (Zpos m2) ltac:(lia)) ltac:(lia)) as Hd2.
  fold d1 in Hd1. fold d2 in Hd2.
  assert (Hpow : 0 < 2 ^ s) by (apply Z.pow_pos_nonneg; lia).
  assert (Hm'lo : 2 ^ (d1 - 1 + s) <= m').
  { rewrite Hm', Z.pow_add_r by lia. apply Z.mul_le_mono_nonneg_r; lia. }
  assert (Hm'hi : m' < 2 ^ (d1 + s)).
  { rewrite Hm', Z.pow_add_r by lia. apply Z.mul_lt_mono_pos_r; lia. }
  assert (Hq0 : 0 <= q) by (rewrite Hq; apply Z.div_pos; lia).
  assert (HM : d1 + s - d2 + e' = M) by (unfold s, M; lia).
  assert (He' : e' <= Z.max (M - 53) (-1074)) by (unfold e'; rewrite fexp_unfold; lia).
  assert (Hupper : Zdigits2 q <= Z.max (d1 + s - d2 + 1) 0).
  { destruct (Z_le_gt_dec 0 (d1 + s - d2 + 1)) as [Hk|Hk].
    - rewrite Z.max_l by lia. apply Zdigits2_upper; [lia|]. split; [lia|].
      rewrite Hq. apply Z.div_lt_upper_bound; [lia|].
      assert (0 < 2 ^ (d1 + s - d2 + 1)) by (apply Z.pow_pos_nonneg; lia).
      apply Z.lt_le_trans with (2 ^ (d2 - 1) * 2 ^ (d1 + s - d2 + 1)).
      + rewrite <- Z.pow_add_r by lia.
        replace (d2 - 1 + (d1 + s - d2 + 1)) with (d1 + s) by lia. exact Hm'hi.
      + apply Z.mul_le_mono_nonneg_r; lia.
    - assert (2 ^ (d1 + s) <= 2 ^ (d2 - 1)) by (apply Z.pow_le_mono_r; lia).
      rewrite Hq, Z.div_small by lia. cbn. lia. }
  assert (Hlower : 0 <= d1 + s - 1 - d2 -> 0 < q /\ d1 + s - d2 <= Zdigits2 q).
  { intros Hk.
    assert (Hle : 2 ^ (d1 + s - 1 - d2) <= q).
    { rewrite Hq. apply Z.div_le_lower_bound; [lia|].
      assert (0 < 2 ^ (d1 + s - 1 - d2)) by (apply Z.pow_pos_nonneg; lia).
      apply Z.le_trans with (2 ^ d2 * 2 ^ (d1 + s - 1 - d2)).
      - apply Z.mul_le_mono_nonneg_r; lia.
      - rewrite <- Z.pow_add_r by lia.
        replace (d2 + (d1 + s - 1 - d2)) with (d1 - 1 + s) by lia. exact Hm'lo. }
    assert (0 < 2 ^ (d1 + s - 1 - d2)) by (apply Z.pow_pos_nonneg; lia).
    split; [lia|].
    pose proof (Zdigits2_lower q (d1 + s - 1 - d2) Hk Hle). lia. }
  pose proof (Zdigits2_nonneg q) as Hdq.
  rewrite fexp_unfold.
  split; [exact Hq0|]. split; [|split].
  - destruct (Z_le_gt_dec 0 (d1 + s - 1 - d2)) as [Hk|Hk].
    + destruct (Hlower Hk) as [_ Hd]. lia.
    + lia.
  - lia.
  - intros Hnormal. destruct (Hlower ltac:(lia)) as [Hpos Hd]. lia.
Qed.

(** The quotient of two positive numbers. *)
Lemma SFdiv_finite (mx my : positive) (ex ey : Z) :
  let magnitude := Zdigits2 (Zpos mx) + ex - (Zdigits2 (Zpos my) + ey) in
  (forall M, magnitude + 1 <= M -> -1074 <= M -> M <= 1023 ->
             nonneg_below (M + 1)
               (SFdiv prec emax (S754_finite false mx ex) (S754_finite false my ey)))
  /\ (forall L, L <= magnitude -> -1073 <= L ->
                pos_above L
                  (SFdiv prec emax (S754_finite false mx ex) (S754_finite false my ey))).
Proof.
  intros magnitude.
  destruct (SFdiv_core_binary_bounds mx my ex ey)
    as (q & e' & l & Hcore & Hq & Haligned & Hupper & Hlower).
  fold magnitude in Hupper, Hlower.
  cbn [SFdiv xorb]. rewrite Hcore.
  split.
  - intros M HM Hlow Hhigh. apply binary_round_aux_upper; try assumption; lia.
  - intros L HL Hlow. destruct (Hlower ltac:(lia)) as [Hpos Hd].
    apply binary_round_aux_lower; try assumption; lia.
Qed.

Lemma SFdiv_nonneg_below (x y : spec_float) (Mx Ly : Z) :
  nonneg_below Mx x -> pos_above Ly y ->
  -1075 <= Mx - Ly -> Mx - Ly <= 1022 ->
  nonneg_below (Mx - Ly + 2) (SFdiv prec emax x y).
Proof.
  intros Hx Hy Hlow Hhigh.
  destruct x as [sx|sx| |[|] mx ex]; try contradiction;
    destruct y as [sy|[|]| |[|] my ey]; try contradiction; try exact I.
  cbn [nonneg_below pos_above] in Hx, Hy.
  replace (Mx - Ly + 2) with (Mx - Ly + 1 + 1) by lia.
  apply (proj1 (SFdiv_finite mx my ex ey)); cbn [Zdigits2]; lia.
Qed.

Lemma SFdiv_pos_above (x : spec_float) (my : positive) (ey Lx : Z) :
  pos_above Lx x ->
  -1073 <= Lx - (Zpos (digits2_pos my) + ey) ->
  pos_above (Lx - (Zpos (digits2_pos my) + ey))
    (SFdiv prec emax x (S754_finite false my ey)).
Proof.
  intros Hx Hlow.
  destruct x as [sx|[|]| |[|] mx ex]; try contradiction; [exact I|].
  cbn [pos_above] in Hx.
  apply (proj2 (SFdiv_finite mx my ex ey)); cbn [Zdigits2]; lia.
Qed.

Lemma SFmul_nonneg_below (x : spec_float) (my : positive) (ey Mx : Z) :
  valid_binary x = true -> nonneg_below Mx x -> bounded prec emax my ey = true ->
  -1074 <= Mx + (Zpos (digits2_pos my) + ey) -> Mx + (Zpos (digits2_pos my) + ey) <= 1023 ->
  nonneg_below (Mx + (Zpos (digits2_pos my) + ey) + 1)
    (SFmul prec emax x (S754_finite false my ey)).
Proof.
  intros Hvalid Hx Hy Hlow Hhigh.
  destruct x as [sx|sx| |[|] mx ex]; try contradiction; [exact I|].
  cbn [nonneg_below valid_binary] in Hx, Hvalid.
  apply (proj1 (SFmul_finite mx my ex ey Hvalid Hy)); cbn [Zdigits2]; lia.
Qed.

Lemma SFmul_pos_above (x : spec_float) (my : positive) (ey Lx : Z) :
  valid_binary x = true -> pos_above Lx x -> bounded prec emax my ey = true ->
  -1073 <= Lx + (Zpos (digits2_pos my) + ey) - 1 ->
  pos_above (Lx + (Zpos (digits2_pos my) + ey) - 1)
    (SFmul prec emax x (S754_finite false my ey)).
Proof.
  intros Hvalid Hx Hy Hlow.
  destruct x as [sx|[|]| |[|] mx ex]; try contradiction; [exact I|].
  cbn [pos_above valid_binary] in Hx, Hvalid.
  apply (proj2 (SFmul_finite mx my ex ey Hvalid Hy)); cbn [Zdigits2]; lia.
Qed.

(** What the comparisons of floats say about their shape. *)
Lemma Prim2SF_zero : Prim2SF 0 = S754_zero false.
Proof. reflexivity. Qed.

Lemma leb_zero_nonneg (x : float) (mc : positive) (ec : Z) :
  (0 <=? x)%float = true ->
  (x <=? SF2Prim (S754_finite false mc ec))%float = true ->
  Prim2SF (SF2Prim (S754_finite false mc ec)) = S754_finite false mc ec ->
  nonneg_below (53 + ec) (Prim2SF x).
Proof.
  rewrite !leb_spec, Prim2SF_zero. intros Hzero Hle Hc. rewrite Hc in Hle.
  pose proof (Prim2SF_valid x) as Hvalid.
  destruct (Prim2SF x) as [s|[|]| |[|] m e]; try discriminate; [exact I|].
  cbn [nonneg_below]. cbn [valid_binary] in Hvalid.
  apply bounded_canonical in Hvalid as [Hcanonical _]. cbn [Zdigits2] in Hcanonical.
  unfold SFleb, SFcompare in Hle.
  destruct (Z.compare_spec e ec); try discriminate; lia.
Qed.

Lemma leb_pos_above (x : float) (mc : positive) (ec : Z) :
  (SF2Prim (S754_finite false mc ec) <=? x)%float = true ->
  Prim2SF (SF2Prim (S754_finite false mc ec)) = S754_finite false mc ec ->
  -1074 < ec ->
  pos_above (53 + ec) (Prim2SF x).
Proof.
  rewrite !leb_spec. intros Hle Hc Hnormal. rewrite Hc in Hle.
  pose proof (Prim2SF_valid x) as Hvalid.
  destruct (Prim2SF x) as [s|[|]| |[|] m e]; try discriminate; [exact I|].
  cbn [pos_above]. cbn [valid_binary] in Hvalid.
  apply bounded_canonical in Hvalid as [Hcanonical _]. cbn [Zdigits2] in Hcanonical.
  unfold SFleb, SFcompare in Hle.
  destruct (Z.compare_spec ec e); try discriminate; lia.
Qed.

Lemma ltb_zero_pos_above (x : float) :
  (0 <? x)%float = true -> pos_above (-1073) (Prim2SF x).
Proof.
  rewrite ltb_spec, Prim2SF_zero. intros Hlt.
  pose proof (Prim2SF_valid x) as Hvalid.
  destruct (Prim2SF x) as [s|[|]| |[|] m e]; try discriminate; [exact I|].
  cbn [pos_above]. cbn [valid_binary] in Hvalid.
  apply bounded_canonical in Hvalid as [Hcanonical _]. cbn [Zdigits2] in Hcanonical.
  pose proof (proj1 (Zdigits2_pos_iff (Zpos m) ltac:(lia)) ltac:(lia)) as Hd.
  cbn [Zdigits2] in Hd. lia.
Qed.

Lemma nonneg_below_finite (M : Z) (x : float) :
  nonneg_below M (Prim2SF x) ->
  (0 <=? x)%float = true /\ (x <? infinity)%float = true.
Proof.
  rewrite leb_spec, ltb_spec, Prim2SF_zero.
  change (Prim2SF infinity) with (S754_infinity false).
  destruct (Prim2SF x) as [s|s| |[|] m e]; try contradiction; intros _; split; reflexivity.
Qed.

Lemma speedMbps_of_binary64 (B T : float) :
  WebRTCSpeedTest.speedMbps_of B T = (B * 8 / (T / 1000) / 1000000)%float.
Proof. reflexivity. Qed.

Lemma Prim2SF_8 : Prim2SF 8 = S754_finite false 4503599627370496 (-49).
Proof. reflexivity. Qed.
Lemma Prim2SF_1000 : Prim2SF 1000 = S754_finite false 8796093022208000 (-43).
Proof. reflexivity. Qed.
Lemma Prim2SF_1000000 : Prim2SF 1000000 = S754_finite false 8589934592000000 (-33).
Proof. reflexivity. Qed.

Lemma speed_finite (B T : float) :
  (0 <=? B)%float = true -> (B <=? 9007199254740992)%float = true ->
  (0.001 <=? T)%float = true ->
  (0 <=? WebRTCSpeedTest.speedMbps_of B T)%float = true /\ (WebRTCSpeedTest.speedMbps_of B T <? infinity)%float = true.
Proof.
  intros HB0 HB HT.
  assert (HB' : nonneg_below 54 (Prim2SF B)).
  { apply (leb_zero_nonneg B 4503599627370496 1); [exact HB0 | exact HB | reflexivity]. }
  assert (HT' : pos_above (-9) (Prim2SF T)).
  { apply (leb_pos_above T 4611686018427388 (-62)); [exact HT | reflexivity | lia]. }
  apply (nonneg_below_finite 62). rewrite speedMbps_of_binary64.
  rewrite !div_spec, mul_spec, Prim2SF_8, Prim2SF_1000, Prim2SF_1000000.
  unfold SF64div, SF64mul.
  pose proof (SFmul_nonneg_below (Prim2SF B) 4503599627370496 (-49) 54
                (Prim2SF_valid B) HB' eq_refl) as Hn.
  pose proof (SFdiv_pos_above (Prim2SF T) 8796093022208000 (-43) (-9) HT') as Hd.
  cbn [digits2_pos Pos.succ] in Hn, Hd.
  specialize (Hn ltac:(lia) ltac:(lia)). specialize (Hd ltac:(lia)).
  pose proof (SFdiv_nonneg_below _ _ _ _ Hn Hd ltac:(lia) ltac:(lia)) as Hq.
  pose proof (SFdiv_nonneg_below _ (S754_finite false 8589934592000000 (-33)) _ 20 Hq
                ltac:(cbn; lia) ltac:(lia) ltac:(lia)) as Hr.
  exact Hr.
Qed.

(** With a zero duration the division is carried out: a positive byte
    count gives [Infinity], a zero byte count [NaN]. *)
Lemma speed_zero_duration_positive (B : float) :
  (0 <? B)%float = true -> WebRTCSpeedTest.speedMbps_of B 0%float = infinity.
Proof.
  intros HB. apply ltb_zero_pos_above in HB.
  rewrite <- (SF2Prim_Prim2SF (WebRTCSpeedTest.speedMbps_of B 0%float)).
  change infinity with (SF2Prim (S754_infinity false)). f_equal.
  rewrite speedMbps_of_binary64.
  rewrite !div_spec, mul_spec, Prim2SF_8, Prim2SF_1000, Prim2SF_1000000, Prim2SF_zero.
  unfold SF64div, SF64mul.
  pose proof (SFmul_pos_above (Prim2SF B) 4503599627370496 (-49) (-1073)
                (Prim2SF_valid B) HB eq_refl ltac:(cbn; lia)) as Hn.
  destruct (SFmul prec emax (Prim2SF B) (S754_finite false 4503599627370496 (-49)))
    as [s|[|]| |[|] m e]; try contradiction; reflexivity.
Qed.

Lemma speed_zero_duration_zero (B : float) :
  (B =? 0)%float = true -> WebRTCSpeedTest.speedMbps_of B 0%float = nan.
Proof.
  rewrite eqb_spec, Prim2SF_zero. intros HB.
  rewrite <- (SF2Prim_Prim2SF (WebRTCSpeedTest.speedMbps_of B 0%float)).
  change nan with (SF2Prim S754_nan). f_equal.
  rewrite speedMbps_of_binary64.
  rewrite !div_spec, mul_spec, Prim2SF_8, Prim2SF_1000, Prim2SF_1000000, Prim2SF_zero.
  unfold SF64div, SF64mul.
  destruct (Prim2SF B) as [s|[|]| |[|] m e]; try discriminate; reflexivity.
Qed.

End Binary64Facts.

(** C4, as stated, fails on both counts.  Nothing guards against a zero
    elapsed time: a download stopped at the very clock value it was
    requested at, with one payload counted, reports [Infinity]; an upload
    stopped likewise with nothing sent reports [NaN]; neither is
    [undefined].  And a positive elapsed time does not make the binary64
    result finite: with the smallest positive duration, [T / 1000]
    rounds to 0 and the report is [Infinity] again, as it is when
    [B * 8] overflows. *)
Lemma throughput_zero_elapsed_divides :
  (snd (WebRTCSpeedTest.downloadPhase 1000 [(1000, 16384)] 1000 Examples.open_channel)
   = Some (JNum infinity)
   /\ snd (WebRTCSpeedTest.uploadPhase 1000 [] 1000 Examples.open_channel)
      = Some (JNum nan)
   /\ snd (WebRTCSpeedTest.stopDownloadTest 1000
             (fst (WebRTCSpeedTest.startDownloadTest 1000 Examples.open_channel)))
      <> JUndefined
   /\ (0 <? 0x1p-1074 - 0) = true
   /\ snd (WebRTCSpeedTest.downloadPhase 0 [(0, 16384)] 0x1p-1074 Examples.open_channel)
      = Some (JNum infinity)
   /\ (0 <? 11000 - 1000) = true
   /\ snd (WebRTCSpeedTest.downloadPhase 1000 [(2000, 0x1p1021)] 11000 Examples.open_channel)
      = Some (JNum infinity))%float.
Proof.
  repeat split; try (vm_compute; reflexivity).
  vm_compute. discriminate.
Qed.

(** C4 (amended): [stopDownloadTest] and [stopUploadTest] have no guard
    for a zero elapsed time and never report [undefined].  In binary64,
    when the elapsed time T (the milliseconds since [startTime]) is 0,
    they report [Infinity] for every byte count B > 0 and [NaN] for
    B = 0.  The report is non-negative and finite in binary64 whenever
    0 <= B <= 2^53 and T is at least 0.001 ms; in exact arithmetic it is
    non-negative and equal to (B*8)/(T_seconds*1_000_000) for every
    B >= 0 and T > 0. *)
Theorem throughput_unguarded_finite_in_range :
  (forall (p : phase) (this : WebRTCSpeedTest.t float) (now : float),
      num_sub now (phaseStart p this) = 0%float ->
      ((0 <? totalBytes p this)%float = true -> reported p now this = JNum infinity)
      /\ ((totalBytes p this =? 0)%float = true -> reported p now this = JNum nan))
  /\ (forall (p : phase) (this : WebRTCSpeedTest.t float) (now : float),
      (0 <=? totalBytes p this)%float = true ->
      (totalBytes p this <=? 9007199254740992)%float = true ->
      (0.001 <=? num_sub now (phaseStart p this))%float = true ->
      exists v : float,
        reported p now this = JNum v
        /\ (0 <=? v)%float = true /\ (v <? infinity)%float = true)
  /\ (forall (p : phase) (this : WebRTCSpeedTest.t Q) (now : Q),
      0 <= totalBytes p this ->
      phaseStart p this < now ->
      exists v : Q,
        reported p now this = JNum v
        /\ 0 <= v
        /\ v == throughputMbps (totalBytes p this) (elapsedSeconds (phaseStart p this) now)).
Proof.
  assert (Hreported : forall (num : Type) (N : Number num) (p : phase)
                             (this : WebRTCSpeedTest.t num) (now : num),
             reported p now this
             = JNum (WebRTCSpeedTest.speedMbps_of (totalBytes p this)
                       (num_sub now (phaseStart p this))))
    by (intros num N [|] this now; reflexivity).
  split; [|split].
  - intros p this now Hzero. rewrite Hreported, Hzero. split; intros HB; f_equal.
    + apply speed_zero_duration_positive. exact HB.
    + apply speed_zero_duration_zero. exact HB.
  - intros p this now HB0 HB HT. rewrite Hreported. eexists. split; [reflexivity|].
    apply speed_finite; assumption.
  - intros p this now HB HT. rewrite Hreported. eexists. split; [reflexivity|]. split.
    + apply speedMbps_of_nonneg; [exact HB|].
      cbn. rewrite <- (Qplus_opp_r (phaseStart p this)).
      apply Qplus_lt_l. exact HT.
    + apply speedMbps_of_throughputMbps. exact HT.
Qed.

Lemma throughput_unguarded_finite_in_range_witness :
  let running : WebRTCSpeedTest.t float :=
    WebRTCSpeedTest.receive [16384; 16384; 16384]%float
      (fst (WebRTCSpeedTest.startDownloadTest 100%float Examples.open_channel)) in
  (num_sub 100 (phaseStart Download running) = 0
   /\ (0 <? totalBytes Download running) = true
   /\ reported Download 100 running = JNum infinity
   /\ (0 <=? totalBytes Download running) = true
   /\ (totalBytes Download running <=? 9007199254740992) = true
   /\ (0.001 <=? num_sub 9600 (phaseStart Download running)) = true
   /\ exists v : float,
        reported Download 9600 running = JNum v
        /\ (0 <=? v) = true /\ (v <? infinity) = true)%float.
Proof.
  intros running.
  split; [reflexivity|]. split; [reflexivity|].
  split;
    [exact (proj1 (proj1 throughput_unguarded_finite_in_range Download running 100%float
                     eq_refl) eq_refl)|].
  split; [reflexivity|]. split; [reflexivity|]. split; [reflexivity|].
  exact (proj1 (proj2 throughput_unguarded_finite_in_range) Download running 9600%float
           eq_refl eq_refl eq_refl).
Defined.

(** C10, as stated, fails: the guard of [handleIncomingData] is the
    flag [isTestRunning], which the upload test shares.  A download that
    received one payload of 16384 bytes is stopped; the upload test is
    started, as it is after every download; the next payload is counted
    into [downloadStats], whose counters go from 16384 bytes and 1 packet
    to 32768 bytes and 2 packets. *)
Lemma later_payload_alters_stopped_download :
  let stopped : WebRTCSpeedTest.t float :=
    fst (WebRTCSpeedTest.stopDownloadTest 11000
           (WebRTCSpeedTest.receive [16384]
              (fst (WebRTCSpeedTest.startDownloadTest 1000 Examples.open_channel))))%float in
  let uploading := fst (WebRTCSpeedTest.startUploadTest 12000%float stopped) in
  let later := WebRTCSpeedTest.handleIncomingData 16384%float uploading in
  (WebRTCSpeedTest.isTestRunning stopped = false
   /\ WebRTCSpeedTest.bytesReceived (WebRTCSpeedTest.downloadStats stopped) = 16384
   /\ WebRTCSpeedTest.packetsReceived (WebRTCSpeedTest.downloadStats stopped) = 1
   /\ WebRTCSpeedTest.bytesReceived (WebRTCSpeedTest.downloadStats later) = 32768
   /\ WebRTCSpeedTest.packetsReceived (WebRTCSpeedTest.downloadStats later) = 2
   /\ WebRTCSpeedTest.downloadStats later <> WebRTCSpeedTest.downloadStats stopped)%float.
Proof.
  intros stopped uploading later.
  repeat (split; [vm_compute; reflexivity|]).
  intros Heq. apply (f_equal WebRTCSpeedTest.packetsReceived) in Heq.
  vm_compute in Heq. discriminate Heq.
Qed.

(** C10 (amended): once [stopDownloadTest] has cleared [isTestRunning],
    the calls of [handleIncomingData], for any payloads in any number,
    leave the object as it is, and [downloadStats.bytesReceived] and
    [downloadStats.packetsReceived] keep the values they had when the
    test stopped, however the calls are interleaved with the timers, the
    upload interval and [close()], as long as no test is started again.
    Once [startUploadTest] has run on an open channel the payloads are
    counted again: each adds its size to [bytesReceived] and 1 to
    [packetsReceived]. *)
Theorem stopped_download_ignores_payloads_until_restart
    {num : Type} `{Number num}
    (this : WebRTCSpeedTest.t num) (now : num) :
  let stopped := fst (WebRTCSpeedTest.stopDownloadTest now this) in
  WebRTCSpeedTest.isTestRunning stopped = false
  /\ (forall sizes : list num,
      WebRTCSpeedTest.receive sizes stopped = stopped
      /\ WebRTCSpeedTest.bytesReceived
           (WebRTCSpeedTest.downloadStats (WebRTCSpeedTest.receive sizes stopped))
         = WebRTCSpeedTest.bytesReceived (WebRTCSpeedTest.downloadStats this)
      /\ WebRTCSpeedTest.packetsReceived
           (WebRTCSpeedTest.downloadStats (WebRTCSpeedTest.receive sizes stopped))
         = WebRTCSpeedTest.packetsReceived (WebRTCSpeedTest.downloadStats this))
  /\ (forall events : list (WebRTCSpeedTest.event num),
      forallb (fun e => negb (WebRTCSpeedTest.is_start e)) events = true ->
      WebRTCSpeedTest.downloadStats (WebRTCSpeedTest.handle_all events stopped)
      = WebRTCSpeedTest.downloadStats this)
  /\ (forall (events : list (WebRTCSpeedTest.event num)) (restart size : num),
      forallb (fun e => negb (WebRTCSpeedTest.is_start e)) events = true ->
      WebRTCSpeedTest.dataChannelOpen (WebRTCSpeedTest.handle_all events stopped) = true ->
      let uploading :=
        fst (WebRTCSpeedTest.startUploadTest restart
               (WebRTCSpeedTest.handle_all events stopped)) in
      let later := WebRTCSpeedTest.handleIncomingData size uploading in
      WebRTCSpeedTest.bytesReceived (WebRTCSpeedTest.downloadStats later)
      = num_add (WebRTCSpeedTest.bytesReceived (WebRTCSpeedTest.downloadStats this)) size
      /\ WebRTCSpeedTest.packetsReceived (WebRTCSpeedTest.downloadStats later)
         = num_add (WebRTCSpeedTest.packetsReceived (WebRTCSpeedTest.downloadStats this))
                   (lit 1)).
Proof.
  intros stopped.
  assert (Hstop : WebRTCSpeedTest.isTestRunning stopped = false) by reflexivity.
  split; [exact Hstop|]. split; [|split].
  - intros sizes. rewrite (receive_stopped sizes stopped Hstop).
    repeat split; reflexivity.
  - intros events Hquiet.
    destruct (handle_all_stopped events stopped Hstop Hquiet) as [_ Hstats].
    exact Hstats.
  - intros events restart size Hquiet Hopen uploading later.
    destruct (handle_all_stopped events stopped Hstop Hquiet) as [_ Hstats].
    unfold later, uploading, WebRTCSpeedTest.startUploadTest,
      WebRTCSpeedTest.handleIncomingData.
    rewrite Hopen.
    cbn [negb fst WebRTCSpeedTest.isTestRunning WebRTCSpeedTest.downloadStats
         WebRTCSpeedTest.bytesReceived WebRTCSpeedTest.packetsReceived].
    rewrite Hstats. split; reflexivity.
Qed.

Lemma stopped_download_ignores_payloads_until_restart_witness :
  let stopped : WebRTCSpeedTest.t float :=
    fst (WebRTCSpeedTest.stopDownloadTest 11000
           (WebRTCSpeedTest.receive [16384; 16384]
              (fst (WebRTCSpeedTest.startDownloadTest 1000 Examples.open_channel))))%float in
  let events :=
    [WebRTCSpeedTest.Message 16384; WebRTCSpeedTest.UploadInterval true;
     WebRTCSpeedTest.Message 1024; WebRTCSpeedTest.UploadTimer 11500;
     WebRTCSpeedTest.Message 16384]%float in
  let quiet := WebRTCSpeedTest.handle_all events stopped in
  forallb (fun e => negb (WebRTCSpeedTest.is_start e)) events = true
  /\ WebRTCSpeedTest.dataChannelOpen quiet = true
  /\ WebRTCSpeedTest.bytesReceived (WebRTCSpeedTest.downloadStats quiet) = 32768%float
  /\ WebRTCSpeedTest.bytesReceived
       (WebRTCSpeedTest.downloadStats
          (WebRTCSpeedTest.handleIncomingData 1024%float
             (fst (WebRTCSpeedTest.startUploadTest 12000%float quiet))))
     = 33792%float.
Proof.
  intros stopped events quiet.
  pose (running := (WebRTCSpeedTest.receive [16384; 16384]
                      (fst (WebRTCSpeedTest.startDownloadTest 1000
                              Examples.open_channel)))%float).
  split; [reflexivity|]. split; [reflexivity|]. split.
  - refine (f_equal WebRTCSpeedTest.bytesReceived
              (proj1 (proj2 (proj2 (stopped_download_ignores_payloads_until_restart
                                      running 11000%float)))
                     events _)).
    reflexivity.
  - refine (proj1 (proj2 (proj2 (proj2 (stopped_download_ignores_payloads_until_restart
                                          running 11000%float)))
                     events 12000%float 1024%float _ _)); reflexivity.
Defined.

(** ** Protocol selection, fallback and comparison *)

Section SelectionFacts.
Context {num : Type} `{Number num}.
Import MultiProtocolSpeedTest.
Local Open Scope string_scope.
Local Open Scope list_scope.

Lemma includes_In (l : list string) (x : string) :
  includes l x = true <-> In x l.
Proof.
  unfold includes. rewrite existsb_exists. split.
  - intros [y [Hin Heq]]. apply String.eqb_eq in Heq. now subst.
  - intros Hin. exists x. split; [exact Hin | apply String.eqb_refl].
Qed.

Lemma includes_not_In (l : list string) (x : string) :
  includes l x = false <-> ~ In x l.
Proof.
  rewrite <- includes_In. destruct (includes l x); split; congruence.
Qed.


Lemma runProtocolTest_http (net : network_t num) (this : t num) :
  runProtocolTest net this "http" = (this, runHTTPTest this).
Proof. reflexivity. Qed.

(** The comparison loop hands every listed protocol to
    [runProtocolTest], in the order of the list, whatever the tests do. *)
Lemma comparison_loop_attempted (net : network_t num) (protocols : list string) :
  forall (this : t num) (attempts : list string) (results : list (string * comparisonEntry num)),
    snd (fst (comparison_loop net protocols this attempts results)) = attempts ++ protocols.
Proof.
  induction protocols as [|protocol rest IH]; intros this attempts results.
  - cbn. now rewrite app_nil_r.
  - cbn [comparison_loop].
    destruct (runProtocolTest net this protocol) as [this1 testResult].
    rewrite IH. now rewrite <- app_assoc.
Qed.

(** For a key that is neither an array index nor ["__proto__"] the
    assignment appends or replaces. *)
Lemma assign_ordinary {A : Type} (key : string) (value : A) (results : list (string * A)) :
  ordinary_key key = true -> assign key value results = assign_named key value results.
Proof.
  unfold ordinary_key, assign. intros Hkey.
  apply andb_true_iff in Hkey as [Hproto Hindex].
  apply negb_true_iff in Hproto. rewrite Hproto.
  destruct (array_index key); [discriminate | reflexivity].
Qed.

Lemma assign_named_keys {A : Type} (key : string) (value : A) (results : list (string * A)) :
  map fst (assign_named key value results)
  = if includes (map fst results) key then map fst results else map fst results ++ [key].
Proof.
  induction results as [|[k v] rest IH]; [reflexivity|].
  cbn [assign_named map fst]. unfold includes in *. cbn [existsb].
  rewrite (String.eqb_sym key k).
  destruct (k =? key); cbn [orb map fst]; [reflexivity|].
  rewrite IH. destruct (existsb (String.eqb key) (map fst rest)); reflexivity.
Qed.

Lemma assign_keys {A : Type} (key : string) (value : A) (results : list (string * A)) :
  ordinary_key key = true ->
  map fst (assign key value results)
  = if includes (map fst results) key then map fst results else map fst results ++ [key].
Proof. intros Hkey. rewrite assign_ordinary by exact Hkey. apply assign_named_keys. Qed.

(** Every attempted protocol leaves an entry; with distinct protocols
    of ordinary names the keys of [results] come in the order of the
    attempts. *)
Lemma comparison_loop_keys (net : network_t num) (protocols : list string) :
  forall (this : t num) (attempts : list string) (results : list (string * comparisonEntry num)),
    forallb ordinary_key protocols = true ->
    NoDup (map fst results ++ protocols) ->
    map fst (snd (comparison_loop net protocols this attempts results))
    = map fst results ++ protocols.
Proof.
  induction protocols as [|protocol rest IH]; intros this attempts results Hordinary Hnodup.
  - cbn. now rewrite app_nil_r.
  - cbn [comparison_loop].
    cbn [forallb] in Hordinary. apply andb_true_iff in Hordinary as [Hkey Hrest].
    destruct (runProtocolTest net this protocol) as [this1 testResult].
    assert (Hfresh : includes (map fst results) protocol = false).
    { apply includes_not_In. intros Hin.
      apply NoDup_remove_2 in Hnodup. apply Hnodup.
      apply in_or_app. now left. }
    rewrite IH; rewrite ?assign_keys, ?Hfresh by exact Hkey;
      rewrite <- ?app_assoc; [reflexivity | exact Hrest | exact Hnodup].
Qed.

Lemma probe_order_ordinary (window : window_t num) :
  forallb ordinary_key (probe_order window) = true.
Proof.
  unfold probe_order.
  destruct (hasWebRTC window && initializePeerConnection window),
    (hasUDP window && udpInitialize window); reflexivity.
Qed.

Lemma initialize_availableProtocols (window : window_t num) :
  availableProtocols (fst (initialize window constructor)) = probe_order window.
Proof.
  unfold initialize, probe_order.
  destruct (hasWebRTC window), (initializePeerConnection window),
    (hasUDP window), (udpInitialize window); reflexivity.
Qed.

Lemma probe_order_NoDup (window : window_t num) : NoDup (probe_order window).
Proof.
  unfold probe_order.
  destruct (hasWebRTC window && initializePeerConnection window),
    (hasUDP window && udpInitialize window); cbn;
    repeat (constructor; [cbn; intuition discriminate|]); constructor.
Qed.

End SelectionFacts.

(** C7: with the preference [auto], [getSelectedProtocol] returns udp
    whenever udp is available, otherwise webrtc if it is available,
    otherwise http; and that is the protocol a Single-mode run attempts
    first. *)
Theorem auto_selects_by_priority {num : Type} `{Number num}
    (net : MultiProtocolSpeedTest.network_t num) (this : MultiProtocolSpeedTest.t num) :
  MultiProtocolSpeedTest.currentProtocol this = "auto"%string ->
  let available := MultiProtocolSpeedTest.availableProtocols this in
  let selected := MultiProtocolSpeedTest.getSelectedProtocol this in
  (In "udp"%string available -> selected = "udp"%string)
  /\ (~ In "udp"%string available -> In "webrtc"%string available ->
      selected = "webrtc"%string)
  /\ (~ In "udp"%string available -> ~ In "webrtc"%string available ->
      selected = "http"%string)
  /\ hd_error (MultiProtocolSpeedTest.attempted
                 (MultiProtocolSpeedTest.runSingleProtocolTest net this))
     = Some selected.
Proof.
  intros Hauto available selected.
  unfold selected, MultiProtocolSpeedTest.getSelectedProtocol.
  rewrite Hauto. cbn [String.eqb Ascii.eqb Bool.eqb andb].
  fold available.
  repeat split.
  - intros Hudp. apply includes_In in Hudp. now rewrite Hudp.
  - intros Hudp Hrtc. apply includes_not_In in Hudp. apply includes_In in Hrtc.
    now rewrite Hudp, Hrtc.
  - intros Hudp Hrtc. apply includes_not_In in Hudp. apply includes_not_In in Hrtc.
    now rewrite Hudp, Hrtc.
  - unfold MultiProtocolSpeedTest.runSingleProtocolTest,
      MultiProtocolSpeedTest.getSelectedProtocol.
    rewrite Hauto. cbn [String.eqb Ascii.eqb Bool.eqb andb]. fold available.
    destruct (MultiProtocolSpeedTest.runProtocolTest net this _) as [this1 [r|e]];
      [reflexivity|].
    destruct (_ && _)%bool; [|reflexivity].
    destruct (MultiProtocolSpeedTest.runProtocolTest net this1 "http"); reflexivity.
Qed.

Lemma auto_selects_by_priority_witness :
  let this := fst (MultiProtocolSpeedTest.initialize Examples.webrtc_window
                     MultiProtocolSpeedTest.constructor) in
  MultiProtocolSpeedTest.currentProtocol this = "auto"%string
  /\ MultiProtocolSpeedTest.availableProtocols this = ["webrtc"; "http"]%string
  /\ MultiProtocolSpeedTest.getSelectedProtocol this = "webrtc"%string.
Proof.
  intros this.
  split; [reflexivity|]. split; [reflexivity|].
  refine (proj1 (proj2 (auto_selects_by_priority Examples.quiet_network this _)) _ _).
  - reflexivity.
  - cbn. intros [Heq|[Heq|[]]]; discriminate Heq.
  - cbn. left. reflexivity.
Defined.

(** C9: whatever the object and the network, the HTTP test resolves to
    one constant result (ping average 50 ms, download 100 Mbps, upload 50
    Mbps) and changes nothing: no measurement takes place. *)
Theorem runHTTPTest_is_constant {num : Type} `{Number num}
    (net : MultiProtocolSpeedTest.network_t num) (this : MultiProtocolSpeedTest.t num) :
  let placeholder : MultiProtocolSpeedTest.testResults num :=
    {| MultiProtocolSpeedTest.ping :=
         Some (MultiProtocolSpeedTest.AveragePing (Some (lit 50)) "http");
       MultiProtocolSpeedTest.download :=
         Some {| MultiProtocolSpeedTest.speedMbps := JNum (lit 100);
                 MultiProtocolSpeedTest.speedProtocol := "http" |};
       MultiProtocolSpeedTest.upload :=
         Some {| MultiProtocolSpeedTest.speedMbps := JNum (lit 50);
                 MultiProtocolSpeedTest.speedProtocol := "http" |};
       MultiProtocolSpeedTest.protocol := "http" |} in
  MultiProtocolSpeedTest.runHTTPTest this = Resolved placeholder
  /\ MultiProtocolSpeedTest.runProtocolTest net this "http" = (this, Resolved placeholder).
Proof. split; reflexivity. Qed.

(** *** Single mode on the objects a page can arrive at *)

Section ReachableFacts.
Context {num : Type} `{Number num}.
Import MultiProtocolSpeedTest.
Local Open Scope string_scope.
Local Open Scope list_scope.

Lemma includes_push (l : list string) (x y : string) :
  includes (l ++ [x]) y = includes l y || (y =? x).
Proof.
  unfold includes. rewrite existsb_app. cbn. now rewrite orb_false_r.
Qed.

Lemma select_options_In (this : t num) (value : string) :
  In value (select_options this)
  <-> value = "auto"
      \/ (value = "udp" /\ includes (availableProtocols this) "udp" = true)
      \/ (value = "webrtc" /\ includes (availableProtocols this) "webrtc" = true)
      \/ value = "http".
Proof.
  unfold select_options.
  destruct (includes (availableProtocols this) "udp"),
    (includes (availableProtocols this) "webrtc"); cbn; intuition congruence.
Qed.

(** A test changes nothing but the WebRTC object, which it never
    removes. *)
Lemma runProtocolTest_frame (net : network_t num) (this : t num) (protocol : string) :
  let this1 := fst (runProtocolTest net this protocol) in
  udpTest this1 = udpTest this
  /\ availableProtocols this1 = availableProtocols this
  /\ currentProtocol this1 = currentProtocol this
  /\ config this1 = config this
  /\ (webrtcTest this <> None -> webrtcTest this1 <> None).
Proof.
  unfold runProtocolTest.
  destruct (protocol =? "udp"); [cbn; tauto|].
  destruct (protocol =? "webrtc"); [|destruct (protocol =? "http"); cbn; tauto].
  unfold runWebRTCTest. destruct (webrtcTest this) as [w|] eqn:Hw; [|cbn; tauto].
  destruct (WebRTCSpeedTest.downloadPhase_send _ _ _ _ w) as [w1 down].
  destruct (WebRTCSpeedTest.uploadPhase _ _ _ w1) as [w2 up].
  cbn. repeat split; discriminate.
Qed.

Lemma consistent_frame (this this1 : t num) :
  udpTest this1 = udpTest this ->
  availableProtocols this1 = availableProtocols this ->
  currentProtocol this1 = currentProtocol this ->
  config this1 = config this ->
  (webrtcTest this <> None -> webrtcTest this1 <> None) ->
  consistent this -> consistent this1.
Proof.
  intros Hudp Havailable Hcurrent Hconfig Hrtc (Hu & Hw & Hc & Hp).
  unfold consistent, select_options in *.
  rewrite Hudp, Havailable, Hcurrent, Hconfig. tauto.
Qed.

Lemma runProtocolTest_consistent (net : network_t num) (this : t num) (protocol : string) :
  consistent this -> consistent (fst (runProtocolTest net this protocol)).
Proof.
  intros Hthis.
  destruct (runProtocolTest_frame net this protocol) as (Hu & Ha & Hc & Hp & Hw).
  now apply (consistent_frame this).
Qed.

Lemma comparison_loop_consistent (net : network_t num) (protocols : list string) :
  forall (this : t num) (attempts : list string) (results : list (string * comparisonEntry num)),
    consistent this ->
    consistent (fst (fst (comparison_loop net protocols this attempts results))).
Proof.
  induction protocols as [|protocol rest IH]; intros this attempts results Hthis;
    [exact Hthis|].
  cbn [comparison_loop].
  pose proof (runProtocolTest_consistent net this protocol Hthis) as Hnext.
  destruct (runProtocolTest net this protocol) as [this1 testResult].
  apply IH. exact Hnext.
Qed.

Lemma runSingleProtocolTest_consistent (net : network_t num) (this : t num) :
  consistent this -> consistent (after (runSingleProtocolTest net this)).
Proof.
  intros Hthis. unfold runSingleProtocolTest.
  pose proof (runProtocolTest_consistent net this (getSelectedProtocol this) Hthis) as Hnext.
  destruct (runProtocolTest net this (getSelectedProtocol this)) as [this1 [results|error]];
    [exact Hnext|].
  cbn [fst] in Hnext.
  destruct (autoFallback (config this1) && negb (getSelectedProtocol this =? "http"));
    [|exact Hnext].
  exact Hnext.
Qed.

Lemma initialize_consistent (window : window_t num) (this : t num) :
  consistent this -> consistent (fst (initialize window this)).
Proof.
  intros (Hu & Hw & Hc & Hp).
  apply select_options_In in Hc.
  unfold consistent. rewrite select_options_In.
  unfold initialize.
  destruct (hasWebRTC window), (initializePeerConnection window),
    (hasUDP window), (udpInitialize window);
    cbn [fst setupProtocolSelector push set_webrtcTest set_udpTest
         udpTest webrtcTest availableProtocols currentProtocol config];
    rewrite Hp, ?includes_push; cbn [String.eqb Ascii.eqb Bool.eqb];
    rewrite ?orb_false_r, ?orb_true_r;
    (split; [try discriminate; exact Hu|]);
    (split; [try discriminate; exact Hw|]);
    (split; [|reflexivity]);
    destruct (includes (availableProtocols this) "udp");
    destruct (includes (availableProtocols this) "webrtc");
    cbn [orb]; intuition congruence.
Qed.

Lemma reachable_consistent (this : t num) : reachable this -> consistent this.
Proof.
  induction 1 as [ | window this _ IH | value this _ IH Hvalue | checked this _ IH
                 | net protocol this _ IH | net this _ IH | net this _ IH | this _ IH ].
  - unfold consistent. cbn. repeat split; try discriminate. now left.
  - now apply initialize_consistent.
  - destruct IH as (Hu & Hw & Hc & Hp). unfold consistent. cbn. tauto.
  - exact IH.
  - now apply runProtocolTest_consistent.
  - now apply runSingleProtocolTest_consistent.
  - unfold runComparisonTest.
    pose proof (comparison_loop_consistent net (availableProtocols this) this [] [] IH)
      as Hnext.
    destruct (comparison_loop net (availableProtocols this) this [] [])
      as [[this1 attempts] results].
    exact Hnext.
  - destruct IH as (Hu & Hw & Hc & Hp). unfold consistent, select_options in *. cbn.
    repeat split; try assumption.
    + intros Hin. specialize (Hu Hin). now destruct (udpTest this).
    + intros Hin. specialize (Hw Hin). now destruct (webrtcTest this).
Qed.

(** The protocol selected on a consistent object has its test object,
    and a test with its object resolves, whatever its phases do. *)
Lemma selected_test_resolves (net : network_t num) (this : t num) :
  consistent this ->
  exists this1 results,
    runProtocolTest net this (getSelectedProtocol this) = (this1, Resolved results).
Proof.
  intros (Hu & Hw & Hc & Hp).
  assert (Hudp : includes (availableProtocols this) "udp" = true ->
                 exists this1 results,
                   runProtocolTest net this "udp" = (this1, Resolved results)).
  { intros Hin. specialize (Hu Hin).
    unfold runProtocolTest, runUDPTest. cbn [String.eqb Ascii.eqb Bool.eqb].
    destruct (udpTest this) as [u|]; [|contradiction].
    eexists _, _. reflexivity. }
  assert (Hrtc : includes (availableProtocols this) "webrtc" = true ->
                 exists this1 results,
                   runProtocolTest net this "webrtc" = (this1, Resolved results)).
  { intros Hin. specialize (Hw Hin).
    unfold runProtocolTest, runWebRTCTest. cbn [String.eqb Ascii.eqb Bool.eqb].
    destruct (webrtcTest this) as [w|]; [|contradiction].
    destruct (WebRTCSpeedTest.downloadPhase_send _ _ _ _ w) as [w1 down].
    destruct (WebRTCSpeedTest.uploadPhase _ _ _ w1) as [w2 up].
    eexists _, _. reflexivity. }
  assert (Hhttp : exists this1 results,
                    runProtocolTest net this "http" = (this1, Resolved results)).
  { eexists _, _. reflexivity. }
  apply select_options_In in Hc.
  unfold getSelectedProtocol.
  destruct Hc as [Hc | [[Hc Hin] | [[Hc Hin] | Hc]]]; rewrite Hc;
    cbn [String.eqb Ascii.eqb Bool.eqb]; auto.
  destruct (includes (availableProtocols this) "udp") eqn:Hin_udp; [auto|].
  destruct (includes (availableProtocols this) "webrtc") eqn:Hin_rtc; auto.
Qed.

End ReachableFacts.

(** C2, as stated, fails, on an object obtained by [initialize] alone:
    udp, webrtc and http are all available, udp is selected and its
    bridge is dead (no ping answered, the download times out, no upload
    packet gets through).  The Single-mode run attempts udp and nothing
    else: it resolves with the UDP result, ping and download [null];
    webrtc, next in the chain, is not attempted, although its test would
    have resolved, and neither is http. *)
Lemma single_mode_dead_udp_attempts_udp_only :
  let this := fst (MultiProtocolSpeedTest.initialize Examples.dead_udp_window
                     MultiProtocolSpeedTest.constructor) in
  let single := MultiProtocolSpeedTest.runSingleProtocolTest Examples.quiet_network this in
  reachable this
  /\ priority_order (MultiProtocolSpeedTest.availableProtocols this)
     = ["udp"; "webrtc"; "http"]%string
  /\ MultiProtocolSpeedTest.getSelectedProtocol this = "udp"%string
  /\ MultiProtocolSpeedTest.autoFallback (MultiProtocolSpeedTest.config this) = true
  /\ MultiProtocolSpeedTest.attempted single = ["udp"]%string
  /\ MultiProtocolSpeedTest.settled single
     = Resolved
         {| MultiProtocolSpeedTest.ping := None;
            MultiProtocolSpeedTest.download := None;
            MultiProtocolSpeedTest.upload :=
              Some (MultiProtocolSpeedTest.speed_of "UDP" (JNum 0%float));
            MultiProtocolSpeedTest.protocol := "udp" |}
  /\ ~ In "webrtc"%string (MultiProtocolSpeedTest.attempted single)
  /\ ~ In "http"%string (MultiProtocolSpeedTest.attempted single)
  /\ exists r,
      snd (MultiProtocolSpeedTest.runProtocolTest Examples.quiet_network this "webrtc")
      = Resolved r.
Proof.
  intros this single.
  split; [apply reachable_initialize, reachable_constructor|].
  repeat (split; [reflexivity|]).
  split; [cbn; intros [Heq|[]]; discriminate Heq|].
  split; [cbn; intros [Heq|[]]; discriminate Heq|].
  eexists. vm_compute. reflexivity.
Qed.

(** C2 (amended): Single mode has no chain.  Whatever the object, the
    run attempts the selected protocol and at most the HTTP test after
    it, never another protocol.  On every object a page can arrive at
    (by [new], [initialize], the selector's [change] events, tests and
    [disconnect]) the test of the selected protocol does not throw, since
    a transport is listed and offered only with its test object and the
    UDP and WebRTC tests catch the failure of each phase: exactly the
    selected protocol is attempted, its result (failed phases [null]) is
    what the run resolves with, and no fallback takes place. *)
Theorem single_mode_attempts_selected_only {num : Type} `{Number num}
    (net : MultiProtocolSpeedTest.network_t num) (this : MultiProtocolSpeedTest.t num) :
  let selected := MultiProtocolSpeedTest.getSelectedProtocol this in
  let single := MultiProtocolSpeedTest.runSingleProtocolTest net this in
  (MultiProtocolSpeedTest.attempted single = [selected]
   \/ MultiProtocolSpeedTest.attempted single = [selected; "http"%string])
  /\ (reachable this ->
      MultiProtocolSpeedTest.attempted single = [selected]
      /\ exists results,
          snd (MultiProtocolSpeedTest.runProtocolTest net this selected) = Resolved results
          /\ MultiProtocolSpeedTest.settled single
             = Resolved (MultiProtocolSpeedTest.set_protocol selected results)).
Proof.
  intros selected single. split.
  - unfold single, MultiProtocolSpeedTest.runSingleProtocolTest. fold selected.
    destruct (MultiProtocolSpeedTest.runProtocolTest net this selected)
      as [this1 [results|error]]; [now left|].
    destruct (MultiProtocolSpeedTest.autoFallback (MultiProtocolSpeedTest.config this1)
              && negb (selected =? "http")%string); [|now left].
    destruct (MultiProtocolSpeedTest.runProtocolTest net this1 "http") as [this2 fallback].
    now right.
  - intros Hreachable.
    destruct (selected_test_resolves net this (reachable_consistent this Hreachable))
      as (this1 & results & Hrun).
    unfold single, MultiProtocolSpeedTest.runSingleProtocolTest. fold selected.
    unfold selected. rewrite Hrun. cbn.
    split; [reflexivity|]. exists results. split; reflexivity.
Qed.

Lemma single_mode_attempts_selected_only_witness :
  let this := fst (MultiProtocolSpeedTest.initialize Examples.dead_udp_window
                     MultiProtocolSpeedTest.constructor) in
  reachable this
  /\ MultiProtocolSpeedTest.attempted
       (MultiProtocolSpeedTest.runSingleProtocolTest Examples.quiet_network this)
     = ["udp"]%string.
Proof.
  intros this.
  assert (Hreachable : reachable this)
    by apply reachable_initialize, reachable_constructor.
  split; [exact Hreachable|].
  exact (proj1 (proj2 (single_mode_attempts_selected_only Examples.quiet_network this)
                  Hreachable)).
Defined.

(** C6, as stated, fails: on a page where the WebRTC and the UDP
    transport both initialise, Comparison mode attempts webrtc, udp,
    http, and files the results under these keys in this order; the
    priority order would be udp, webrtc, http. *)
Lemma comparison_order_is_not_priority_order :
  let this := fst (MultiProtocolSpeedTest.initialize Examples.full_window
                     MultiProtocolSpeedTest.constructor) in
  let comparison := MultiProtocolSpeedTest.runComparisonTest Examples.quiet_network this in
  MultiProtocolSpeedTest.comparisonMode this = true
  /\ MultiProtocolSpeedTest.attempted comparison = ["webrtc"; "udp"; "http"]%string
  /\ (exists results,
        MultiProtocolSpeedTest.settled comparison = Resolved results
        /\ map fst results = ["webrtc"; "udp"; "http"]%string)
  /\ priority_order (MultiProtocolSpeedTest.availableProtocols this)
     = ["udp"; "webrtc"; "http"]%string
  /\ MultiProtocolSpeedTest.attempted comparison
     <> priority_order (MultiProtocolSpeedTest.availableProtocols this).
Proof.
  intros this comparison.
  split; [reflexivity|]. split; [reflexivity|].
  split; [eexists; split; vm_compute; reflexivity|].
  split; [reflexivity|].
  vm_compute. discriminate.
Qed.

(** C6 (amended): Comparison mode attempts the protocols of
    [availableProtocols] in the order of that array; after [initialize]
    on a fresh object this is the order in which the kinds were probed
    (webrtc if it initialised, then udp if it initialised, then http),
    each exactly once, and the results are keyed in that same order. *)
Theorem comparison_follows_probe_order {num : Type} `{Number num}
    (net : MultiProtocolSpeedTest.network_t num) :
  (forall this : MultiProtocolSpeedTest.t num,
      MultiProtocolSpeedTest.attempted (MultiProtocolSpeedTest.runComparisonTest net this)
      = MultiProtocolSpeedTest.availableProtocols this)
  /\ (forall window : MultiProtocolSpeedTest.window_t num,
      let this := fst (MultiProtocolSpeedTest.initialize window
                         MultiProtocolSpeedTest.constructor) in
      let comparison := MultiProtocolSpeedTest.runComparisonTest net this in
      MultiProtocolSpeedTest.attempted comparison = probe_order window
      /\ NoDup (probe_order window)
      /\ exists results,
          MultiProtocolSpeedTest.settled comparison = Resolved results
          /\ map fst results = probe_order window).
Proof.
  assert (Hattempted : forall this : MultiProtocolSpeedTest.t num,
             MultiProtocolSpeedTest.attempted
               (MultiProtocolSpeedTest.runComparisonTest net this)
             = MultiProtocolSpeedTest.availableProtocols this).
  { intros this. unfold MultiProtocolSpeedTest.runComparisonTest.
    pose proof (comparison_loop_attempted net
                  (MultiProtocolSpeedTest.availableProtocols this) this [] []) as Hloop.
    destruct (MultiProtocolSpeedTest.comparison_loop _ _ _ _ _) as [[this1 attempts] results].
    exact Hloop. }
  split; [exact Hattempted|].
  intros window this comparison.
  split; [|split].
  - unfold comparison. rewrite Hattempted. apply initialize_availableProtocols.
  - apply probe_order_NoDup.
  - unfold comparison, MultiProtocolSpeedTest.runComparisonTest.
    pose proof (comparison_loop_keys net
                  (MultiProtocolSpeedTest.availableProtocols this) this [] []) as Hkeys.
    destruct (MultiProtocolSpeedTest.comparison_loop _ _ _ _ _) as [[this1 attempts] results].
    exists results. split; [reflexivity|].
    cbn [snd map app] in Hkeys. rewrite Hkeys.
    + apply initialize_availableProtocols.
    + unfold this. rewrite initialize_availableProtocols. apply probe_order_ordinary.
    + unfold this. rewrite initialize_availableProtocols. apply probe_order_NoDup.
Qed.

(** ** Failures and phase boundaries *)




(** ** Further properties of the statistics, in exact arithmetic *)

Section ExactSums.
Local Open Scope Q_scope.

Lemma Qsum_acc (l : list Q) (a : Q) :
  fold_left Qplus l a == a + fold_left Qplus l 0.
Proof.
  revert a. induction l as [|x l IH]; intros a.
  - cbn. ring.
  - cbn [fold_left]. rewrite (IH (a + x)), (IH (0 + x)). ring.
Qed.

Lemma Qsum_cons (x : Q) (l : list Q) :
  fold_left Qplus (x :: l) 0 == x + fold_left Qplus l 0.
Proof. cbn [fold_left]. rewrite Qsum_acc. ring. Qed.

Lemma inject_nat_succ (n : nat) :
  inject_Z (Z.of_nat (S n)) == inject_Z (Z.of_nat n) + 1.
Proof. rewrite Nat2Z.inj_succ. unfold Z.succ. rewrite inject_Z_plus. reflexivity. Qed.

Lemma inject_nat_pos (n : nat) : (0 < n)%nat -> 0 < inject_Z (Z.of_nat n).
Proof.
  intros Hn. change 0 with (inject_Z 0). rewrite <- Zlt_Qlt. lia.
Qed.

(** A sum of [n] numbers between [lo] and [hi] lies between [n * lo] and
    [n * hi]. *)
Lemma Qsum_bounds (lo hi : Q) (l : list Q) :
  Forall (fun x => lo <= x <= hi) l ->
  inject_Z (Z.of_nat (length l)) * lo <= fold_left Qplus l 0
  /\ fold_left Qplus l 0 <= inject_Z (Z.of_nat (length l)) * hi.
Proof.
  induction 1 as [|x l [Hlo Hhi] _ [IHlo IHhi]].
  - change (inject_Z (Z.of_nat (length (@nil Q)))) with 0.
    rewrite !Qmult_0_l. cbn. split; apply Qle_refl.
  - cbn [length]. rewrite Qsum_cons, inject_nat_succ. split.
    + setoid_replace ((inject_Z (Z.of_nat (length l)) + 1) * lo)
        with (lo + inject_Z (Z.of_nat (length l)) * lo) by ring.
      now apply Qplus_le_compat.
    + setoid_replace ((inject_Z (Z.of_nat (length l)) + 1) * hi)
        with (hi + inject_Z (Z.of_nat (length l)) * hi) by ring.
      now apply Qplus_le_compat.
Qed.

Lemma Qsum_nonneg (l : list Q) :
  Forall (fun x => 0 <= x) l -> 0 <= fold_left Qplus l 0.
Proof.
  induction 1 as [|x l Hx _ IH].
  - cbn. apply Qle_refl.
  - rewrite Qsum_cons.
    setoid_replace 0 with (0 + 0) at 1 by ring.
    now apply Qplus_le_compat.
Qed.

(** A sum of non-negative numbers vanishes only if each of them does. *)
Lemma Qsum_zero (l : list Q) :
  Forall (fun x => 0 <= x) l ->
  fold_left Qplus l 0 == 0 ->
  Forall (fun x => x == 0) l.
Proof.
  induction 1 as [|x l Hx Hl IH]; intros Hsum; [constructor|].
  rewrite Qsum_cons in Hsum.
  pose proof (Qsum_nonneg l Hl) as Hrest.
  assert (Hx0 : x == 0).
  { apply Qle_antisym; [|exact Hx].
    rewrite <- Hsum.
    setoid_replace x with (x + 0) at 1 by ring.
    apply Qplus_le_compat; [apply Qle_refl | exact Hrest]. }
  constructor; [exact Hx0|].
  apply IH. rewrite Hx0, Qplus_0_l in Hsum. exact Hsum.
Qed.

End ExactSums.

Section ExactJitter.
Local Open Scope Q_scope.

Lemma consecutive_abs_diffs_length {num : Type} `{Number num} (s : list num) :
  length (consecutive_abs_diffs s) = (length s - 1)%nat.
Proof.
  induction s as [|a [|b rest] IH]; [reflexivity | reflexivity |].
  cbn [consecutive_abs_diffs length] in *. rewrite IH. lia.
Qed.

Lemma consecutive_abs_diffs_nonneg (s : list Q) :
  Forall (fun d => 0 <= d) (consecutive_abs_diffs s).
Proof.
  induction s as [|a [|b rest] IH]; [constructor | constructor |].
  cbn [consecutive_abs_diffs]. constructor; [|exact IH].
  change (num_abs (num_sub b a)) with (Qabs (b - a)). apply Qabs_nonneg.
Qed.

Lemma jitter_divisor (n : nat) :
  (1 <= n)%nat ->
  inject_Z (Z.of_nat n) - 1 == inject_Z (Z.of_nat (n - 1)).
Proof.
  intros Hn. destruct n as [|m]; [lia|].
  rewrite inject_nat_succ. replace (S m - 1)%nat with m by lia. ring.
Qed.

Lemma mean_abs_diff_exact (s : list Q) :
  mean_abs_diff s
  = fold_left Qplus (consecutive_abs_diffs s) 0 / (inject_Z (Z.of_nat (length s)) - 1).
Proof. reflexivity. Qed.

Lemma Qabs_zero (x : Q) : Qabs x == 0 <-> x == 0.
Proof.
  split; intros Hx.
  - assert (Hle : Qabs x <= 0) by (rewrite Hx; apply Qle_refl).
    apply Qabs_Qle_condition in Hle. destruct Hle as [Hlow Hhigh].
    apply Qle_antisym; [exact Hhigh | exact Hlow].
  - rewrite Hx. reflexivity.
Qed.

Lemma Qminus_zero (a b : Q) : b - a == 0 <-> b == a.
Proof.
  split; intros Heq.
  - setoid_replace b with (b - a + a) by ring. rewrite Heq. ring.
  - rewrite Heq. ring.
Qed.

Lemma consecutive_abs_diffs_cons (a b : Q) (rest : list Q) :
  consecutive_abs_diffs (a :: b :: rest)
  = Qabs (b - a) :: consecutive_abs_diffs (b :: rest).
Proof. reflexivity. Qed.

(** The differences vanish exactly when every later sample equals the
    first. *)
Lemma consecutive_abs_diffs_zero (a : Q) (rest : list Q) :
  Forall (fun d => d == 0) (consecutive_abs_diffs (a :: rest))
  <-> Forall (fun x => x == a) rest.
Proof.
  revert a. induction rest as [|b rest IH]; intros a.
  - split; constructor.
  - rewrite consecutive_abs_diffs_cons, !Forall_cons_iff, IH, Qabs_zero, Qminus_zero.
    split; intros [Hb Hrest]; (split; [exact Hb|]);
      (eapply Forall_impl; [|exact Hrest]); cbn; intros x Hx.
    + now rewrite Hx.
    + now rewrite Hx, Hb.
Qed.

End ExactJitter.

(** X1: in exact arithmetic [calculateJitter], in both classes, returns
    a non-negative number for every sample sequence. *)
Theorem jitter_is_nonnegative (s : list Q) :
  exists j : Q,
    UDPSpeedTest.calculateJitter s = JNum j
    /\ WebRTCSpeedTestIntegration.calculateJitter s = JNum j
    /\ 0 <= j.
Proof.
  destruct (Nat.lt_ge_cases (length s) 2) as [Hshort|Hlong].
  - exists 0. split; [|split].
    + exact (calculateJitter_short s Hshort).
    + etransitivity; [apply integration_calculateJitter_same|].
      exact (calculateJitter_short s Hshort).
    + apply Qle_refl.
  - exists (mean_abs_diff s). split; [|split].
    + exact (calculateJitter_mean_abs_diff s Hlong).
    + etransitivity; [apply integration_calculateJitter_same|].
      exact (calculateJitter_mean_abs_diff s Hlong).
    + rewrite mean_abs_diff_exact, jitter_divisor by lia.
      apply Qle_shift_div_l; [apply inject_nat_pos; lia|].
      rewrite Qmult_0_l. apply Qsum_nonneg, consecutive_abs_diffs_nonneg.
Qed.

(** X3: in exact arithmetic, for at least two samples, the jitter is 0
    exactly when all samples are equal. *)
Theorem zero_jitter_iff_constant (s : list Q) :
  (2 <= length s)%nat ->
  exists j : Q,
    UDPSpeedTest.calculateJitter s = JNum j
    /\ (j == 0 <-> forall x y, In x s -> In y s -> x == y).
Proof.
  intros Hlong.
  exists (mean_abs_diff s). split; [exact (calculateJitter_mean_abs_diff s Hlong)|].
  rewrite mean_abs_diff_exact, jitter_divisor by lia.
  assert (Hpos : 0 < inject_Z (Z.of_nat (length s - 1))) by (apply inject_nat_pos; lia).
  assert (Hne : ~ inject_Z (Z.of_nat (length s - 1)) == 0).
  { intros Heq. rewrite Heq in Hpos. discriminate Hpos. }
  destruct s as [|a rest]; [cbn in Hlong; lia|].
  transitivity (Forall (fun d => d == 0) (consecutive_abs_diffs (a :: rest))).
  - split.
    + intros Hzero. apply Qsum_zero; [apply consecutive_abs_diffs_nonneg|].
      set (total := fold_left Qplus (consecutive_abs_diffs (a :: rest)) 0) in *.
      set (d := inject_Z (Z.of_nat (length (a :: rest) - 1))) in *.
      transitivity (d * (total / d)); [symmetry; apply Qmult_div_r; exact Hne|].
      rewrite Hzero. apply Qmult_0_r.
    + intros Hall.
      destruct (Qsum_bounds 0 0 (consecutive_abs_diffs (a :: rest))) as [Hlow Hup].
      { eapply Forall_impl; [|exact Hall]. cbn. intros d Hd. rewrite Hd.
        split; apply Qle_refl. }
      rewrite Qmult_0_r in Hlow, Hup.
      assert (Hsum : fold_left Qplus (consecutive_abs_diffs (a :: rest)) 0 == 0)
        by (apply Qle_antisym; assumption).
      rewrite Hsum. unfold Qdiv. ring.
  - rewrite consecutive_abs_diffs_zero, Forall_forall. split.
    + intros Hall x y [<-|Hx] [<-|Hy].
      * reflexivity.
      * symmetry. now apply Hall.
      * now apply Hall.
      * rewrite (Hall x Hx), (Hall y Hy). reflexivity.
    + intros Hpair x Hx. apply Hpair; [now right | now left].
Qed.

Lemma zero_jitter_iff_constant_witness :
  exists j : Q,
    UDPSpeedTest.calculateJitter [25 # 1; 50 # 2; 75 # 3] = JNum j
    /\ (j == 0 <->
        forall x y, In x [25 # 1; 50 # 2; 75 # 3] -> In y [25 # 1; 50 # 2; 75 # 3] -> x == y).
Proof.
  apply (zero_jitter_iff_constant [25 # 1; 50 # 2; 75 # 3]).
  cbn. lia.
Defined.

(** ** Further properties of the ping phases *)

Lemma latency_samples_length {num : Type} `{Number num} (this : UDPSpeedTest.t num) :
  (length (latency_samples this) <= UDPSpeedTest.pingCount this)%nat.
Proof.
  unfold latency_samples.
  generalize 0%nat as i. generalize (UDPSpeedTest.pingCount this) as n.
  induction n as [|n IH]; intros i; [cbn; lia|].
  cbn [seq flat_map]. rewrite length_app. specialize (IH (S i)).
  destruct (UDPSpeedTest.sendUDPPing this i); cbn [length]; lia.
Qed.

Lemma integration_ping_loop_same {num : Type} `{Number num}
    (measure : nat -> option num) (steps i : nat) (acc : list num) :
  WebRTCSpeedTestIntegration.ping_loop (fun i => Resolved (measure i)) i steps acc
  = Resolved (UDPSpeedTest.ping_loop measure i steps acc).
Proof.
  revert i acc. induction steps as [|steps IH]; intros i acc; [reflexivity|].
  cbn. destruct (measure i); apply IH.
Qed.

(** X4: [UDPSpeedTest.startPingTest] resolves exactly when the server
    information is there and at least one ping was answered; its samples
    are then the replies in the order of their requests, between 1 and
    [pingCount] of them.  It rejects with "Server not available" without
    server information and with "No successful ping responses received"
    when no ping was answered, and in no other way. *)
Theorem startPingTest_outcomes {num : Type} `{Number num} (this : UDPSpeedTest.t num) :
  match UDPSpeedTest.startPingTest this with
  | Resolved r =>
      UDPSpeedTest.serverInfo this = true
      /\ UDPSpeedTest.samples r = latency_samples this
      /\ (1 <= length (UDPSpeedTest.samples r) <= UDPSpeedTest.pingCount this)%nat
  | Rejected error =>
      (UDPSpeedTest.serverInfo this = false /\ error = "Server not available"%string)
      \/ (UDPSpeedTest.serverInfo this = true
          /\ latency_samples this = []
          /\ error = "No successful ping responses received"%string)
  end.
Proof.
  unfold UDPSpeedTest.startPingTest.
  rewrite ping_loop_latency_samples.
  destruct (UDPSpeedTest.serverInfo this); cbn [negb]; [|left; split; reflexivity].
  pose proof (latency_samples_length this) as Hmax.
  destruct (Nat.ltb_spec 0 (length (latency_samples this))) as [Hpos|Hzero].
  - cbn [UDPSpeedTest.samples]. repeat split; lia.
  - right. repeat split.
    destruct (latency_samples this); [reflexivity | cbn in Hzero; lia].
Qed.

(** X6: on a page that defines [Status] and [Show], the ping test of
    [WebRTCSpeedTestIntegration] shows as final values the average and
    jitter that [UDPSpeedTest.startPingTest] reports for the same ten
    replies, and where that one throws (no reply at all) it shows nothing
    and does not throw.  On a page without these globals (the repository
    defines neither) it shows nothing, whatever the replies would be. *)
Theorem integration_ping_agrees {num : Type} `{Number num} (this : UDPSpeedTest.t num) :
  UDPSpeedTest.serverInfo this = true ->
  UDPSpeedTest.pingCount this = 10%nat ->
  WebRTCSpeedTestIntegration.startPingTest true true
    (fun i => Resolved (UDPSpeedTest.sendUDPPing this i))
  = match UDPSpeedTest.startPingTest this with
    | Resolved r => Some (UDPSpeedTest.average r, UDPSpeedTest.jitter r)
    | Rejected _ => None
    end
  /\ forall (speedTest : bool) (measure : nat -> outcome (option num)),
       WebRTCSpeedTestIntegration.startPingTest speedTest false measure = None.
Proof.
  intros Hinfo Hcount. split.
  - unfold WebRTCSpeedTestIntegration.startPingTest, UDPSpeedTest.startPingTest.
    rewrite Hinfo, Hcount, integration_ping_loop_same. cbn [negb].
    destruct (0 <? length _)%nat; reflexivity.
  - intros [|] measure; reflexivity.
Qed.

Lemma integration_ping_agrees_witness :
  WebRTCSpeedTestIntegration.startPingTest true true
    (fun i => Resolved (Examples.four_replies i))
  = Some (22.75, JNum (16 / 3))%float
  /\ WebRTCSpeedTestIntegration.startPingTest true true
       (fun i => Resolved (Examples.no_reply i)) = None
  /\ WebRTCSpeedTestIntegration.startPingTest true false
       (fun i => Resolved (Examples.four_replies i)) = None.
Proof.
  split; [|split].
  - refine (proj1 (integration_ping_agrees (Examples.udp Examples.four_replies) _ _));
      reflexivity.
  - refine (proj1 (integration_ping_agrees (Examples.udp Examples.no_reply) _ _));
      reflexivity.
  - refine (proj2 (integration_ping_agrees (Examples.udp Examples.four_replies) _ _) true _);
      reflexivity.
Defined.

(** ** Further properties of [WebRTCSpeedTest] *)

Section ChannelFacts.
Context {num : Type} `{Number num}.
Import WebRTCSpeedTest.

Lemma uploadPhase_closed (t0 t1 : num) (sends : list bool) (this : t num) :
  dataChannelOpen this = false -> uploadPhase t0 sends t1 this = (this, None).
Proof. intros Hopen. unfold uploadPhase, startUploadTest. now rewrite Hopen. Qed.

(** X7: what a download or upload phase reports depends on what happens
    during the phase only: two objects whose channels are in the same
    state report the same, whatever their earlier statistics and flags. *)
Theorem phase_report_forgets_history
    (this this' : t num) (t0 t1 : num) (arrivals : list (num * num)) (sends : list bool) :
  dataChannelOpen this = dataChannelOpen this' ->
  snd (downloadPhase t0 arrivals t1 this) = snd (downloadPhase t0 arrivals t1 this')
  /\ snd (uploadPhase t0 sends t1 this) = snd (uploadPhase t0 sends t1 this').
Proof.
  intros Hsame.
  destruct (dataChannelOpen this) eqn:Hopen; symmetry in Hsame.
  - rewrite !downloadPhase_reports, !uploadPhase_reports by assumption. split; reflexivity.
  - rewrite (downloadPhase_closed t0 t1 arrivals this Hopen),
      (downloadPhase_closed t0 t1 arrivals this' Hsame),
      (uploadPhase_closed t0 t1 sends this Hopen),
      (uploadPhase_closed t0 t1 sends this' Hsame).
    split; reflexivity.
Qed.

(** X8: once a send of the upload interval throws, the interval is
    cleared: the firings that would have followed send and count
    nothing, so the phase reports as if it had ended there. *)
Theorem upload_ends_at_first_failed_send
    (this : t num) (t0 t1 : num) (before after : list bool) :
  uploadTicks (before ++ false :: after) this = uploadTicks before this
  /\ uploadPhase t0 (before ++ false :: after) t1 this = uploadPhase t0 before t1 this.
Proof.
  assert (Hticks : forall o : t num,
             uploadTicks (before ++ false :: after) o = uploadTicks before o).
  { induction before as [|sent before IH]; intros o.
    - cbn [app uploadTicks]. unfold uploadTick.
      destruct (isTestRunning o); reflexivity.
    - cbn [app uploadTicks].
      destruct (uploadTick sent o) as [o' armed].
      destruct armed; [apply IH | reflexivity]. }
  split; [apply Hticks|].
  unfold uploadPhase.
  destruct (startUploadTest t0 this) as [this1 started].
  destruct started; [|reflexivity].
  now rewrite Hticks.
Qed.

(** X9: after [close()] the object is inert: whatever happens next
    (messages, timers, interval firings, requests to start a test,
    another [close()]) leaves it exactly as [close()] left it; no test
    starts and no statistic moves. *)
Theorem closed_object_is_inert (this : t num) (events : list (event num)) :
  handle_all events (close this) = close this.
Proof.
  unfold handle_all.
  induction events as [|e events IH]; [reflexivity|].
  cbn [fold_left].
  replace (handle (close this) e) with (close this); [exact IH|].
  destruct e as [size|now|now|sent|  |now|now]; reflexivity.
Qed.

End ChannelFacts.

Section ExactChannel.
Import WebRTCSpeedTest.
Local Open Scope Q_scope.

Lemma counted_acc {A : Type} (l : list A) (a : Q) :
  fold_left (fun n _ => n + 1) l a == a + inject_Z (Z.of_nat (length l)).
Proof.
  revert a. induction l as [|x l IH]; intros a.
  - cbn. ring.
  - cbn [fold_left]. rewrite IH. cbn [length]. rewrite inject_nat_succ. ring.
Qed.

(** X10: in exact arithmetic, when a download phase on an open channel
    ends, [packetsReceived] is the number of payloads that arrived during
    it, [bytesReceived] the sum of their sizes, [startTime] the clock at
    the request, and the test is no longer running. *)
Theorem download_counters_exact
    (this : t Q) (t0 t1 : Q) (arrivals : list (Q * Q)) :
  dataChannelOpen this = true ->
  let final := fst (downloadPhase t0 arrivals t1 this) in
  isTestRunning final = false
  /\ startTime (downloadStats final) = t0
  /\ bytesReceived (downloadStats final) = sum (map snd arrivals)
  /\ packetsReceived (downloadStats final) == inject_Z (Z.of_nat (length arrivals)).
Proof.
  intros Hopen final. unfold final, downloadPhase, startDownloadTest.
  rewrite Hopen. cbn [negb].
  rewrite receive_running by reflexivity.
  cbn [stopDownloadTest fst isTestRunning downloadStats startTime bytesReceived
       packetsReceived].
  repeat split.
  change (fold_left (fun n _ => n + 1) (map snd arrivals) 0
          == inject_Z (Z.of_nat (length arrivals))).
  rewrite counted_acc, length_map. ring.
Qed.

Lemma download_counters_exact_witness :
  let final :=
    fst (downloadPhase (100 # 1) [(150 # 1, 16384 # 1); (4000 # 1, 16384 # 1)]
                       (9600 # 1) Examples.open_channel) in
  isTestRunning final = false
  /\ startTime (downloadStats final) = 100 # 1
  /\ bytesReceived (downloadStats final)
     = sum (map snd [(150 # 1, 16384 # 1); (4000 # 1, 16384 # 1)])
  /\ packetsReceived (downloadStats final) == 2 # 1.
Proof.
  refine (download_counters_exact Examples.open_channel (100 # 1) (9600 # 1)
            [(150 # 1, 16384 # 1); (4000 # 1, 16384 # 1)] _).
  reflexivity.
Defined.

Lemma handle_keeps_upload_counters (this : t Q) (e : event Q) :
  upload_counters_agree this -> upload_counters_agree (handle this e).
Proof.
  intros [Hbytes Hcount]. unfold upload_counters_agree.
  destruct e as [size|now|now|sent| |now|now]; cbn [handle].
  - unfold handleIncomingData. destruct (isTestRunning this); cbn; now split.
  - cbn. now split.
  - cbn. now split.
  - unfold uploadTick. destruct (isTestRunning this); cbn [negb fst]; [|now split].
    destruct sent; cbn [fst]; [|now split].
    cbn [uploadStats bytesSent packetsSent].
    change (bytesSent (uploadStats this) + (16384 # 1)
            == (16384 # 1) * (packetsSent (uploadStats this) + 1)
            /\ 0 <= packetsSent (uploadStats this) + 1).
    split.
    + rewrite Hbytes. ring.
    + setoid_replace 0 with (0 + 0) by ring.
      apply Qplus_le_compat; [exact Hcount | discriminate].
  - cbn. now split.
  - unfold startDownloadTest. destruct (dataChannelOpen this); cbn; now split.
  - unfold startUploadTest. destruct (dataChannelOpen this); cbn [negb fst]; [|now split].
    cbn. split; [reflexivity | discriminate].
Qed.

(** X11: in exact arithmetic the agreement of the upload counters
    ([bytesSent] is 16384 times [packetsSent], and [packetsSent] is not
    negative) is kept by whatever happens to a [WebRTCSpeedTest] object:
    messages, timers, firings of the upload interval, [close()] and the
    start of either test, on an open channel as on a closed one. *)
Theorem upload_counters_invariant (this : t Q) (events : list (event Q)) :
  upload_counters_agree this ->
  let after := handle_all events this in
  bytesSent (uploadStats after) == (16384 # 1) * packetsSent (uploadStats after)
  /\ 0 <= packetsSent (uploadStats after).
Proof.
  intros Hthis. cbn zeta. revert this Hthis.
  unfold handle_all. induction events as [|e events IH]; intros this Hthis; [exact Hthis|].
  cbn [fold_left]. apply IH, handle_keeps_upload_counters, Hthis.
Qed.

(** X12: in exact arithmetic the speed computed from a byte count and a
    positive duration grows with the bytes and shrinks with the
    duration. *)
Theorem speed_is_monotone (B B' T T' : Q) :
  0 <= B -> B <= B' -> 0 < T -> T <= T' ->
  speedMbps_of B T <= speedMbps_of B' T
  /\ speedMbps_of B T' <= speedMbps_of B T.
Proof.
  intros HB HBB HT HTT.
  assert (HT' : 0 < T') by (eapply Qlt_le_trans; eassumption).
  assert (Hform : forall b t : Q, 0 < t -> speedMbps_of b t == b * (1 # 125) / t).
  { intros b t Ht. unfold speedMbps_of, lit.
    cbn [num_of_Z num_mul num_div Q_Number].
    field. intros Heq. rewrite Heq in Ht. discriminate Ht. }
  rewrite !Hform by assumption.
  split.
  - apply Qle_shift_div_r; [exact HT|].
    unfold Qdiv. rewrite <- Qmult_assoc, (Qmult_comm (/ T)), Qmult_inv_r, Qmult_1_r.
    + apply Qmult_le_compat_r; [exact HBB | discriminate].
    + intros Heq. rewrite Heq in HT. discriminate HT.
  - assert (HK : 0 <= B * (1 # 125)) by (apply Qmult_le_0_compat; [exact HB | discriminate]).
    apply Qle_shift_div_l; [exact HT|].
    apply Qle_trans with (B * (1 # 125) / T' * T').
    + rewrite !(Qmult_comm (B * (1 # 125) / T')).
      apply Qmult_le_compat_r; [exact HTT|].
      apply Qle_shift_div_l; [exact HT'|]. rewrite Qmult_0_l. exact HK.
    + unfold Qdiv. rewrite <- Qmult_assoc, (Qmult_comm (/ T')), Qmult_inv_r, Qmult_1_r.
      * apply Qle_refl.
      * intros Heq. rewrite Heq in HT'. discriminate HT'.
Qed.

Lemma upload_counters_invariant_witness :
  let events :=
    [StartUpload (12000 # 1); UploadInterval true; Message (16384 # 1);
     UploadInterval true; UploadInterval true; UploadTimer (22000 # 1);
     UploadInterval true] in
  let after := handle_all events (Examples.open_channel (num := Q)) in
  upload_counters_agree (Examples.open_channel (num := Q))
  /\ packetsSent (uploadStats after) == (3 # 1)
  /\ bytesSent (uploadStats after) == (16384 # 1) * packetsSent (uploadStats after).
Proof.
  intros events after.
  assert (Hstart : upload_counters_agree (Examples.open_channel (num := Q)))
    by (split; [reflexivity | discriminate]).
  split; [exact Hstart|]. split; [reflexivity|].
  exact (proj1 (upload_counters_invariant Examples.open_channel events Hstart)).
Defined.

Lemma speed_is_monotone_witness :
  speedMbps_of (16384 # 1) (5000 # 1) <= speedMbps_of (32768 # 1) (5000 # 1)
  /\ speedMbps_of (16384 # 1) (10000 # 1) <= speedMbps_of (16384 # 1) (5000 # 1).
Proof.
  apply (speed_is_monotone (16384 # 1) (32768 # 1) (5000 # 1) (10000 # 1));
    first [reflexivity | discriminate].
Defined.

End ExactChannel.

(** ** Further properties of the UDP download and upload phases *)

Section UDPPhases.
Context {num : Type} `{Number num}.
Import UDPSpeedTest.

Lemma download_loop_pending (startTime : num) (events rest : list (downloadEvent num))
    (bytes packets : num) :
  forallb pending events = true ->
  download_loop startTime (events ++ rest) bytes packets
  = download_loop startTime rest
      (fold_left num_add (data_sizes events) bytes)
      (fold_left (fun n _ => (n + lit 1)%num) (data_sizes events) packets).
Proof.
  revert bytes packets.
  induction events as [|e events IH]; intros bytes packets Hpending; [reflexivity|].
  cbn [forallb] in Hpending. apply andb_true_iff in Hpending as [He Hrest].
  destruct e; cbn [pending] in He; try discriminate He;
    cbn [app download_loop data_sizes flat_map fold_left]; now rewrite IH.
Qed.

(** X13: a UDP download is decided by the first ['complete'] message or
    error event.  Up to a ['complete'] message at clock [now] the
    ['data'] messages are counted and their sizes added, and the result
    is their sum over the time since the start; an error event first
    rejects the phase; with neither, the timer rejects it
    ("Download test timeout").  Whatever the source delivers after the
    deciding event has no effect. *)
Theorem udp_download_decided_by_first_terminal
    (this : t num) (startTime now : num) (before after : list (downloadEvent num)) :
  serverInfo this = true ->
  forallb pending before = true ->
  startDownloadTest_events startTime (before ++ CompleteMessage now :: after) this
  = Resolved
      {| duration := (now - startTime)%num;
         bytesReceived := sum (data_sizes before);
         packetsReceived := counted (data_sizes before);
         speedMbps :=
           (sum (data_sizes before) * lit 8 / ((now - startTime) / lit 1000)
            / lit 1000000)%num;
         downloadProtocol := "UDP" |}
  /\ startDownloadTest_events startTime (before ++ ErrorEvent :: after) this
     = Rejected "error"
  /\ startDownloadTest_events startTime before this
     = Rejected "Download test timeout".
Proof.
  intros Hinfo Hpending.
  unfold startDownloadTest_events. rewrite Hinfo. cbn [negb].
  repeat split.
  - rewrite download_loop_pending by exact Hpending. reflexivity.
  - rewrite download_loop_pending by exact Hpending. reflexivity.
  - rewrite <- (app_nil_r before) at 1.
    rewrite download_loop_pending by exact Hpending. reflexivity.
Qed.

Lemma upload_loop_counts (packetSize : num) (fetches : list bool) (bytes packets : num) :
  upload_loop packetSize fetches bytes packets
  = (fold_left (fun b _ => (b + packetSize)%num) (resolved_fetches fetches) bytes,
     fold_left (fun n _ => (n + lit 1)%num) (resolved_fetches fetches) packets).
Proof.
  revert bytes packets.
  induction fetches as [|[|] fetches IH]; intros bytes packets; [reflexivity| |];
    cbn [upload_loop resolved_fetches filter fold_left]; apply IH.
Qed.

End UDPPhases.

Lemma udp_download_decided_by_first_terminal_witness :
  (UDPSpeedTest.startDownloadTest_events 0
     ([UDPSpeedTest.DataMessage 1024; UDPSpeedTest.IgnoredMessage; UDPSpeedTest.DataMessage 1024]
      ++ UDPSpeedTest.CompleteMessage 10000 :: [UDPSpeedTest.DataMessage 1024; UDPSpeedTest.ErrorEvent])
     (Examples.udp Examples.no_reply)
   = Resolved
       {| UDPSpeedTest.duration := 10000 - 0;
          UDPSpeedTest.bytesReceived := sum [1024; 1024];
          UDPSpeedTest.packetsReceived := counted [1024; 1024];
          UDPSpeedTest.speedMbps := sum [1024; 1024] * 8 / ((10000 - 0) / 1000) / 1000000;
          UDPSpeedTest.downloadProtocol := "UDP" |})%float.
Proof.
  refine (proj1 (udp_download_decided_by_first_terminal
                   (Examples.udp Examples.no_reply) 0%float 10000%float
                   [UDPSpeedTest.DataMessage 1024; UDPSpeedTest.IgnoredMessage; UDPSpeedTest.DataMessage 1024]%float
                   [UDPSpeedTest.DataMessage 1024; UDPSpeedTest.ErrorEvent]%float _ _)); reflexivity.
Defined.

(** X14: a UDP upload never fails once server information is there: it
    resolves whatever the fetches did.  A fetch that throws is skipped
    and the interval goes on, so that, in exact arithmetic, [packetsSent]
    is the number of fetches that resolved, wherever the failures fell,
    and [bytesSent] is [packetSize] times that number. *)
Theorem udp_upload_counts_resolved_fetches
    (this : UDPSpeedTest.t Q) (packetSize startTime stopTime : Q) (fetches : list bool) :
  UDPSpeedTest.serverInfo this = true ->
  exists r,
    UDPSpeedTest.startUploadTest_fetches packetSize startTime stopTime fetches this
    = Resolved r
    /\ UDPSpeedTest.packetsSent r
       == inject_Z (Z.of_nat (length (resolved_fetches fetches)))
    /\ UDPSpeedTest.bytesSent r
       == packetSize * inject_Z (Z.of_nat (length (resolved_fetches fetches)))
    /\ UDPSpeedTest.uploadDuration r = stopTime - startTime.
Proof.
  intros Hinfo. unfold UDPSpeedTest.startUploadTest_fetches.
  rewrite Hinfo, upload_loop_counts. cbn [negb].
  eexists. split; [reflexivity|].
  cbn [UDPSpeedTest.packetsSent UDPSpeedTest.bytesSent UDPSpeedTest.uploadDuration].
  split; [|split; [|reflexivity]].
  - change (fold_left (fun n _ => n + 1) (resolved_fetches fetches) 0
            == inject_Z (Z.of_nat (length (resolved_fetches fetches)))).
    rewrite counted_acc. ring.
  - change (fold_left (fun b _ => b + packetSize) (resolved_fetches fetches) 0
            == packetSize * inject_Z (Z.of_nat (length (resolved_fetches fetches)))).
    generalize (resolved_fetches fetches) as l. intros l.
    assert (Hacc : forall a, fold_left (fun b (_ : bool) => b + packetSize) l a
                             == a + packetSize * inject_Z (Z.of_nat (length l))).
    { induction l as [|x l IH]; intros a.
      - cbn. ring.
      - cbn [fold_left length]. rewrite IH, inject_nat_succ. ring. }
    rewrite Hacc. ring.
Qed.

Lemma udp_upload_counts_resolved_fetches_witness :
  exists r,
    UDPSpeedTest.startUploadTest_fetches (1024 # 1) 0 (10000 # 1)
      [true; false; true; true; false]
      (Examples.udp_exact Examples.four_replies_exact) = Resolved r
    /\ UDPSpeedTest.packetsSent r == 3 # 1
    /\ UDPSpeedTest.bytesSent r == (1024 # 1) * (3 # 1)
    /\ UDPSpeedTest.uploadDuration r = (10000 # 1) - 0.
Proof.
  refine (udp_upload_counts_resolved_fetches
            (Examples.udp_exact Examples.four_replies_exact)
            (1024 # 1) 0 (10000 # 1) [true; false; true; true; false] _).
  reflexivity.
Defined.

(** ** Further properties of [MultiProtocolSpeedTest] *)

Section EngineFacts.
Context {num : Type} `{Number num}.
Import MultiProtocolSpeedTest.
Local Open Scope string_scope.
Local Open Scope list_scope.

(** X15: after [initialize] on a fresh object, "http" is listed, and
    listed last; nothing but "webrtc", "udp" and "http" is listed; a
    listed kind has its test object in place; the preference is "udp" if
    udp is listed and "auto" otherwise; and Comparison mode is on. *)
Theorem initialize_lists_what_it_created (window : window_t num) :
  let this := fst (initialize window constructor) in
  last (availableProtocols this) "" = "http"
  /\ (forall p, In p (availableProtocols this) ->
                p = "webrtc" \/ p = "udp" \/ p = "http")
  /\ (In "udp" (availableProtocols this) -> udpTest this = Some (udpObject window))
  /\ (In "webrtc" (availableProtocols this) ->
      webrtcTest this = Some WebRTCSpeedTest.constructor)
  /\ currentProtocol this
     = (if includes (availableProtocols this) "udp" then "udp" else "auto")
  /\ comparisonMode this = true.
Proof.
  destruct window as [hw ipc hu uo ui].
  destruct hw, ipc, hu, ui; cbn;
    (split; [reflexivity|];
     split; [intros p Hp; intuition (subst; auto)|];
     split; [intros Hin; first [reflexivity | exfalso; intuition discriminate]|];
     split; [intros Hin; first [reflexivity | exfalso; intuition discriminate]|];
     split; reflexivity).
Qed.

(** X16: the protocol [initialize] preselects on a fresh object is the
    best-ranked available one (udp before webrtc before http), and
    [runSpeedTest] then runs the comparison. *)
Theorem initialize_preselects_best (net : network_t num) (window : window_t num) :
  let this := fst (initialize window constructor) in
  getSelectedProtocol this = hd "http" (priority_order (availableProtocols this))
  /\ runSpeedTest net this = inr (runComparisonTest net this).
Proof.
  destruct window as [hw ipc hu uo ui].
  destruct hw, ipc, hu, ui; split; reflexivity.
Qed.

(** X17: whichever entry of the protocol [<select>] the user picks after
    [initialize] on a fresh object, a Single-mode run attempts exactly
    one protocol, an available one, and resolves with its result: the
    fallback to HTTP is never needed. *)
Theorem single_run_after_initialize_needs_no_fallback
    (net : network_t num) (window : window_t num) (value : string) :
  let this0 := fst (initialize window constructor) in
  In value (select_options this0) ->
  let this := onProtocolChange value this0 in
  let single := runSingleProtocolTest net this in
  attempted single = [getSelectedProtocol this]
  /\ In (getSelectedProtocol this) (availableProtocols this)
  /\ exists r, settled single = Resolved r /\ protocol r = getSelectedProtocol this.
Proof.
  destruct window as [hw ipc hu uo ui].
  destruct hw, ipc, hu, ui; cbn -[runSingleProtocolTest];
    intros Hvalue;
    repeat (destruct Hvalue as [<-|Hvalue]; [|]);
    try contradiction;
    (split; [reflexivity|]; split; [cbn; tauto|]; eexists; split; reflexivity).
Qed.

(** X18: right after [initialize] the WebRTC test of the driver has no
    open data channel (nothing in the class creates or negotiates one):
    it resolves, but with a [null] ping average and no download or upload
    result. *)
Theorem webrtc_test_after_initialize_measures_nothing
    (net : network_t num) (window : window_t num) :
  hasWebRTC window = true ->
  let this := fst (initialize window constructor) in
  snd (runProtocolTest net this "webrtc")
  = Resolved (nothing_measured (Some (AveragePing None "webrtc")) "webrtc").
Proof.
  destruct window as [hw ipc hu uo ui]. cbn [hasWebRTC]. intros ->.
  destruct ipc, hu, ui; reflexivity.
Qed.

(** X19: [disconnect()] keeps the list of protocols and the selection,
    but shuts the test objects down: afterwards a UDP run resolves with
    all three phases [null], and a WebRTC run with a [null] ping average
    and no download or upload result. *)
Theorem disconnected_driver_measures_nothing (net : network_t num) (this : t num) :
  availableProtocols (disconnect this) = availableProtocols this
  /\ getSelectedProtocol (disconnect this) = getSelectedProtocol this
  /\ (udpTest this <> None ->
      runUDPTest (disconnect this) = Resolved (nothing_measured None "udp"))
  /\ (webrtcTest this <> None ->
      snd (runWebRTCTest net (disconnect this))
      = Resolved (nothing_measured (Some (AveragePing None "webrtc")) "webrtc")).
Proof.
  split; [reflexivity|]. split; [reflexivity|]. split.
  - intros Hudp. unfold runUDPTest, disconnect. cbn [udpTest].
    destruct (udpTest this) as [u|]; [reflexivity | congruence].
  - intros Hrtc. unfold runWebRTCTest, disconnect. cbn [webrtcTest].
    destruct (webrtcTest this) as [w|]; [reflexivity | congruence].
Qed.

End EngineFacts.

Lemma initialize_lists_what_it_created_witness :
  let this := fst (MultiProtocolSpeedTest.initialize Examples.full_window
                     MultiProtocolSpeedTest.constructor) in
  In "udp"%string (MultiProtocolSpeedTest.availableProtocols this)
  /\ MultiProtocolSpeedTest.udpTest this = Some (Examples.udp Examples.four_replies)
  /\ In "webrtc"%string (MultiProtocolSpeedTest.availableProtocols this)
  /\ MultiProtocolSpeedTest.webrtcTest this = Some WebRTCSpeedTest.constructor.
Proof.
  intros this.
  pose proof (initialize_lists_what_it_created Examples.full_window)
    as [_ [_ [Hudp [Hrtc _]]]].
  assert (Hin_udp : In "udp"%string (MultiProtocolSpeedTest.availableProtocols this))
    by (cbn; tauto).
  assert (Hin_rtc : In "webrtc"%string (MultiProtocolSpeedTest.availableProtocols this))
    by (cbn; tauto).
  split; [exact Hin_udp|]. split; [exact (Hudp Hin_udp)|].
  split; [exact Hin_rtc | exact (Hrtc Hin_rtc)].
Defined.

Lemma single_run_after_initialize_needs_no_fallback_witness :
  let this0 := fst (MultiProtocolSpeedTest.initialize Examples.full_window
                      MultiProtocolSpeedTest.constructor) in
  let this := MultiProtocolSpeedTest.onProtocolChange "webrtc" this0 in
  In "webrtc"%string (MultiProtocolSpeedTest.select_options this0)
  /\ MultiProtocolSpeedTest.attempted
       (MultiProtocolSpeedTest.runSingleProtocolTest Examples.quiet_network this)
     = ["webrtc"%string].
Proof.
  intros this0 this.
  assert (Hin : In "webrtc"%string (MultiProtocolSpeedTest.select_options this0))
    by (cbn; tauto).
  split; [exact Hin|].
  exact (proj1 (single_run_after_initialize_needs_no_fallback
                  Examples.quiet_network Examples.full_window "webrtc" Hin)).
Defined.

Lemma webrtc_test_after_initialize_measures_nothing_witness :
  MultiProtocolSpeedTest.hasWebRTC Examples.full_window = true
  /\ snd (MultiProtocolSpeedTest.runProtocolTest Examples.quiet_network
            (fst (MultiProtocolSpeedTest.initialize Examples.full_window
                    MultiProtocolSpeedTest.constructor)) "webrtc")
     = Resolved (nothing_measured
                   (Some (MultiProtocolSpeedTest.AveragePing None "webrtc")) "webrtc").
Proof.
  split; [reflexivity|].
  exact (webrtc_test_after_initialize_measures_nothing
           Examples.quiet_network Examples.full_window eq_refl).
Defined.

Lemma disconnected_driver_measures_nothing_witness :
  let this := fst (MultiProtocolSpeedTest.initialize Examples.full_window
                     MultiProtocolSpeedTest.constructor) in
  MultiProtocolSpeedTest.udpTest this <> None
  /\ MultiProtocolSpeedTest.runUDPTest (MultiProtocolSpeedTest.disconnect this)
     = Resolved (nothing_measured None "udp").
Proof.
  intros this.
  assert (Hudp : MultiProtocolSpeedTest.udpTest this <> None) by discriminate.
  split; [exact Hudp|].
  exact (proj1 (proj2 (proj2 (disconnected_driver_measures_nothing
                                Examples.quiet_network this))) Hudp).
Defined.

Section ComparisonTable.
Context {num : Type} `{Number num}.
Import MultiProtocolSpeedTest.
Local Open Scope string_scope.
Local Open Scope list_scope.

Lemma assign_named_labelled (key : string) (entry : comparisonEntry num)
    (results : list (string * comparisonEntry num)) :
  entry_protocol entry = key -> labelled results ->
  labelled (assign_named key entry results).
Proof.
  intros Hentry. induction results as [|[k v] rest IH]; intros Hall k' e' Hin.
  - destruct Hin as [Heq|[]]. injection Heq as <- <-. exact Hentry.
  - cbn [assign_named] in Hin. destruct (String.eqb_spec k key) as [->|Hne].
    + destruct Hin as [Heq|Hin].
      * injection Heq as <- <-. exact Hentry.
      * apply Hall. now right.
    + destruct Hin as [Heq|Hin].
      * apply Hall. left. exact Heq.
      * apply IH; [|exact Hin]. intros k'' e'' Hin'. apply Hall. now right.
Qed.

Lemma assign_named_NoDup {A : Type} (key : string) (value : A) (results : list (string * A)) :
  NoDup (map fst results) -> NoDup (map fst (assign_named key value results)).
Proof.
  intros Hnodup. rewrite assign_named_keys.
  destruct (includes (map fst results) key) eqn:Hin; [exact Hnodup|].
  apply includes_not_In in Hin.
  apply NoDup_app; [exact Hnodup | repeat constructor; intros [] | ].
  intros x Hx [<-|[]]. contradiction.
Qed.

Lemma assign_named_In_keys {A : Type} (key : string) (value : A)
    (results : list (string * A)) (p : string) :
  In p (map fst (assign_named key value results)) <-> In p (map fst results) \/ p = key.
Proof.
  rewrite assign_named_keys.
  destruct (includes (map fst results) key) eqn:Hin.
  - apply includes_In in Hin. split; [now left|]. intros [Hp| ->]; assumption.
  - rewrite in_app_iff. cbn. intuition.
Qed.

Lemma comparison_loop_table (net : network_t num) (protocols : list string) :
  forall (this : t num) (attempts : list string) (results : list (string * comparisonEntry num)),
    forallb ordinary_key protocols = true ->
    NoDup (map fst results) ->
    labelled results ->
    let out := snd (comparison_loop net protocols this attempts results) in
    NoDup (map fst out)
    /\ (forall p, In p (map fst out) <-> In p (map fst results) \/ In p protocols)
    /\ labelled out.
Proof.
  induction protocols as [|protocol rest IH];
    intros this attempts results Hordinary Hnodup Hlab.
  - cbn. split; [exact Hnodup|]. split; [intros p; tauto | exact Hlab].
  - cbn [comparison_loop].
    cbn [forallb] in Hordinary. apply andb_true_iff in Hordinary as [Hkey Hrest].
    destruct (runProtocolTest net this protocol) as [this1 testResult].
    set (entry := match testResult with
                  | Resolved r => Tested (set_protocol protocol r)
                  | Rejected error => Failed error protocol
                  end).
    assert (Hentry : entry_protocol entry = protocol)
      by (unfold entry; destruct testResult; reflexivity).
    rewrite (assign_ordinary protocol entry results Hkey).
    destruct (IH this1 (attempts ++ [protocol]) (assign_named protocol entry results) Hrest
                (assign_named_NoDup protocol entry results Hnodup)
                (assign_named_labelled protocol entry results Hentry Hlab))
      as [Hn [Hkeys Hl]].
    split; [exact Hn|]. split; [|exact Hl].
    intros p. rewrite Hkeys, assign_named_In_keys. cbn [In]. intuition.
Qed.

(** X20: when the names in [availableProtocols] are ordinary property
    names (none is an array index or ["__proto__"]), the object a
    comparison run resolves with is a proper table, repetitions in the
    list included: it has exactly one entry for each listed protocol and
    no other, and every entry carries the protocol it is filed under. *)
Theorem comparison_results_form_a_table (net : network_t num) (this : t num) :
  forallb ordinary_key (availableProtocols this) = true ->
  exists results,
    settled (runComparisonTest net this) = Resolved results
    /\ NoDup (map fst results)
    /\ (forall p, In p (map fst results) <-> In p (availableProtocols this))
    /\ (forall key entry, In (key, entry) results -> entry_protocol entry = key).
Proof.
  intros Hordinary. unfold runComparisonTest.
  pose proof (comparison_loop_table net (availableProtocols this) this [] [] Hordinary
                (NoDup_nil _) (fun k e (Hin : In (k, e) []) => match Hin with end))
    as [Hn [Hkeys Hl]].
  destruct (comparison_loop net (availableProtocols this) this [] [])
    as [[this1 attempts] results].
  exists results. split; [reflexivity|]. split; [exact Hn|]. split; [|exact Hl].
  intros p. rewrite Hkeys. cbn. tauto.
Qed.

(** X21: the [protocol] field of what a Single-mode run resolves with
    names the protocol whose test produced it: the last one attempted
    ("http" after a fallback). *)
Theorem single_result_names_last_attempt (net : network_t num) (this : t num)
    (r : testResults num) :
  settled (runSingleProtocolTest net this) = Resolved r ->
  protocol r = last (attempted (runSingleProtocolTest net this)) "".
Proof.
  unfold runSingleProtocolTest.
  destruct (runProtocolTest net this (getSelectedProtocol this)) as [this1 [r1|e]] eqn:Hrun.
  - cbn. intros Heq. injection Heq as <-. reflexivity.
  - destruct (autoFallback (config this1) && negb (getSelectedProtocol this =? "http")).
    + rewrite runProtocolTest_http. cbn. intros Heq. injection Heq as <-. reflexivity.
    + cbn. discriminate.
Qed.

(** X22: [initialize] appends to [availableProtocols] and never clears
    it: run a second time on the same page it lists every kind twice,
    and a comparison run then tests every kind twice. *)
Theorem initialize_appends (net : network_t num) (window : window_t num) (this : t num) :
  availableProtocols (fst (initialize window this))
  = availableProtocols this ++ probe_order window
  /\ attempted (runComparisonTest net
                  (fst (initialize window (fst (initialize window constructor)))))
     = probe_order window ++ probe_order window.
Proof.
  assert (Happend : forall o : t num,
             availableProtocols (fst (initialize window o))
             = availableProtocols o ++ probe_order window).
  { intros o. unfold initialize, probe_order.
    destruct (hasWebRTC window), (initializePeerConnection window),
      (hasUDP window), (udpInitialize window);
      cbn; rewrite <- ?app_assoc; cbn; rewrite ?app_nil_r; reflexivity. }
  split; [apply Happend|].
  unfold runComparisonTest.
  pose proof (comparison_loop_attempted net
                (availableProtocols (fst (initialize window (fst (initialize window constructor)))))
                (fst (initialize window (fst (initialize window constructor)))) [] [])
    as Hloop.
  destruct (comparison_loop _ _ _ _ _) as [[this1 attempts] results].
  cbn [attempted]. cbn [fst snd app] in Hloop. rewrite Hloop.
  rewrite Happend, Happend. reflexivity.
Qed.

(** X23: a protocol name the driver does not know ("Unknown protocol")
    ends, with [autoFallback], as an HTTP run: two attempts, and the
    placeholder result of the HTTP test. *)
Theorem unknown_protocol_ends_as_http (net : network_t num) (this : t num) :
  currentProtocol this <> "auto" ->
  currentProtocol this <> "udp" ->
  currentProtocol this <> "webrtc" ->
  currentProtocol this <> "http" ->
  autoFallback (config this) = true ->
  attempted (runSingleProtocolTest net this) = [currentProtocol this; "http"]
  /\ settled (runSingleProtocolTest net this) = runHTTPTest this
  /\ after (runSingleProtocolTest net this) = this.
Proof.
  intros Hauto Hudp Hrtc Hhttp Hflag.
  apply String.eqb_neq in Hauto, Hudp, Hrtc, Hhttp.
  unfold runSingleProtocolTest, getSelectedProtocol, runProtocolTest.
  rewrite Hauto, Hudp, Hrtc, Hhttp, Hflag. cbn.
  repeat split.
Qed.

End ComparisonTable.

Lemma comparison_results_form_a_table_witness :
  let this := fst (MultiProtocolSpeedTest.initialize Examples.full_window
                     MultiProtocolSpeedTest.constructor) in
  forallb MultiProtocolSpeedTest.ordinary_key
    (MultiProtocolSpeedTest.availableProtocols this) = true
  /\ exists results,
      MultiProtocolSpeedTest.settled
        (MultiProtocolSpeedTest.runComparisonTest Examples.quiet_network this)
      = Resolved results
      /\ NoDup (map fst results)
      /\ (forall p, In p (map fst results)
                    <-> In p (MultiProtocolSpeedTest.availableProtocols this))
      /\ (forall key entry, In (key, entry) results -> entry_protocol entry = key).
Proof.
  intros this.
  split; [reflexivity|].
  apply (comparison_results_form_a_table Examples.quiet_network this).
  reflexivity.
Defined.

Lemma single_result_names_last_attempt_witness :
  exists r,
    MultiProtocolSpeedTest.settled
      (MultiProtocolSpeedTest.runSingleProtocolTest Examples.quiet_network
         Examples.udp_failing) = Resolved r
    /\ MultiProtocolSpeedTest.protocol r = "http"%string.
Proof.
  eexists. split; [reflexivity|].
  exact (single_result_names_last_attempt Examples.quiet_network Examples.udp_failing
           _ eq_refl).
Defined.

Lemma unknown_protocol_ends_as_http_witness :
  let this := MultiProtocolSpeedTest.onProtocolChange "quic" Examples.udp_failing in
  MultiProtocolSpeedTest.attempted
    (MultiProtocolSpeedTest.runSingleProtocolTest Examples.quiet_network this)
  = ["quic"; "http"]%string
  /\ MultiProtocolSpeedTest.settled
       (MultiProtocolSpeedTest.runSingleProtocolTest Examples.quiet_network this)
     = MultiProtocolSpeedTest.runHTTPTest this
  /\ MultiProtocolSpeedTest.after
       (MultiProtocolSpeedTest.runSingleProtocolTest Examples.quiet_network this)
     = this.
Proof.
  intros this.
  apply (unknown_protocol_ends_as_http Examples.quiet_network this);
    first [discriminate | reflexivity].
Defined.

Lemma phase_report_forgets_history_witness :
  let used : WebRTCSpeedTest.t float :=
    fst (WebRTCSpeedTest.downloadPhase 0 [(500, 16384)] 1000 Examples.open_channel)%float in
  WebRTCSpeedTest.dataChannelOpen used
  = WebRTCSpeedTest.dataChannelOpen (Examples.open_channel (num := float))
  /\ snd (WebRTCSpeedTest.downloadPhase 2000 [(2500, 1024)] 3000 used)%float
     = snd (WebRTCSpeedTest.downloadPhase 2000 [(2500, 1024)] 3000 Examples.open_channel)%float.
Proof.
  intros used.
  split; [reflexivity|].
  exact (proj1 (phase_report_forgets_history used Examples.open_channel
                  2000%float 3000%float [(2500, 1024)]%float [] eq_refl)).
Defined.

Section DriverAndChannel.
Context {num : Type} `{Number num}.
Import MultiProtocolSpeedTest.
Local Open Scope string_scope.
Local Open Scope list_scope.

(** Why a test throws: its object is missing, or its name is unknown. *)
Lemma runProtocolTest_rejected_message (net : network_t num) (this this1 : t num)
    (protocol error : string) :
  runProtocolTest net this protocol = (this1, Rejected error) ->
  error = "UDP testing not available"
  \/ error = "WebRTC testing not available"
  \/ error = String.append "Unknown protocol: " protocol.
Proof.
  unfold runProtocolTest.
  destruct (protocol =? "udp").
  { unfold runUDPTest. destruct (udpTest this); [discriminate|].
    intros Heq. injection Heq as _ <-. now left. }
  destruct (protocol =? "webrtc").
  { unfold runWebRTCTest. destruct (webrtcTest this) as [w|].
    - destruct (WebRTCSpeedTest.downloadPhase_send _ _ _ _ w) as [w1 down].
      destruct (WebRTCSpeedTest.uploadPhase _ _ _ w1) as [w2 up]. discriminate.
    - intros Heq. injection Heq as _ <-. right. now left. }
  destruct (protocol =? "http"); [discriminate|].
  intros Heq. injection Heq as _ <-. right. now right.
Qed.

Lemma comparison_loop_failures (net : network_t num) (protocols : list string) :
  forall (this : t num) (attempts : list string) (results : list (string * comparisonEntry num)),
    (forall key error p, In (key, Failed error p) results ->
       error = "UDP testing not available"
       \/ error = "WebRTC testing not available"
       \/ error = String.append "Unknown protocol: " p) ->
    forall key error p,
      In (key, Failed error p) (snd (comparison_loop net protocols this attempts results)) ->
      error = "UDP testing not available"
      \/ error = "WebRTC testing not available"
      \/ error = String.append "Unknown protocol: " p.
Proof.
  induction protocols as [|protocol rest IH]; intros this attempts results Hall;
    [exact Hall|].
  cbn [comparison_loop].
  destruct (runProtocolTest net this protocol) as [this1 testResult] eqn:Hrun.
  apply IH. intros key error p Hin.
  assert (Hcases : forall (entry : comparisonEntry num) l,
             In (key, Failed error p) (assign protocol entry l) ->
             In (key, Failed error p) l \/ entry = Failed error p).
  { intros entry l. unfold assign.
    destruct (protocol =? "__proto__"); [now left|].
    destruct (array_index protocol) as [n|].
    - induction l as [|[k v] l IHl]; cbn [assign_index].
      + intros [Heq|[]]. injection Heq as _ <-. now right.
      + destruct (k =? protocol).
        * intros [Heq|Hin']; [injection Heq as _ <-; now right | left; now right].
        * destruct (array_index k) as [n'|]; [destruct (n' <? n)%N|].
          -- intros [Heq|Hin']; [left; now left|].
             destruct (IHl Hin') as [Hl|He]; [left; now right | now right].
          -- intros [Heq|Hin']; [injection Heq as _ <-; now right | now left].
          -- intros [Heq|Hin']; [injection Heq as _ <-; now right | now left].
    - induction l as [|[k v] l IHl]; cbn [assign_named].
      + intros [Heq|[]]. injection Heq as _ <-. now right.
      + destruct (k =? protocol).
        * intros [Heq|Hin']; [injection Heq as _ <-; now right | left; now right].
        * intros [Heq|Hin']; [left; now left|].
          destruct (IHl Hin') as [Hl|He]; [left; now right | now right]. }
  destruct (Hcases _ _ Hin) as [Hold|Hnew]; [exact (Hall _ _ _ Hold)|].
  destruct testResult as [r|e]; [discriminate|].
  injection Hnew as <- <-.
  exact (runProtocolTest_rejected_message _ _ _ _ _ Hrun).
Qed.

(** X25: a comparison run records a protocol as failed for one of three
    reasons only: "UDP testing not available", "WebRTC testing not
    available" (the test object is missing) or "Unknown protocol: " and
    the name.  A failure inside a phase never makes a protocol fail. *)
Theorem comparison_failures_are_missing_tests (net : network_t num) (this : t num) :
  exists results,
    settled (runComparisonTest net this) = Resolved results
    /\ forall key error p,
        In (key, Failed error p) results ->
        error = "UDP testing not available"
        \/ error = "WebRTC testing not available"
        \/ error = String.append "Unknown protocol: " p.
Proof.
  unfold runComparisonTest.
  pose proof (comparison_loop_failures net (availableProtocols this) this [] []
                (fun k e p (Hin : In (k, Failed e p) []) => match Hin with end))
    as Hfail.
  destruct (comparison_loop net (availableProtocols this) this [] [])
    as [[this1 attempts] results].
  exists results. split; [reflexivity | exact Hfail].
Qed.

(** X26: after [initialize] on a fresh object a comparison run records
    no failure at all: every listed protocol has its test object, so
    every entry holds a test result. *)
Theorem comparison_after_initialize_has_no_failure
    (net : network_t num) (window : window_t num) :
  exists results,
    settled (runComparisonTest net (fst (initialize window constructor)))
    = Resolved results
    /\ forall key entry, In (key, entry) results -> exists r, entry = Tested r.
Proof.
  destruct window as [hw ipc hu uo ui].
  destruct hw, ipc, hu, ui; eexists; (split; [reflexivity|]);
    intros key entry Hin; cbn in Hin;
    repeat (destruct Hin as [Heq|Hin];
            [injection Heq as <- <-; eexists; reflexivity|]);
    contradiction.
Qed.

End DriverAndChannel.

